(** * ShareZidi v3 signaling relay: a shallow embedding of the Python servers

    The development embeds the WebSocket relay servers of the repository
    ([sharezidi-v3/main.py], [sharezidi-v3/ultimate_main.py] with the
    engine of [sharezidi-v3/streaming_optimizer.py],
    [sharezidi-v3-python/working_server.py], [.../webrtc_manager.py] and
    [.../advanced_server.py]) as state-passing functions and states the
    behaviour of their message handlers as theorems.

    Modelling conventions, shared by every module below:
    - a decoded JSON message is a value of [json]; Python's dynamic typing is
      kept: [dict.get] on a non-dict, [+] and [/] on non-numbers, and [in]
      with an unhashable key raise, exactly where the interpreter would;
    - Python floats are carried as the exact rational they approximate
      ([JFloat]); IEEE rounding and the non-finite floats are not modelled,
      and no theorem below depends on the numeric value of a float beyond
      what exact arithmetic gives on small integers. What is modelled is
      where the interpreter raises: [/] and [statistics.mean] raise
      [OverflowError] when an int, or the quotient of two ints, is too
      large for a float;
    - a Python [str] is carried as its UTF-8 bytes;
    - a handler is run atomically (the servers are single-threaded asyncio
      programs; the only suspension points inside a handler are the sends);
    - a WebSocket is a handle of type [ws]; [send_text] on a socket the
      environment reports as dead raises, on a live one it appends the
      message to the output log;
    - [uuid.uuid4()], [datetime.now()] and [time.time()] are inputs
      supplied by the environment, one value for each handler run. *)

From Stdlib Require Import ZArith QArith Qround Qabs Lqa String List.
From stdpp Require Import gmap strings list fin_maps.

Local Open Scope string_scope.
Local Open Scope Z_scope.

(** ** Decoded JSON values and the Python operations the handlers use *)

#[warnings="-register-all"]
Inductive json : Type :=
| JNull
| JBool (b : bool)
| JInt (z : Z)
| JFloat (q : Q)
| JStr (s : string)
| JArr (items : list json)
| JObj (fields : list (string * json)).

Inductive exn : Type :=
| AttributeError
| TypeError
| ZeroDivisionError
| OverflowError
| KeyError (key : string)
| SendError
| JSONDecodeError
| WebSocketDisconnect.

Inductive result (A : Type) : Type :=
| Ok (a : A)
| Raise (e : exn).
Arguments Ok {A} a.
Arguments Raise {A} e.

(** [bool(v)]: Python truthiness. *)
Definition truthy (v : json) : bool :=
  match v with
  | JNull => false
  | JBool b => b
  | JInt z => negb (z =? 0)
  | JFloat q => negb (Qeq_bool q 0)
  | JStr s => negb (String.eqb s "")
  | JArr l => match l with [] => false | _ => true end
  | JObj l => match l with [] => false | _ => true end
  end.

Definition is_none (v : json) : bool :=
  match v with JNull => true | _ => false end.

(** [v == s] for a [str] [s]: only a string can be equal to a string. *)
Definition eq_str (v : json) (s : string) : bool :=
  match v with JStr s' => String.eqb s' s | _ => false end.

Fixpoint assoc (k : string) (fields : list (string * json)) : option json :=
  match fields with
  | [] => None
  | (k', v) :: rest => if String.eqb k' k then Some v else assoc k rest
  end.

(** [d.get(k, default)]; only a dict has the method. *)
Definition get_default (d : json) (k : string) (default : json) : result json :=
  match d with
  | JObj fields => Ok (match assoc k fields with Some v => v | None => default end)
  | _ => Raise AttributeError
  end.

(** [d.get(k)] *)
Definition get (d : json) (k : string) : result json := get_default d k JNull.

(** [k in m] / [m[k]] for a dict [m] all of whose keys are strings: an
    unhashable key raises [TypeError], a hashable non-string is absent. *)
Definition lookup_key {V} (m : gmap string V) (k : json) : result (option V) :=
  match k with
  | JStr s => Ok (m !! s)
  | JArr _ | JObj _ => Raise TypeError
  | _ => Ok None
  end.

(** Numbers: [bool] is a subclass of [int]. *)
Inductive num : Type :=
| NInt (z : Z)
| NFloat (q : Q).

Definition as_num (v : json) : option num :=
  match v with
  | JBool b => Some (NInt (if b then 1 else 0))
  | JInt z => Some (NInt z)
  | JFloat q => Some (NFloat q)
  | _ => None
  end.

Definition num_to_Q (n : num) : Q :=
  match n with NInt z => inject_Z z | NFloat q => q end.

Definition num_is_zero (n : num) : bool :=
  match n with NInt z => z =? 0 | NFloat q => Qeq_bool q 0 end.

(** [v + n] for an int literal [n]. *)
Definition py_add_int (v : json) (n : Z) : result json :=
  match as_num v with
  | Some (NInt z) => Ok (JInt (z + n))
  | Some (NFloat q) => Ok (JFloat (q + inject_Z n))
  | None => Raise TypeError
  end.

(** The least magnitude of an int that does not fit a float: an int is
    converted by rounding to 53 bits, half to even, and from
    [2^1024 - 2^970] on the result would be [2^1024] or more. *)
Definition float_limit : Z := Eval vm_compute in (2 ^ 1024 - 2 ^ 970).

(** [float(n)] raises [OverflowError]: only an int can be too large. *)
Definition too_large_for_float (n : num) : bool :=
  match n with
  | NInt z => float_limit <=? Z.abs z
  | NFloat _ => false
  end.

(** [a / b]: true division. Of two ints, a zero divisor is looked at first
    and the quotient is then rounded as a whole, so that it overflows
    exactly when it is [float_limit] or more in magnitude, however large
    the operands. With a float on either side an int operand is converted
    first, which may overflow, and the divisor is tested afterwards. *)
Definition py_truediv (a b : json) : result json :=
  match as_num a, as_num b with
  | Some (NInt x), Some (NInt y) =>
      if y =? 0 then Raise ZeroDivisionError
      else if float_limit * Z.abs y <=? Z.abs x then Raise OverflowError
      else Ok (JFloat (inject_Z x / inject_Z y))
  | Some x, Some y =>
      if too_large_for_float x || too_large_for_float y then Raise OverflowError
      else if num_is_zero y then Raise ZeroDivisionError
      else Ok (JFloat (num_to_Q x / num_to_Q y))
  | _, _ => Raise TypeError
  end.

(** [v * n] for an int literal [n], on the numbers the handlers produce. *)
Definition py_mul_int (v : json) (n : Z) : result json :=
  match as_num v with
  | Some (NInt z) => Ok (JInt (z * n))
  | Some (NFloat q) => Ok (JFloat (q * inject_Z n))
  | None => Raise TypeError
  end.

(** [v < n] for an int literal [n]: ordering a non-number against an int
    raises. *)
Definition py_lt_int (v : json) (n : Z) : result bool :=
  match as_num v with
  | Some (NInt z) => Ok (z <? n)
  | Some (NFloat q) => Ok (negb (Qle_bool (inject_Z n) q))
  | None => Raise TypeError
  end.

(** [v > n] for an int literal [n]. *)
Definition py_gt_int (v : json) (n : Z) : result bool :=
  match as_num v with
  | Some (NInt z) => Ok (n <? z)
  | Some (NFloat q) => Ok (negb (Qle_bool q (inject_Z n)))
  | None => Raise TypeError
  end.

(** [min(cap, v * 2)] for an int literal [cap]: [min] returns its first
    argument unless the second is smaller. When [v] is not a number, either
    the product or the comparison with the int raises [TypeError]. *)
Definition py_min_cap_double (cap : Z) (v : json) : result json :=
  match as_num v with
  | Some (NInt z) => Ok (JInt (if z * 2 <? cap then z * 2 else cap))
  | Some (NFloat q) =>
      Ok (if negb (Qle_bool (inject_Z cap) (q * 2)) then JFloat (q * 2) else JInt cap)
  | None => Raise TypeError
  end.

(** [max(floor, v // 2)]: [max] returns its first argument unless the
    second is greater; [//] rounds down. *)
Definition py_max_floor_half (floor : Z) (v : json) : result json :=
  match as_num v with
  | Some (NInt z) => Ok (JInt (if floor <? z / 2 then z / 2 else floor))
  | Some (NFloat q) =>
      let h := inject_Z (Qfloor (q / 2)) in
      Ok (if negb (Qle_bool h (inject_Z floor)) then JFloat h else JInt floor)
  | None => Raise TypeError
  end.

(** [min(cap, v + 1)] and [max(floor, v - 1)] *)
Definition py_min_cap_succ (cap : Z) (v : json) : result json :=
  match as_num v with
  | Some (NInt z) => Ok (JInt (if z + 1 <? cap then z + 1 else cap))
  | Some (NFloat q) =>
      Ok (if negb (Qle_bool (inject_Z cap) (q + 1)) then JFloat (q + 1) else JInt cap)
  | None => Raise TypeError
  end.

Definition py_max_floor_pred (floor : Z) (v : json) : result json :=
  match as_num v with
  | Some (NInt z) => Ok (JInt (if floor <? z - 1 then z - 1 else floor))
  | Some (NFloat q) =>
      Ok (if negb (Qle_bool (q - 1) (inject_Z floor)) then JFloat (q - 1) else JInt floor)
  | None => Raise TypeError
  end.

(** ** Sockets, sent messages and the handler monad *)

Definition ws : Type := nat.

Record sent : Type := Sent { to_ws : ws; payload : json }.

Record outcome (S A : Type) : Type :=
  Outcome { res : result A; st : S; out : list sent }.
Arguments Outcome {S A} res st out.
Arguments res {S A} o.
Arguments st {S A} o.
Arguments out {S A} o.

(** State, output log and exceptions. A raise keeps the state and the log
    reached so far, as Python does. *)
Definition M (S A : Type) : Type := S -> outcome S A.

Definition ret {S A} (a : A) : M S A := fun s => Outcome (Ok a) s [].

Definition bind {S A B} (m : M S A) (k : A -> M S B) : M S B :=
  fun s =>
    match m s with
    | Outcome (Ok a) s1 o1 =>
        match k a s1 with
        | Outcome r s2 o2 => Outcome r s2 (o1 ++ o2)
        end
    | Outcome (Raise e) s1 o1 => Outcome (Raise e) s1 o1
    end.

Definition lift {S A} (r : result A) : M S A := fun s => Outcome r s [].

Definition gets {S A} (f : S -> A) : M S A := fun s => Outcome (Ok (f s)) s [].

Definition modify {S} (f : S -> S) : M S unit := fun s => Outcome (Ok tt) (f s) [].

(** [try: m except Exception: h] *)
Definition try_except {S A} (m : M S A) (h : exn -> M S A) : M S A :=
  fun s =>
    match m s with
    | Outcome (Ok a) s1 o1 => Outcome (Ok a) s1 o1
    | Outcome (Raise e) s1 o1 =>
        match h e s1 with
        | Outcome r s2 o2 => Outcome r s2 (o1 ++ o2)
        end
    end.

Declare Scope py_scope.
Delimit Scope py_scope with py.
Notation "x <- c1 ;; c2" := (bind c1 (fun x => c2))
  (at level 100, c1 at next level, right associativity) : py_scope.
Notation "c1 ;;; c2" := (bind c1 (fun _ => c2))
  (at level 100, right associativity) : py_scope.

(** [await websocket.send_text(json.dumps(msg))] *)
Definition send_text {S} (alive : ws -> bool) (w : ws) (msg : json) : M S unit :=
  fun s => if alive w then Outcome (Ok tt) s [Sent w msg]
           else Outcome (Raise SendError) s [].

(** The messages of a log that went to socket [w]. *)
Definition delivered (w : ws) (log : list sent) : list json :=
  map payload (filter (fun m => Nat.eqb (to_ws m) w) log).

(** What the environment supplies to one handler run. *)
Record env : Type := Env {
  alive : ws -> bool;      (* does [send_text] on this socket succeed? *)
  uuid4 : string;          (* [str(uuid.uuid4())] *)
  now : string;            (* [datetime.now().isoformat()] *)
  timestamp : string;      (* [datetime.now().timestamp()], formatted *)
  fmt : json -> string;    (* how an f-string renders a non-string value *)
  describe : exn -> string (* [str(e)] of a caught exception *)
}.

(** [f"{v}"]: a string is rendered as itself. *)
Definition py_str (e : env) (v : json) : string :=
  match v with JStr s => s | _ => fmt e v end.

(** Run a computation on a component of the state. *)
Definition zoom {S T A} (proj : S -> T) (inj : T -> S -> S) (m : M T A) : M S A :=
  fun s => match m (proj s) with Outcome r t o => Outcome r (inj t s) o end.

Definition obj (fields : list (string * json)) : json := JObj fields.

(** ** sharezidi-v3/main.py *)

Module Main.

(** One entry of [FileTransferManager.transfers]. *)
Record transfer : Type := Transfer {
  id : string;
  file_info : json;
  sender_id : string;
  receiver_id : json;
  status : string;
  progress : json;
  chunks_received : json;
  total_chunks : json;
  created_at : string
}.

(** [manager.active_connections] and [transfer_manager.transfers]
    ([ConnectionManager.file_transfers] is never read or written). *)
Record state : Type := State {
  active_connections : gmap string ws;
  transfers : gmap string transfer
}.

Definition initial : state := State ∅ ∅.

Definition set_progress (p : json) (t : transfer) : transfer :=
  Transfer (id t) (file_info t) (sender_id t) (receiver_id t) (status t) p
           (chunks_received t) (total_chunks t) (created_at t).

Definition set_status (v : string) (t : transfer) : transfer :=
  Transfer (id t) (file_info t) (sender_id t) (receiver_id t) v (progress t)
           (chunks_received t) (total_chunks t) (created_at t).

Definition with_transfers (f : gmap string transfer -> gmap string transfer)
    (s : state) : state :=
  State (active_connections s) (f (transfers s)).

(** [ConnectionManager.connect], after a successful [accept]. *)
Definition connect (websocket : ws) (client_id : string) (s : state) : state :=
  State (<[client_id := websocket]> (active_connections s)) (transfers s).

(** [ConnectionManager.disconnect] *)
Definition disconnect (client_id : string) (s : state) : state :=
  State (delete client_id (active_connections s)) (transfers s).

Section Handlers.
Variable e : env.
Local Open Scope py_scope.

(** [ConnectionManager.send_to_client]: no [try] around the send. *)
Definition send_to_client (client_id : json) (message : json) : M state unit :=
  conns <- gets active_connections ;;
  found <- lift (lookup_key conns client_id) ;;
  match found with
  | Some w => send_text (alive e) w message
  | None => ret tt
  end.

(** [FileTransferManager.create_transfer] *)
Definition create_transfer (transfer_id : string) (file_info : json)
    (sender_id : string) (receiver_id : json) : M state unit :=
  total <- lift (get_default file_info "total_chunks" (JInt 0)) ;;
  modify (with_transfers (insert transfer_id
    (Transfer transfer_id file_info sender_id receiver_id "pending"
              (JInt 0) (JInt 0) total (now e)))).

(** [FileTransferManager.update_progress] *)
Definition update_progress (transfer_id : json) (progress : json) : M state unit :=
  ts <- gets transfers ;;
  found <- lift (lookup_key ts transfer_id) ;;
  match found, transfer_id with
  | Some t, JStr k => modify (with_transfers (insert k (set_progress progress t)))
  | _, _ => ret tt
  end.

(** [FileTransferManager.complete_transfer] *)
Definition complete_transfer (transfer_id : json) : M state unit :=
  ts <- gets transfers ;;
  found <- lift (lookup_key ts transfer_id) ;;
  match found, transfer_id with
  | Some t, JStr k =>
      modify (with_transfers
        (insert k (set_progress (JInt 100) (set_status "completed" t))))
  | _, _ => ret tt
  end.

Definition handle_file_transfer_start (client_id : string) (message : json)
    (websocket : ws) : M state unit :=
  file_info <- lift (get_default message "file_info" (obj [])) ;;
  receiver_id <- lift (get message "receiver_id") ;;
  if negb (truthy receiver_id) then
    send_text (alive e) websocket
      (obj [("type", JStr "error"); ("message", JStr "Receiver ID required")])
  else
    let transfer_id := uuid4 e in
    create_transfer transfer_id file_info client_id receiver_id ;;;
    send_to_client receiver_id
      (obj [("type", JStr "incoming_transfer");
            ("transfer_id", JStr transfer_id);
            ("file_info", file_info);
            ("sender_id", JStr client_id)]) ;;;
    send_text (alive e) websocket
      (obj [("type", JStr "transfer_started");
            ("transfer_id", JStr transfer_id);
            ("status", JStr "pending")]).

Definition handle_file_chunk (client_id : string) (message : json)
    (websocket : ws) : M state unit :=
  transfer_id <- lift (get message "transfer_id") ;;
  chunk_data <- lift (get message "chunk_data") ;;
  chunk_index <- lift (get message "chunk_index") ;;
  total_chunks <- lift (get message "total_chunks") ;;
  if negb (truthy transfer_id && truthy chunk_data && negb (is_none chunk_index)) then
    send_text (alive e) websocket
      (obj [("type", JStr "error"); ("message", JStr "Missing required chunk data")])
  else
    next <- lift (py_add_int chunk_index 1) ;;
    ratio <- lift (py_truediv next total_chunks) ;;
    progress <- lift (py_mul_int ratio 100) ;;
    update_progress transfer_id progress ;;;
    send_text (alive e) websocket
      (obj [("type", JStr "progress_update");
            ("transfer_id", transfer_id);
            ("progress", progress);
            ("chunk_index", chunk_index)]) ;;;
    ts <- gets transfers ;;
    found <- lift (lookup_key ts transfer_id) ;;
    match found with
    | Some t =>
        send_to_client (receiver_id t)
          (obj [("type", JStr "file_chunk");
                ("transfer_id", transfer_id);
                ("chunk_data", chunk_data);
                ("chunk_index", chunk_index);
                ("total_chunks", total_chunks)])
    | None => ret tt
    end.

Definition handle_chunk_ack (client_id : string) (message : json)
    (websocket : ws) : M state unit :=
  transfer_id <- lift (get message "transfer_id") ;;
  chunk_index <- lift (get message "chunk_index") ;;
  received_progress <- lift (get_default message "received_progress" (JInt 0)) ;;
  ts <- gets transfers ;;
  found <- lift (lookup_key ts transfer_id) ;;
  match found with
  | Some t =>
      send_to_client (JStr (sender_id t))
        (obj [("type", JStr "chunk_ack");
              ("transfer_id", transfer_id);
              ("chunk_index", chunk_index);
              ("received_progress", received_progress)])
  | None => ret tt
  end.

Definition handle_transfer_complete (client_id : string) (message : json)
    (websocket : ws) : M state unit :=
  transfer_id <- lift (get message "transfer_id") ;;
  ts <- gets transfers ;;
  found <- lift (lookup_key ts transfer_id) ;;
  match found with
  | Some _ =>
      complete_transfer transfer_id ;;;
      ts' <- gets transfers ;;
      found' <- lift (lookup_key ts' transfer_id) ;;
      match found' with
      | Some t =>
          send_to_client (JStr (sender_id t))
            (obj [("type", JStr "transfer_completed");
                  ("transfer_id", transfer_id);
                  ("status", JStr "completed")])
      | None => ret tt
      end
  | None => ret tt
  end.

Definition handle_websocket_message (client_id : string) (message : json)
    (websocket : ws) : M state unit :=
  message_type <- lift (get message "type") ;;
  if eq_str message_type "ping" then
    timestamp <- lift (get message "timestamp") ;;
    send_text (alive e) websocket
      (obj [("type", JStr "pong"); ("timestamp", timestamp)])
  else if eq_str message_type "file_transfer_start" then
    handle_file_transfer_start client_id message websocket
  else if eq_str message_type "file_chunk" then
    handle_file_chunk client_id message websocket
  else if eq_str message_type "chunk_ack" then
    handle_chunk_ack client_id message websocket
  else if eq_str message_type "transfer_complete" then
    handle_transfer_complete client_id message websocket
  else ret tt.

(** One iteration of the [while True] body of [websocket_endpoint]:
    [data] is the received text decoded by [json.loads] ([None] when the
    text is not JSON). Any exception ends the loop in [disconnect]. *)
Definition on_text (client_id : string) (websocket : ws) (data : option json)
    : M state unit :=
  try_except
    (message <- lift (match data with Some m => Ok m | None => Raise JSONDecodeError end) ;;
     handle_websocket_message client_id message websocket)
    (fun _ => modify (disconnect client_id)).

End Handlers.

(** What can happen on the connection loops of the server. *)
Inductive event : Type :=
| Connect (client_id : string) (websocket : ws)
| Text (client_id : string) (websocket : ws) (data : option json)
| Close (client_id : string).  (* [receive_text] raises [WebSocketDisconnect] *)

Definition step (e : env) (ev : event) (s : state) : outcome state unit :=
  match ev with
  | Connect client_id websocket => Outcome (Ok tt) (connect websocket client_id s) []
  | Text client_id websocket data => on_text e client_id websocket data s
  | Close client_id => Outcome (Ok tt) (disconnect client_id s) []
  end.

(** A run: each event with the environment it meets; the log accumulates. *)
Fixpoint run (evs : list (env * event)) (s : state) : state * list sent :=
  match evs with
  | [] => (s, [])
  | (e, ev) :: rest =>
      match step e ev s with
      | Outcome _ s1 o1 =>
          match run rest s1 with
          | (s2, o2) => (s2, (o1 ++ o2)%list)
          end
      end
  end.

End Main.

(** ** sharezidi-v3-python/working_server.py *)

Module Working.

(** One entry of [manager.transfers]. *)
Record transfer : Type := Transfer {
  id : string;
  file_info : json;
  sender_id : string;
  receiver_id : json;
  status : string;
  progress : json;
  chunks_received : json;
  total_chunks : json
}.

Record state : Type := State {
  active_connections : gmap string ws;
  transfers : gmap string transfer
}.

Definition initial : state := State ∅ ∅.

(** [t["progress"] = p; t["chunks_received"] = n] *)
Definition set_progress_received (p n : json) (t : transfer) : transfer :=
  Transfer (id t) (file_info t) (sender_id t) (receiver_id t) (status t) p n
           (total_chunks t).

(** [t["status"] = "completed"; t["progress"] = 100] *)
Definition set_completed (t : transfer) : transfer :=
  Transfer (id t) (file_info t) (sender_id t) (receiver_id t) "completed"
           (JInt 100) (chunks_received t) (total_chunks t).

Definition with_transfers (f : gmap string transfer -> gmap string transfer)
    (s : state) : state :=
  State (active_connections s) (f (transfers s)).

Definition connect (websocket : ws) (client_id : string) (s : state) : state :=
  State (<[client_id := websocket]> (active_connections s)) (transfers s).

Definition disconnect (client_id : string) (s : state) : state :=
  State (delete client_id (active_connections s)) (transfers s).

Section Handlers.
Variable e : env.
Local Open Scope py_scope.

(** [ConnectionManager.send_to_client]: a failed send is caught and
    reported as [False]; the membership test is outside the [try]. *)
Definition send_to_client (client_id : json) (message : json) : M state bool :=
  conns <- gets active_connections ;;
  found <- lift (lookup_key conns client_id) ;;
  match found with
  | Some w =>
      try_except (send_text (alive e) w message ;;; ret true) (fun _ => ret false)
  | None => ret false
  end.

Definition handle_file_transfer_start (client_id : string) (message : json)
    (websocket : ws) : M state unit :=
  file_info <- lift (get_default message "file_info" (obj [])) ;;
  receiver_id <- lift (get message "receiver_id") ;;
  if negb (truthy receiver_id) then
    send_text (alive e) websocket
      (obj [("type", JStr "error"); ("message", JStr "Receiver ID required")])
  else
    let transfer_id := uuid4 e in
    total <- lift (get_default file_info "total_chunks" (JInt 0)) ;;
    modify (with_transfers (insert transfer_id
      (Transfer transfer_id file_info client_id receiver_id "pending"
                (JInt 0) (JInt 0) total))) ;;;
    send_to_client receiver_id
      (obj [("type", JStr "incoming_transfer");
            ("transfer_id", JStr transfer_id);
            ("file_info", file_info);
            ("sender_id", JStr client_id)]) ;;;
    send_text (alive e) websocket
      (obj [("type", JStr "transfer_started");
            ("transfer_id", JStr transfer_id);
            ("status", JStr "pending")]).

Definition handle_file_chunk (client_id : string) (message : json)
    (websocket : ws) : M state unit :=
  transfer_id <- lift (get message "transfer_id") ;;
  chunk_data <- lift (get message "chunk_data") ;;
  chunk_index <- lift (get message "chunk_index") ;;
  total_chunks <- lift (get message "total_chunks") ;;
  if negb (truthy transfer_id && truthy chunk_data && negb (is_none chunk_index)) then
    send_text (alive e) websocket
      (obj [("type", JStr "error"); ("message", JStr "Missing required chunk data")])
  else
    next <- lift (py_add_int chunk_index 1) ;;
    ratio <- lift (py_truediv next total_chunks) ;;
    progress <- lift (py_mul_int ratio 100) ;;
    ts <- gets transfers ;;
    found <- lift (lookup_key ts transfer_id) ;;
    match found, transfer_id with
    | Some t, JStr k =>
        modify (with_transfers (insert k (set_progress_received progress next t)))
    | _, _ => ret tt
    end ;;;
    send_text (alive e) websocket
      (obj [("type", JStr "progress_update");
            ("transfer_id", transfer_id);
            ("progress", progress);
            ("chunk_index", chunk_index)]) ;;;
    ts' <- gets transfers ;;
    found' <- lift (lookup_key ts' transfer_id) ;;
    match found' with
    | Some t =>
        send_to_client (receiver_id t)
          (obj [("type", JStr "file_chunk");
                ("transfer_id", transfer_id);
                ("chunk_data", chunk_data);
                ("chunk_index", chunk_index);
                ("total_chunks", total_chunks)]) ;;; ret tt
    | None => ret tt
    end.

Definition handle_chunk_ack (client_id : string) (message : json)
    (websocket : ws) : M state unit :=
  transfer_id <- lift (get message "transfer_id") ;;
  chunk_index <- lift (get message "chunk_index") ;;
  received_progress <- lift (get_default message "received_progress" (JInt 0)) ;;
  ts <- gets transfers ;;
  found <- lift (lookup_key ts transfer_id) ;;
  match found with
  | Some t =>
      send_to_client (JStr (sender_id t))
        (obj [("type", JStr "chunk_ack");
              ("transfer_id", transfer_id);
              ("chunk_index", chunk_index);
              ("received_progress", received_progress)]) ;;; ret tt
  | None => ret tt
  end.

Definition handle_transfer_complete (client_id : string) (message : json)
    (websocket : ws) : M state unit :=
  transfer_id <- lift (get message "transfer_id") ;;
  ts <- gets transfers ;;
  found <- lift (lookup_key ts transfer_id) ;;
  match found, transfer_id with
  | Some t, JStr k =>
      modify (with_transfers (insert k (set_completed t))) ;;;
      send_to_client (JStr (sender_id t))
        (obj [("type", JStr "transfer_completed");
              ("transfer_id", transfer_id);
              ("status", JStr "completed")]) ;;; ret tt
  | _, _ => ret tt
  end.

Definition handle_message (client_id : string) (message : json)
    (websocket : ws) : M state unit :=
  message_type <- lift (get message "type") ;;
  if eq_str message_type "ping" then
    timestamp <- lift (get message "timestamp") ;;
    send_text (alive e) websocket
      (obj [("type", JStr "pong"); ("timestamp", timestamp)])
  else if eq_str message_type "file_transfer_start" then
    handle_file_transfer_start client_id message websocket
  else if eq_str message_type "file_chunk" then
    handle_file_chunk client_id message websocket
  else if eq_str message_type "chunk_ack" then
    handle_chunk_ack client_id message websocket
  else if eq_str message_type "transfer_complete" then
    handle_transfer_complete client_id message websocket
  else ret tt.

End Handlers.

End Working.

(** ** sharezidi-v3/ultimate_main.py: the connection manager and the
    WebRTC signaling handlers *)

Module Ultimate.

(** [connection_manager]'s three dicts, and [streaming_engine.active_streams],
    the only per-transfer record this server keeps. *)
Record state : Type := State {
  active_connections : gmap string ws;
  webrtc_connections : gmap string json;
  device_capabilities : gmap string json;
  active_streams : gmap string json
}.

Definition initial : state := State ∅ ∅ ∅ ∅.

(** [ConnectionManager.connect] as the endpoint calls it ([device_info] is
    left at its default [None]). *)
Definition connect (websocket : ws) (client_id : string) (s : state) : state :=
  State (<[client_id := websocket]> (active_connections s))
        (webrtc_connections s) (device_capabilities s) (active_streams s).

(** [ConnectionManager.disconnect] *)
Definition disconnect (client_id : string) (s : state) : state :=
  State (delete client_id (active_connections s))
        (delete client_id (webrtc_connections s))
        (delete client_id (device_capabilities s))
        (active_streams s).

Section Handlers.
Variable e : env.
Local Open Scope py_scope.

Definition send_to_client (client_id : json) (message : json) : M state bool :=
  conns <- gets active_connections ;;
  found <- lift (lookup_key conns client_id) ;;
  match found with
  | Some w =>
      try_except (send_text (alive e) w message ;;; ret true) (fun _ => ret false)
  | None => ret false
  end.

(** [target_client and target_client in connection_manager.active_connections] *)
Definition target_registered (target_client : json) : M state bool :=
  if truthy target_client then
    conns <- gets active_connections ;;
    found <- lift (lookup_key conns target_client) ;;
    ret (match found with Some _ => true | None => false end)
  else ret false.

Definition handle_webrtc_offer (client_id : string) (message : json)
    (websocket : ws) : M state unit :=
  offer <- lift (get message "offer") ;;
  target_client <- lift (get message "target_client") ;;
  registered <- target_registered target_client ;;
  if registered then
    send_to_client target_client
      (obj [("type", JStr "webrtc_offer");
            ("offer", offer);
            ("from_client", JStr client_id)]) ;;; ret tt
  else
    send_text (alive e) websocket
      (obj [("type", JStr "error"); ("message", JStr "Target client not found")]).

Definition handle_webrtc_answer (client_id : string) (message : json)
    (websocket : ws) : M state unit :=
  answer <- lift (get message "answer") ;;
  target_client <- lift (get message "target_client") ;;
  registered <- target_registered target_client ;;
  if registered then
    send_to_client target_client
      (obj [("type", JStr "webrtc_answer");
            ("answer", answer);
            ("from_client", JStr client_id)]) ;;; ret tt
  else ret tt.

Definition handle_webrtc_ice_candidate (client_id : string) (message : json)
    (websocket : ws) : M state unit :=
  candidate <- lift (get message "candidate") ;;
  target_client <- lift (get message "target_client") ;;
  registered <- target_registered target_client ;;
  if registered then
    send_to_client target_client
      (obj [("type", JStr "webrtc_ice_candidate");
            ("candidate", candidate);
            ("from_client", JStr client_id)]) ;;; ret tt
  else ret tt.

End Handlers.

End Ultimate.

(** ** sharezidi-v3-python/webrtc_manager.py *)

Module WebRTCManager.

(** An element of [connection["ice_candidates"]]. *)
Record ice_entry : Type := IceEntry {
  candidate : json;
  from_client : string;
  ice_timestamp : string
}.

(** One entry of [WebRTCManager.active_connections]. The dict has exactly
    these eight keys; in particular it has no key ["connection_id"]. *)
Record connection : Type := Connection {
  sender_id : string;
  receiver_id : json;
  file_info : json;
  status : string;
  created_at : string;
  ice_candidates : list ice_entry;
  offer : json;
  answer : json
}.

(** [pending_offers], [pending_answers] and the manager-level
    [ice_candidates] dict are created empty and never touched. *)
Record state : Type := State {
  active_connections : gmap string connection
}.

Definition initial : state := State ∅.

Definition set_offer (o : json) (c : connection) : connection :=
  Connection (sender_id c) (receiver_id c) (file_info c) "offer_received"
             (created_at c) (ice_candidates c) o (answer c).

Definition set_answer (a : json) (c : connection) : connection :=
  Connection (sender_id c) (receiver_id c) (file_info c) "answer_received"
             (created_at c) (ice_candidates c) (offer c) a.

Definition set_status (v : string) (c : connection) : connection :=
  Connection (sender_id c) (receiver_id c) (file_info c) v
             (created_at c) (ice_candidates c) (offer c) (answer c).

Definition append_candidate (x : ice_entry) (c : connection) : connection :=
  Connection (sender_id c) (receiver_id c) (file_info c) (status c)
             (created_at c) (ice_candidates c ++ [x]) (offer c) (answer c).

Section Methods.
Variable e : env.
Local Open Scope py_scope.

Definition initiate_connection (sender_id : string) (receiver_id : json)
    (file_info : json) : M state string :=
  let connection_id :=
    "webrtc_" ++ sender_id ++ "_" ++ py_str e receiver_id ++ "_" ++ timestamp e in
  modify (fun s => State (<[connection_id :=
    Connection sender_id receiver_id file_info "initiating" (now e) [] JNull JNull]>
    (active_connections s))) ;;;
  ret connection_id.

Definition handle_offer (connection_id : json) (offer : json)
    (client_id : string) : M state bool :=
  conns <- gets active_connections ;;
  found <- lift (lookup_key conns connection_id) ;;
  match found, connection_id with
  | Some connection, JStr k =>
      if negb (String.eqb (sender_id connection) client_id) then ret false
      else
        modify (fun s => State (<[k := set_offer offer connection]> (active_connections s))) ;;;
        ret true
  | _, _ => ret false
  end.

Definition handle_answer (connection_id : json) (answer : json)
    (client_id : string) : M state bool :=
  conns <- gets active_connections ;;
  found <- lift (lookup_key conns connection_id) ;;
  match found, connection_id with
  | Some connection, JStr k =>
      if negb (eq_str (receiver_id connection) client_id) then ret false
      else
        modify (fun s => State (<[k := set_answer answer connection]> (active_connections s))) ;;;
        ret true
  | _, _ => ret false
  end.

Definition handle_ice_candidate (connection_id : json) (candidate : json)
    (client_id : string) : M state bool :=
  conns <- gets active_connections ;;
  found <- lift (lookup_key conns connection_id) ;;
  match found, connection_id with
  | Some connection, JStr k =>
      if negb (String.eqb (sender_id connection) client_id
               || eq_str (receiver_id connection) client_id) then ret false
      else
        modify (fun s => State (<[k :=
          append_candidate (IceEntry candidate client_id (now e)) connection]>
          (active_connections s))) ;;;
        ret true
  | _, _ => ret false
  end.

(** [self.active_connections.get(connection_id)] *)
Definition get_connection_info (connection_id : json) : M state (option connection) :=
  conns <- gets active_connections ;;
  lift (lookup_key conns connection_id).

Definition update_connection_status (connection_id : json) (status : string)
    : M state unit :=
  conns <- gets active_connections ;;
  found <- lift (lookup_key conns connection_id) ;;
  match found, connection_id with
  | Some connection, JStr k =>
      modify (fun s => State (<[k := set_status status connection]> (active_connections s)))
  | _, _ => ret tt
  end.

Definition cleanup_connection (connection_id : json) : M state unit :=
  conns <- gets active_connections ;;
  found <- lift (lookup_key conns connection_id) ;;
  match found, connection_id with
  | Some _, JStr k => modify (fun s => State (delete k (active_connections s)))
  | _, _ => ret tt
  end.

End Methods.

End WebRTCManager.

Module P2PTransferManager.

(** One entry of [P2PTransferManager.active_transfers]; [completed_at] is
    absent until [complete_transfer] adds it. *)
Record transfer : Type := Transfer {
  transfer_id : string;
  connection_id : string;
  sender_id : string;
  receiver_id : json;
  file_info : json;
  status : string;
  progress : json;
  chunks_sent : json;
  chunks_received : json;
  total_chunks : json;
  started_at : string;
  transfer_speed : json;
  estimated_time : json;
  completed_at : option string
}.

(** One entry of [P2PTransferManager.transfer_stats]. *)
Record stats : Type := Stats {
  bytes_transferred : json;
  chunks_acknowledged : json;
  retry_count : json;
  network_quality : json;
  optimal_chunk_size : json;
  concurrent_streams : json
}.

(** The manager holds a reference to the one global [webrtc_manager]. *)
Record state : Type := State {
  webrtc_manager : WebRTCManager.state;
  active_transfers : gmap string transfer;
  transfer_stats : gmap string stats
}.

Definition initial : state := State WebRTCManager.initial ∅ ∅.

Definition with_webrtc_manager (w : WebRTCManager.state) (s : state) : state :=
  State w (active_transfers s) (transfer_stats s).

Definition with_transfers (f : gmap string transfer -> gmap string transfer)
    (s : state) : state :=
  State (webrtc_manager s) (f (active_transfers s)) (transfer_stats s).

Definition with_stats (f : gmap string stats -> gmap string stats)
    (s : state) : state :=
  State (webrtc_manager s) (active_transfers s) (f (transfer_stats s)).

Definition set_progress (p : json) (t : transfer) : transfer :=
  Transfer (transfer_id t) (connection_id t) (sender_id t) (receiver_id t)
           (file_info t) (status t) p (chunks_sent t) (chunks_received t)
           (total_chunks t) (started_at t) (transfer_speed t) (estimated_time t)
           (completed_at t).

Definition set_chunks_sent (n : json) (t : transfer) : transfer :=
  Transfer (transfer_id t) (connection_id t) (sender_id t) (receiver_id t)
           (file_info t) (status t) (progress t) n (chunks_received t)
           (total_chunks t) (started_at t) (transfer_speed t) (estimated_time t)
           (completed_at t).

Definition set_chunks_received (n : json) (t : transfer) : transfer :=
  Transfer (transfer_id t) (connection_id t) (sender_id t) (receiver_id t)
           (file_info t) (status t) (progress t) (chunks_sent t) n
           (total_chunks t) (started_at t) (transfer_speed t) (estimated_time t)
           (completed_at t).

Definition set_completed (at_ : string) (t : transfer) : transfer :=
  Transfer (transfer_id t) (connection_id t) (sender_id t) (receiver_id t)
           (file_info t) "completed" (JFloat 100) (chunks_sent t) (chunks_received t)
           (total_chunks t) (started_at t) (transfer_speed t) (estimated_time t)
           (Some at_).

Definition set_tuning (size streams : json) (x : stats) : stats :=
  Stats (bytes_transferred x) (chunks_acknowledged x) (retry_count x)
        (network_quality x) size streams.

Definition opt_apply {A} (f : json -> A -> A) (o : option json) (a : A) : A :=
  match o with Some v => if is_none v then a else f v a | None => a end.

Section Methods.
Variable e : env.
Local Open Scope py_scope.

Definition start_transfer (sender_id : string) (receiver_id : json)
    (file_info : json) : M state string :=
  let transfer_id :=
    "transfer_" ++ sender_id ++ "_" ++ py_str e receiver_id ++ "_" ++ timestamp e in
  connection_id <- zoom webrtc_manager with_webrtc_manager
    (WebRTCManager.initiate_connection e sender_id receiver_id file_info) ;;
  total <- lift (get_default file_info "total_chunks" (JInt 0)) ;;
  modify (with_transfers (insert transfer_id
    (Transfer transfer_id connection_id sender_id receiver_id file_info
              "pending" (JFloat 0) (JInt 0) (JInt 0) total (now e)
              (JInt 0) (JInt 0) None))) ;;;
  modify (with_stats (insert transfer_id
    (Stats (JInt 0) (JInt 0) (JInt 0) (JStr "unknown") (JInt (64 * 1024)) (JInt 1)))) ;;;
  ret transfer_id.

(** [update_transfer_progress(transfer_id, progress, chunks_sent=None,
    chunks_received=None)]: an omitted keyword is [None]. *)
Definition update_transfer_progress (transfer_id : json) (progress : json)
    (chunks_sent chunks_received : option json) : M state unit :=
  ts <- gets active_transfers ;;
  found <- lift (lookup_key ts transfer_id) ;;
  match found, transfer_id with
  | Some t, JStr k =>
      modify (with_transfers (insert k
        (opt_apply set_chunks_received chunks_received
          (opt_apply set_chunks_sent chunks_sent (set_progress progress t)))))
  | _, _ => ret tt
  end.

Definition complete_transfer (transfer_id : json) : M state unit :=
  ts <- gets active_transfers ;;
  found <- lift (lookup_key ts transfer_id) ;;
  match found, transfer_id with
  | Some t, JStr k => modify (with_transfers (insert k (set_completed (now e) t)))
  | _, _ => ret tt
  end.

(** [self.active_transfers.get(transfer_id)] *)
Definition get_transfer_info (transfer_id : json) : M state (option transfer) :=
  ts <- gets active_transfers ;;
  lift (lookup_key ts transfer_id).

(** [optimize_transfer]: the latency is read anew for each test, and the
    chunk size is stored before the stream count is computed. *)
Definition optimize_transfer (transfer_id : json) (network_conditions : json)
    : M state unit :=
  sts <- gets transfer_stats ;;
  found <- lift (lookup_key sts transfer_id) ;;
  match found, transfer_id with
  | Some x, JStr k =>
      latency <- lift (get_default network_conditions "latency" (JInt 0)) ;;
      low <- lift (py_lt_int latency 50) ;;
      if low : bool then
        size <- lift (py_min_cap_double (1024 * 1024) (optimal_chunk_size x)) ;;
        modify (with_stats (insert k (set_tuning size (concurrent_streams x) x))) ;;;
        streams <- lift (py_min_cap_succ 4 (concurrent_streams x)) ;;
        modify (with_stats (insert k (set_tuning size streams x)))
      else
        latency' <- lift (get_default network_conditions "latency" (JInt 0)) ;;
        high <- lift (py_gt_int latency' 200) ;;
        if high : bool then
          size <- lift (py_max_floor_half (16 * 1024) (optimal_chunk_size x)) ;;
          modify (with_stats (insert k (set_tuning size (concurrent_streams x) x))) ;;;
          streams <- lift (py_max_floor_pred 1 (concurrent_streams x)) ;;
          modify (with_stats (insert k (set_tuning size streams x)))
        else ret tt
  | _, _ => ret tt
  end.

End Methods.

End P2PTransferManager.

(** ** sharezidi-v3-python/advanced_server.py: the message handlers *)

Module Advanced.

(** [manager] and [p2p_transfer_manager]; the global [webrtc_manager] is the
    object the transfer manager refers to. *)
Record state : Type := State {
  active_connections : gmap string ws;
  client_info : gmap string json;
  p2p_transfer_manager : P2PTransferManager.state
}.

Definition initial : state := State ∅ ∅ P2PTransferManager.initial.

Definition with_p2p (p : P2PTransferManager.state) (s : state) : state :=
  State (active_connections s) (client_info s) p.

Definition webrtc_manager (s : state) : WebRTCManager.state :=
  P2PTransferManager.webrtc_manager (p2p_transfer_manager s).

Definition with_webrtc (w : WebRTCManager.state) (s : state) : state :=
  with_p2p (P2PTransferManager.with_webrtc_manager w (p2p_transfer_manager s)) s.

Definition active_transfers (s : state) : gmap string P2PTransferManager.transfer :=
  P2PTransferManager.active_transfers (p2p_transfer_manager s).

Definition transfer_stats (s : state) : gmap string P2PTransferManager.stats :=
  P2PTransferManager.transfer_stats (p2p_transfer_manager s).

Definition connections (s : state) : gmap string WebRTCManager.connection :=
  WebRTCManager.active_connections (webrtc_manager s).

Definition connect (websocket : ws) (client_id : string) (info : json)
    (s : state) : state :=
  State (<[client_id := websocket]> (active_connections s))
        (<[client_id := if truthy info then info else obj []]> (client_info s))
        (p2p_transfer_manager s).

Definition disconnect (client_id : string) (s : state) : state :=
  State (delete client_id (active_connections s))
        (delete client_id (client_info s))
        (p2p_transfer_manager s).

Definition set_stats (bytes quality : json) (x : P2PTransferManager.stats)
    : P2PTransferManager.stats :=
  P2PTransferManager.Stats bytes
    (P2PTransferManager.chunks_acknowledged x) (P2PTransferManager.retry_count x)
    quality
    (P2PTransferManager.optimal_chunk_size x) (P2PTransferManager.concurrent_streams x).

Section Handlers.
Variable e : env.
Local Open Scope py_scope.

Definition p2p {A} (m : M P2PTransferManager.state A) : M state A :=
  zoom p2p_transfer_manager with_p2p m.

Definition webrtc {A} (m : M WebRTCManager.state A) : M state A :=
  zoom webrtc_manager with_webrtc m.

Definition send_to_client (client_id : json) (message : json) : M state bool :=
  conns <- gets active_connections ;;
  found <- lift (lookup_key conns client_id) ;;
  match found with
  | Some w =>
      try_except (send_text (alive e) w message ;;; ret true) (fun _ => ret false)
  | None => ret false
  end.

Definition handle_file_transfer_start (client_id : string) (message : json)
    (websocket : ws) : M state unit :=
  file_info <- lift (get_default message "file_info" (obj [])) ;;
  receiver_id <- lift (get message "receiver_id") ;;
  use_webrtc <- lift (get_default message "use_webrtc" (JBool true)) ;;
  if negb (truthy receiver_id) then
    send_text (alive e) websocket
      (obj [("type", JStr "error"); ("message", JStr "Receiver ID required")])
  else if negb (truthy file_info) then
    send_text (alive e) websocket
      (obj [("type", JStr "error"); ("message", JStr "File info required")])
  else
    try_except
      (if truthy use_webrtc then
         transfer_id <- p2p (P2PTransferManager.start_transfer e client_id receiver_id file_info) ;;
         ts <- gets active_transfers ;;
         match ts !! transfer_id with
         | None => lift (Raise (KeyError transfer_id))
         | Some t =>
             connection_info <- webrtc (WebRTCManager.get_connection_info
                                          (JStr (P2PTransferManager.connection_id t))) ;;
             (* [connection_info["connection_id"] if connection_info else None]:
                a connection dict is never empty and has no such key *)
             connection_id <- lift (match connection_info with
                                    | Some _ => Raise (KeyError "connection_id")
                                    | None => Ok JNull
                                    end) ;;
             send_to_client receiver_id
               (obj [("type", JStr "incoming_transfer");
                     ("transfer_id", JStr transfer_id);
                     ("file_info", file_info);
                     ("sender_id", JStr client_id);
                     ("use_webrtc", JBool true);
                     ("connection_id", connection_id)]) ;;;
             send_text (alive e) websocket
               (obj [("type", JStr "transfer_started");
                     ("transfer_id", JStr transfer_id);
                     ("status", JStr "pending");
                     ("use_webrtc", JBool true);
                     ("connection_id", connection_id)])
         end
       else
         let transfer_id := uuid4 e in
         send_to_client receiver_id
           (obj [("type", JStr "incoming_transfer");
                 ("transfer_id", JStr transfer_id);
                 ("file_info", file_info);
                 ("sender_id", JStr client_id);
                 ("use_webrtc", JBool false)]) ;;;
         send_text (alive e) websocket
           (obj [("type", JStr "transfer_started");
                 ("transfer_id", JStr transfer_id);
                 ("status", JStr "pending");
                 ("use_webrtc", JBool false)]))
      (fun ex =>
         send_text (alive e) websocket
           (obj [("type", JStr "error");
                 ("message", JStr ("Failed to start transfer: " ++ describe e ex))])).

Definition handle_webrtc_offer (client_id : string) (message : json)
    (websocket : ws) : M state unit :=
  connection_id <- lift (get message "connection_id") ;;
  offer <- lift (get message "offer") ;;
  if negb (truthy connection_id) || negb (truthy offer) then
    send_text (alive e) websocket
      (obj [("type", JStr "error"); ("message", JStr "Connection ID and offer required")])
  else
    success <- webrtc (WebRTCManager.handle_offer connection_id offer client_id) ;;
    (if success : bool then
       connection_info <- webrtc (WebRTCManager.get_connection_info connection_id) ;;
       match connection_info with
       | Some c =>
           send_to_client (WebRTCManager.receiver_id c)
             (obj [("type", JStr "webrtc_offer");
                   ("connection_id", connection_id);
                   ("offer", offer);
                   ("sender_id", JStr client_id)]) ;;; ret tt
       | None => ret tt
       end
     else ret tt) ;;;
    send_text (alive e) websocket
      (obj [("type", JStr "webrtc_offer_processed");
            ("connection_id", connection_id);
            ("success", JBool success)]).

Definition handle_webrtc_answer (client_id : string) (message : json)
    (websocket : ws) : M state unit :=
  connection_id <- lift (get message "connection_id") ;;
  answer <- lift (get message "answer") ;;
  if negb (truthy connection_id) || negb (truthy answer) then
    send_text (alive e) websocket
      (obj [("type", JStr "error"); ("message", JStr "Connection ID and answer required")])
  else
    success <- webrtc (WebRTCManager.handle_answer connection_id answer client_id) ;;
    (if success : bool then
       connection_info <- webrtc (WebRTCManager.get_connection_info connection_id) ;;
       match connection_info with
       | Some c =>
           send_to_client (JStr (WebRTCManager.sender_id c))
             (obj [("type", JStr "webrtc_answer");
                   ("connection_id", connection_id);
                   ("answer", answer);
                   ("receiver_id", JStr client_id)]) ;;; ret tt
       | None => ret tt
       end
     else ret tt) ;;;
    send_text (alive e) websocket
      (obj [("type", JStr "webrtc_answer_processed");
            ("connection_id", connection_id);
            ("success", JBool success)]).

Definition handle_webrtc_ice_candidate (client_id : string) (message : json)
    (websocket : ws) : M state unit :=
  connection_id <- lift (get message "connection_id") ;;
  candidate <- lift (get message "candidate") ;;
  if negb (truthy connection_id) || negb (truthy candidate) then
    send_text (alive e) websocket
      (obj [("type", JStr "error");
            ("message", JStr "Connection ID and candidate required")])
  else
    success <- webrtc (WebRTCManager.handle_ice_candidate e connection_id candidate client_id) ;;
    (if success : bool then
       connection_info <- webrtc (WebRTCManager.get_connection_info connection_id) ;;
       match connection_info with
       | Some c =>
           let target_id :=
             if String.eqb client_id (WebRTCManager.sender_id c)
             then WebRTCManager.receiver_id c
             else JStr (WebRTCManager.sender_id c) in
           send_to_client target_id
             (obj [("type", JStr "webrtc_ice_candidate");
                   ("connection_id", connection_id);
                   ("candidate", candidate);
                   ("from_client", JStr client_id)]) ;;; ret tt
       | None => ret tt
       end
     else ret tt) ;;;
    send_text (alive e) websocket
      (obj [("type", JStr "webrtc_ice_candidate_processed");
            ("connection_id", connection_id);
            ("success", JBool success)]).

(** [handle_file_chunk]: the sender's progress is stored, the chunk itself
    is only passed on. *)
Definition handle_file_chunk (client_id : string) (message : json)
    (websocket : ws) : M state unit :=
  transfer_id <- lift (get message "transfer_id") ;;
  chunk_data <- lift (get message "chunk_data") ;;
  chunk_index <- lift (get message "chunk_index") ;;
  total_chunks <- lift (get message "total_chunks") ;;
  if negb (truthy transfer_id && truthy chunk_data && negb (is_none chunk_index)) then
    send_text (alive e) websocket
      (obj [("type", JStr "error"); ("message", JStr "Missing required chunk data")])
  else
    next <- lift (py_add_int chunk_index 1) ;;
    ratio <- lift (py_truediv next total_chunks) ;;
    progress <- lift (py_mul_int ratio 100) ;;
    ts <- gets active_transfers ;;
    found <- lift (lookup_key ts transfer_id) ;;
    match found with
    | Some _ =>
        chunks_sent <- lift (py_add_int chunk_index 1) ;;
        p2p (P2PTransferManager.update_transfer_progress
               transfer_id progress (Some chunks_sent) None)
    | None => ret tt
    end ;;;
    send_text (alive e) websocket
      (obj [("type", JStr "progress_update");
            ("transfer_id", transfer_id);
            ("progress", progress);
            ("chunk_index", chunk_index)]) ;;;
    ts' <- gets active_transfers ;;
    found' <- lift (lookup_key ts' transfer_id) ;;
    match found' with
    | Some transfer_info =>
        send_to_client (P2PTransferManager.receiver_id transfer_info)
          (obj [("type", JStr "file_chunk");
                ("transfer_id", transfer_id);
                ("chunk_data", chunk_data);
                ("chunk_index", chunk_index);
                ("total_chunks", total_chunks)]) ;;; ret tt
    | None => ret tt
    end.

Definition handle_chunk_ack (client_id : string) (message : json)
    (websocket : ws) : M state unit :=
  transfer_id <- lift (get message "transfer_id") ;;
  chunk_index <- lift (get message "chunk_index") ;;
  received_progress <- lift (get_default message "received_progress" (JInt 0)) ;;
  ts <- gets active_transfers ;;
  found <- lift (lookup_key ts transfer_id) ;;
  match found with
  | Some transfer_info =>
      next <- lift (py_add_int chunk_index 1) ;;
      p2p (P2PTransferManager.update_transfer_progress
             transfer_id received_progress None (Some next)) ;;;
      send_to_client (JStr (P2PTransferManager.sender_id transfer_info))
        (obj [("type", JStr "chunk_ack");
              ("transfer_id", transfer_id);
              ("chunk_index", chunk_index);
              ("received_progress", received_progress)]) ;;; ret tt
  | None => ret tt
  end.

Definition handle_transfer_progress (client_id : string) (message : json)
    (websocket : ws) : M state unit :=
  transfer_id <- lift (get message "transfer_id") ;;
  progress <- lift (get message "progress") ;;
  ts <- gets active_transfers ;;
  found <- lift (lookup_key ts transfer_id) ;;
  match found with
  | Some _ =>
      p2p (P2PTransferManager.update_transfer_progress transfer_id progress None None) ;;;
      sts <- gets transfer_stats ;;
      found_stats <- lift (lookup_key sts transfer_id) ;;
      match found_stats, transfer_id with
      | Some x, JStr k =>
          bytes <- lift (get_default message "bytes_transferred" (JInt 0)) ;;
          quality <- lift (get_default message "network_quality" (JStr "unknown")) ;;
          modify (fun s => with_p2p (P2PTransferManager.with_stats
                     (insert k (set_stats bytes quality x)) (p2p_transfer_manager s)) s)
      | _, _ => ret tt
      end
  | None => ret tt
  end.

Definition handle_transfer_complete (client_id : string) (message : json)
    (websocket : ws) : M state unit :=
  transfer_id <- lift (get message "transfer_id") ;;
  ts <- gets active_transfers ;;
  found <- lift (lookup_key ts transfer_id) ;;
  match found with
  | Some _ =>
      p2p (P2PTransferManager.complete_transfer e transfer_id) ;;;
      ts' <- gets active_transfers ;;
      found' <- lift (lookup_key ts' transfer_id) ;;
      match found' with
      | Some transfer_info =>
          send_to_client (JStr (P2PTransferManager.sender_id transfer_info))
            (obj [("type", JStr "transfer_completed");
                  ("transfer_id", transfer_id);
                  ("status", JStr "completed")]) ;;;
          send_to_client (P2PTransferManager.receiver_id transfer_info)
            (obj [("type", JStr "transfer_completed");
                  ("transfer_id", transfer_id);
                  ("status", JStr "completed")]) ;;; ret tt
      | None => ret tt
      end
  | None => ret tt
  end.

End Handlers.

End Advanced.

(** ** sharezidi-v3/streaming_optimizer.py: the optimizer *)

Module StreamingOptimizer.

Definition num_json (n : num) : json :=
  match n with NInt z => JInt z | NFloat q => JFloat q end.

(** [n < q] and [n > q] for a number [n] and a literal [q]. *)
Definition lt_lit (n : num) (q : Q) : bool := negb (Qle_bool q (num_to_Q n)).

Definition gt_lit (n : num) (q : Q) : bool := negb (Qle_bool (num_to_Q n) q).

(** [n * 2] *)
Definition double (n : num) : num :=
  match n with NInt z => NInt (z * 2) | NFloat q => NFloat (q * 2) end.

(** [int(k + n)] for an int [k]: [int] truncates a float towards zero. *)
Definition int_of_sum (k : Z) (n : num) : Z :=
  match n with
  | NInt z => k + z
  | NFloat q =>
      let v := (inject_Z k + q)%Q in
      if Qle_bool 0 v then Qfloor v else Qceiling v
  end.

(** [min(n * f, cap)] and [max(n * f, floor)] for a float literal [f] and an
    int literal: the product is a float, and it is the first argument, so it
    is the result unless the second is smaller (resp. greater). *)
Definition min_scaled (n : num) (f : Q) (cap : Z) : num :=
  let v := (num_to_Q n * f)%Q in
  if negb (Qle_bool v (inject_Z cap)) then NInt cap else NFloat v.

Definition max_scaled (n : num) (f : Q) (floor : Z) : num :=
  let v := (num_to_Q n * f)%Q in
  if negb (Qle_bool (inject_Z floor) v) then NInt floor else NFloat v.

(** The sum of a list of numbers, and whether all of them are ints;
    [None] if one is not a number. *)
Fixpoint sum_nums (l : list json) : option (Q * bool) :=
  match l with
  | [] => Some (0%Q, true)
  | v :: rest =>
      match as_num v, sum_nums rest with
      | Some (NInt z), Some (total, ints) => Some ((inject_Z z + total)%Q, ints)
      | Some (NFloat q), Some (total, _) => Some ((q + total)%Q, false)
      | _, _ => None
      end
  end.

(** [statistics.mean] of a non-empty list: the mean of ints is an int when
    it is a whole number; otherwise the exact mean is converted to a float,
    which raises [OverflowError] when it is too large; a value that is no
    number raises [TypeError]. *)
Definition py_mean (l : list json) : result num :=
  match sum_nums l with
  | Some (total, ints) =>
      let m := (total / inject_Z (Z.of_nat (length l)))%Q in
      if ints && Qeq_bool (inject_Z (Qfloor m)) m then Ok (NInt (Qfloor m))
      else if Qle_bool (inject_Z float_limit) (Qabs m) then Raise OverflowError
      else Ok (NFloat m)
  | None => Raise TypeError
  end.

(** [l.append(v)] followed by [if len(l) > 100: l = l[-100:]] *)
Definition append_capped (v : json) (l : list json) : list json :=
  let l' := (l ++ [v])%list in
  if (100 <? length l')%nat then skipn (length l' - 100) l' else l'.

(** [if key in metrics: <list>.append(metrics[key]) ...] *)
Definition record_metric (key : string) (metrics : list (string * json))
    (l : list json) : list json :=
  match assoc key metrics with
  | Some v => append_capped v l
  | None => l
  end.

(** [NetworkConditions] *)
Record network_conditions : Type := NetworkConditions {
  latency : num;
  bandwidth : num;
  packet_loss : num;
  jitter : num;
  connection_quality : string
}.

(** [StreamingOptimizer]. The config is the default [OptimizationConfig()]
    (level [ADAPTIVE], adaptive chunking on) and is never assigned to;
    [performance_metrics["chunk_sizes"]] and [optimization_callbacks] are
    never read. *)
Record optimizer : Type := Optimizer {
  conditions : network_conditions;
  transfer_speeds : list json;
  latencies : list json;
  success_rates : list json;
  adaptive_chunk_size : num
}.

Definition initial : optimizer :=
  Optimizer (NetworkConditions (NInt 0) (NInt 0) (NInt 0) (NInt 0) "unknown")
            [] [] [] (NInt (64 * 1024)).

Definition set_conditions (c : network_conditions) (o : optimizer) : optimizer :=
  Optimizer c (transfer_speeds o) (latencies o) (success_rates o)
            (adaptive_chunk_size o).

Definition set_chunk_size (n : num) (o : optimizer) : optimizer :=
  Optimizer (conditions o) (transfer_speeds o) (latencies o) (success_rates o) n.

Definition record_metrics (metrics : list (string * json)) (o : optimizer)
    : optimizer :=
  Optimizer (conditions o)
            (record_metric "transfer_speed" metrics (transfer_speeds o))
            (record_metric "latency" metrics (latencies o))
            (record_metric "success_rate" metrics (success_rates o))
            (adaptive_chunk_size o).

Definition _determine_connection_quality (latency bandwidth packet_loss jitter : num)
    : string :=
  let score :=
    (if lt_lit latency 20 then 30
     else if lt_lit latency 50 then 20
     else if lt_lit latency 100 then 10 else 0)
    + (if gt_lit bandwidth 100 then 30
       else if gt_lit bandwidth 50 then 20
       else if gt_lit bandwidth 10 then 10 else 0)
    + (if lt_lit packet_loss (1 # 100) then 20
       else if lt_lit packet_loss (5 # 100) then 10
       else if lt_lit packet_loss (1 # 10) then 5 else 0)
    + (if lt_lit jitter 10 then 20
       else if lt_lit jitter 20 then 10
       else if lt_lit jitter 50 then 5 else 0) in
  if 80 <=? score then "excellent"
  else if 60 <=? score then "good"
  else if 40 <=? score then "fair"
  else "poor".

Definition _calculate_optimal_chunk_size (c : network_conditions) : Z :=
  let base_size := 64 * 1024 in
  if String.eqb (connection_quality c) "excellent"
  then Z.min (base_size * 4) (1024 * 1024)
  else if String.eqb (connection_quality c) "good"
  then Z.min (base_size * 2) (512 * 1024)
  else if String.eqb (connection_quality c) "fair" then base_size
  else base_size / 2.

Definition _calculate_optimal_concurrency (c : network_conditions) : Z :=
  if String.eqb (connection_quality c) "excellent" then 8
  else if String.eqb (connection_quality c) "good" then 4
  else if String.eqb (connection_quality c) "fair" then 2
  else 1.

Definition _calculate_compression_level (c : network_conditions) : Z :=
  if lt_lit (bandwidth c) 10 then 9
  else if lt_lit (bandwidth c) 50 then 6
  else 3.

Definition _calculate_encryption_strength (c : network_conditions) : string :=
  if String.eqb (connection_quality c) "excellent" then "high"
  else if String.eqb (connection_quality c) "good" then "medium"
  else "low".

Definition _calculate_timeout (c : network_conditions) : Z :=
  let base_timeout := 5000 in
  let latency_factor := double (latency c) in
  int_of_sum base_timeout latency_factor.

Definition _calculate_retry_attempts (c : network_conditions) : Z :=
  if gt_lit (packet_loss c) (5 # 100) then 5
  else if gt_lit (packet_loss c) (1 # 100) then 3
  else 1.

Section Methods.
Local Open Scope py_scope.

(** [analyze_network_conditions]: the four tests are simulated and return
    25.0, 100.0, 0.01 and 5.0. *)
Definition analyze_network_conditions : M optimizer network_conditions :=
  let latency := NFloat 25 in
  let bandwidth := NFloat 100 in
  let packet_loss := NFloat (1 # 100) in
  let jitter := NFloat 5 in
  let quality := _determine_connection_quality latency bandwidth packet_loss jitter in
  modify (set_conditions
            (NetworkConditions latency bandwidth packet_loss jitter quality)) ;;;
  gets conditions.

Definition optimize_for_conditions : M optimizer json :=
  c <- gets conditions ;;
  modify (set_chunk_size (NInt (_calculate_optimal_chunk_size c))) ;;;
  size <- gets adaptive_chunk_size ;;
  ret (obj [("chunk_size", num_json size);
            ("max_concurrent_chunks", JInt (_calculate_optimal_concurrency c));
            ("compression_level", JInt (_calculate_compression_level c));
            ("encryption_strength", JStr (_calculate_encryption_strength c));
            ("timeout_ms", JInt (_calculate_timeout c));
            ("retry_attempts", JInt (_calculate_retry_attempts c))]).

Definition _adaptive_optimization : M optimizer unit :=
  speeds <- gets transfer_speeds ;;
  match speeds with
  | [] => ret tt
  | _ =>
      avg_speed <- lift (py_mean speeds) ;;
      lats <- gets latencies ;;
      avg_latency <- lift (match lats with [] => Ok (NInt 0) | _ => py_mean lats end) ;;
      rates <- gets success_rates ;;
      avg_success <- lift (match rates with [] => Ok (NFloat 1) | _ => py_mean rates end) ;;
      (if gt_lit avg_speed (inject_Z (50 * 1024 * 1024)) then
         modify (fun o => set_chunk_size
                   (min_scaled (adaptive_chunk_size o) (12 # 10) (1024 * 1024)) o)
       else if lt_lit avg_speed (inject_Z (10 * 1024 * 1024)) then
         modify (fun o => set_chunk_size
                   (max_scaled (adaptive_chunk_size o) (8 # 10) (16 * 1024)) o)
       else ret tt) ;;;
      (if lt_lit avg_success (95 # 100) then
         modify (fun o => set_chunk_size
                   (max_scaled (adaptive_chunk_size o) (9 # 10) (16 * 1024)) o)
       else ret tt) ;;;
      (* the log line formats [avg_speed/1024/1024] *)
      kilo <- lift (py_truediv (num_json avg_speed) (JInt 1024)) ;;
      lift (py_truediv kilo (JInt 1024)) ;;;
      ret tt
  end.

(** [update_performance_metrics]: [metrics] is the dict the caller built. *)
Definition update_performance_metrics (metrics : list (string * json))
    : M optimizer unit :=
  modify (record_metrics metrics) ;;;
  _adaptive_optimization.

Definition mean_or (default : num) (l : list json) : result num :=
  match l with [] => Ok default | _ => py_mean l end.

Definition get_optimization_report : M optimizer json :=
  o <- gets (fun o => o) ;;
  let c := conditions o in
  avg_transfer_speed <- lift (mean_or (NInt 0) (transfer_speeds o)) ;;
  avg_latency <- lift (mean_or (NInt 0) (latencies o)) ;;
  avg_success_rate <- lift (mean_or (NInt 0) (success_rates o)) ;;
  ret (obj [("network_conditions",
             obj [("latency", num_json (latency c));
                  ("bandwidth", num_json (bandwidth c));
                  ("packet_loss", num_json (packet_loss c));
                  ("jitter", num_json (jitter c));
                  ("quality", JStr (connection_quality c))]);
            ("performance_metrics",
             obj [("avg_transfer_speed", num_json avg_transfer_speed);
                  ("avg_latency", num_json avg_latency);
                  ("avg_success_rate", num_json avg_success_rate)]);
            ("current_optimization",
             obj [("chunk_size", num_json (adaptive_chunk_size o));
                  ("level", JStr "adaptive");
                  ("adaptive_chunking", JBool true)])]).

End Methods.

End StreamingOptimizer.

(** ** sharezidi-v3/ultimate_main.py with the streaming engine of
       streaming_optimizer.py: the transfer handlers and the connection loop *)

Module UltimateStreaming.

(** [connection_manager] and [streaming_engine]: the engine's
    [active_streams] is the fourth component of [Ultimate.state], each
    stream configuration a dict. *)
Record state : Type := State {
  manager : Ultimate.state;
  optimizer : StreamingOptimizer.optimizer
}.

Definition initial : state := State Ultimate.initial StreamingOptimizer.initial.

Definition with_manager (u : Ultimate.state) (s : state) : state :=
  State u (optimizer s).

Definition with_optimizer (o : StreamingOptimizer.optimizer) (s : state) : state :=
  State (manager s) o.

Definition active_streams (s : state) : gmap string json :=
  Ultimate.active_streams (manager s).

Definition device_capabilities (s : state) : gmap string json :=
  Ultimate.device_capabilities (manager s).

Definition with_streams (f : gmap string json -> gmap string json) (s : state)
    : state :=
  State (Ultimate.State (Ultimate.active_connections (manager s))
                        (Ultimate.webrtc_connections (manager s))
                        (Ultimate.device_capabilities (manager s))
                        (f (Ultimate.active_streams (manager s))))
        (optimizer s).

Definition with_capabilities (f : gmap string json -> gmap string json) (s : state)
    : state :=
  State (Ultimate.State (Ultimate.active_connections (manager s))
                        (Ultimate.webrtc_connections (manager s))
                        (f (Ultimate.device_capabilities (manager s)))
                        (Ultimate.active_streams (manager s)))
        (optimizer s).

(** [d[k] = v] on a dict given by its items. *)
Fixpoint dict_set (k : string) (v : json) (fields : list (string * json))
    : list (string * json) :=
  match fields with
  | [] => [(k, v)]
  | (k', v') :: rest =>
      if String.eqb k' k then (k, v) :: rest else (k', v') :: dict_set k v rest
  end.

(** [d[k] = v] for a string [k]: only a dict takes it. *)
Definition set_item (d : json) (k : string) (v : json) : result json :=
  match d with
  | JObj fields => Ok (JObj (dict_set k v fields))
  | _ => Raise TypeError
  end.

(** The code points of a string held as its UTF-8 bytes: every byte but
    the continuation bytes [10xxxxxx] starts one. *)
Fixpoint code_points (s : string) : nat :=
  match s with
  | EmptyString => 0
  | String (Ascii.Ascii _ _ _ _ _ _ b6 b7) rest =>
      ((if b7 && negb b6 then 0 else 1) + code_points rest)%nat
  end.

(** [len(v)]: the code points of a string, the items of a list or dict. *)
Definition py_len (v : json) : result Z :=
  match v with
  | JStr s => Ok (Z.of_nat (code_points s))
  | JArr l => Ok (Z.of_nat (length l))
  | JObj l => Ok (Z.of_nat (length l))
  | _ => Raise TypeError
  end.

Section Handlers.
Variable e : env.
(** [time.time()] *)
Variable clock : Q.
Local Open Scope py_scope.

Definition engine {A} (m : M StreamingOptimizer.optimizer A) : M state A :=
  zoom optimizer with_optimizer m.

Definition connection_manager {A} (m : M Ultimate.state A) : M state A :=
  zoom manager with_manager m.

(** [UltimateStreamingEngine.initialize], run once by [startup_event]. *)
Definition initialize : M state json :=
  engine StreamingOptimizer.analyze_network_conditions ;;;
  engine StreamingOptimizer.optimize_for_conditions.

(** [UltimateStreamingEngine.create_optimized_stream] *)
Definition create_optimized_stream (stream_id : string) (file_info : json)
    : M state json :=
  optimization <- engine StreamingOptimizer.optimize_for_conditions ;;
  let stream_config :=
    obj [("stream_id", JStr stream_id);
         ("file_info", file_info);
         ("optimization", optimization);
         ("created_at", JFloat clock);
         ("status", JStr "initialized")] in
  modify (with_streams (insert stream_id stream_config)) ;;;
  ret stream_config.

(** [UltimateStreamingEngine.update_stream_performance] *)
Definition update_stream_performance (stream_id : json)
    (metrics : list (string * json)) : M state unit :=
  streams <- gets active_streams ;;
  found <- lift (lookup_key streams stream_id) ;;
  match found, stream_id with
  | Some _, JStr k =>
      engine (StreamingOptimizer.update_performance_metrics metrics) ;;;
      streams1 <- gets active_streams ;;
      match streams1 !! k with
      | None => lift (Raise (KeyError k))
      | Some stream =>
          stream1 <- lift (set_item stream "last_update" (JFloat clock)) ;;
          modify (with_streams (insert k stream1)) ;;;
          stream2 <- lift (set_item stream1 "metrics" (obj metrics)) ;;
          modify (with_streams (insert k stream2))
      end
  | _, _ => ret tt
  end.

Definition handle_device_capabilities (client_id : string) (message : json)
    (websocket : ws) : M state unit :=
  capabilities <- lift (get_default message "capabilities" (obj [])) ;;
  modify (with_capabilities (insert client_id capabilities)) ;;;
  send_text (alive e) websocket
    (obj [("type", JStr "capabilities_registered"); ("status", JStr "success")]).

Definition handle_ultimate_file_transfer_start (client_id : string) (message : json)
    (websocket : ws) : M state unit :=
  file_info <- lift (get_default message "file_info" (obj [])) ;;
  receiver_id <- lift (get message "receiver_id") ;;
  transfer_method <- lift (get_default message "method" (JStr "auto")) ;;
  if negb (truthy receiver_id) then
    send_text (alive e) websocket
      (obj [("type", JStr "error"); ("message", JStr "Receiver ID required")])
  else
    let transfer_id := uuid4 e in
    transfer_method <-
      (if eq_str transfer_method "auto" then
         caps <- gets device_capabilities ;;
         let sender_caps := default (obj []) (caps !! client_id) in
         found <- lift (lookup_key caps receiver_id) ;;
         let receiver_caps := default (obj []) found in
         sender_webrtc <- lift (get sender_caps "supports_webrtc") ;;
         if truthy sender_webrtc then
           receiver_webrtc <- lift (get receiver_caps "supports_webrtc") ;;
           ret (JStr (if truthy receiver_webrtc then "webrtc" else "websocket"))
         else ret (JStr "websocket")
       else ret transfer_method) ;;
    stream_config <- create_optimized_stream transfer_id file_info ;;
    optimization <- lift (get stream_config "optimization") ;;
    connection_manager (Ultimate.send_to_client e receiver_id
      (obj [("type", JStr "incoming_transfer");
            ("transfer_id", JStr transfer_id);
            ("file_info", file_info);
            ("sender_id", JStr client_id);
            ("method", transfer_method);
            ("optimization", optimization)])) ;;;
    send_text (alive e) websocket
      (obj [("type", JStr "transfer_started");
            ("transfer_id", JStr transfer_id);
            ("method", transfer_method);
            ("optimization", optimization);
            ("status", JStr "pending")]).

Definition handle_optimized_file_chunk (client_id : string) (message : json)
    (websocket : ws) : M state unit :=
  transfer_id <- lift (get message "transfer_id") ;;
  chunk_data <- lift (get message "chunk_data") ;;
  chunk_index <- lift (get message "chunk_index") ;;
  total_chunks <- lift (get message "total_chunks") ;;
  if negb (truthy transfer_id && truthy chunk_data && negb (is_none chunk_index)) then
    send_text (alive e) websocket
      (obj [("type", JStr "error"); ("message", JStr "Missing required chunk data")])
  else
    chunk_size <- lift (py_len chunk_data) ;;
    update_stream_performance transfer_id
      [("chunk_index", chunk_index);
       ("chunk_size", JInt chunk_size);
       ("timestamp", JFloat clock)] ;;;
    next <- lift (py_add_int chunk_index 1) ;;
    ratio <- lift (py_truediv next total_chunks) ;;
    progress <- lift (py_mul_int ratio 100) ;;
    send_text (alive e) websocket
      (obj [("type", JStr "progress_update");
            ("transfer_id", transfer_id);
            ("progress", progress);
            ("chunk_index", chunk_index);
            ("optimization", JStr "active")]) ;;;
    streams <- gets active_streams ;;
    found <- lift (lookup_key streams transfer_id) ;;
    match found with
    | Some stream =>
        receiver_id <- lift (get stream "receiver_id") ;;
        if truthy receiver_id then
          connection_manager (Ultimate.send_to_client e receiver_id
            (obj [("type", JStr "file_chunk");
                  ("transfer_id", transfer_id);
                  ("chunk_data", chunk_data);
                  ("chunk_index", chunk_index);
                  ("total_chunks", total_chunks);
                  ("optimization", JStr "streaming")])) ;;; ret tt
        else ret tt
    | None => ret tt
    end.

Definition handle_chunk_ack (client_id : string) (message : json)
    (websocket : ws) : M state unit :=
  transfer_id <- lift (get message "transfer_id") ;;
  chunk_index <- lift (get message "chunk_index") ;;
  received_progress <- lift (get_default message "received_progress" (JInt 0)) ;;
  update_stream_performance transfer_id
    [("ack_received", JBool true);
     ("chunk_index", chunk_index);
     ("progress", received_progress);
     ("timestamp", JFloat clock)] ;;;
  streams <- gets active_streams ;;
  found <- lift (lookup_key streams transfer_id) ;;
  match found with
  | Some stream =>
      sender_id <- lift (get stream "sender_id") ;;
      if truthy sender_id then
        connection_manager (Ultimate.send_to_client e sender_id
          (obj [("type", JStr "chunk_ack");
                ("transfer_id", transfer_id);
                ("chunk_index", chunk_index);
                ("received_progress", received_progress);
                ("optimization", JStr "tracked")])) ;;; ret tt
      else ret tt
  | None => ret tt
  end.

Definition handle_transfer_complete (client_id : string) (message : json)
    (websocket : ws) : M state unit :=
  transfer_id <- lift (get message "transfer_id") ;;
  streams <- gets active_streams ;;
  found <- lift (lookup_key streams transfer_id) ;;
  match found, transfer_id with
  | Some stream, JStr k =>
      report <- engine StreamingOptimizer.get_optimization_report ;;
      sender_id <- lift (get stream "sender_id") ;;
      (if truthy sender_id then
         connection_manager (Ultimate.send_to_client e sender_id
           (obj [("type", JStr "transfer_completed");
                 ("transfer_id", transfer_id);
                 ("status", JStr "completed");
                 ("performance_report", report)])) ;;; ret tt
       else ret tt) ;;;
      modify (with_streams (delete k))
  | _, _ => ret tt
  end.

Definition handle_advanced_message (client_id : string) (message : json)
    (websocket : ws) : M state unit :=
  message_type <- lift (get message "type") ;;
  if eq_str message_type "ping" then
    timestamp <- lift (get message "timestamp") ;;
    send_text (alive e) websocket
      (obj [("type", JStr "pong"); ("timestamp", timestamp)])
  else if eq_str message_type "device_capabilities" then
    handle_device_capabilities client_id message websocket
  else if eq_str message_type "webrtc_offer" then
    connection_manager (Ultimate.handle_webrtc_offer e client_id message websocket)
  else if eq_str message_type "webrtc_answer" then
    connection_manager (Ultimate.handle_webrtc_answer e client_id message websocket)
  else if eq_str message_type "webrtc_ice_candidate" then
    connection_manager
      (Ultimate.handle_webrtc_ice_candidate e client_id message websocket)
  else if eq_str message_type "file_transfer_start" then
    handle_ultimate_file_transfer_start client_id message websocket
  else if eq_str message_type "file_chunk" then
    handle_optimized_file_chunk client_id message websocket
  else if eq_str message_type "chunk_ack" then
    handle_chunk_ack client_id message websocket
  else if eq_str message_type "transfer_complete" then
    handle_transfer_complete client_id message websocket
  else ret tt.

(** One iteration of the loop of [websocket_endpoint]; any exception ends
    the loop in [disconnect]. *)
Definition on_text (client_id : string) (websocket : ws) (data : option json)
    : M state unit :=
  try_except
    (message <- lift (match data with Some m => Ok m | None => Raise JSONDecodeError end) ;;
     handle_advanced_message client_id message websocket)
    (fun _ => modify (fun s => with_manager (Ultimate.disconnect client_id (manager s)) s)).

End Handlers.

(** What can happen on the connection loops of the server. *)
Inductive event : Type :=
| Connect (client_id : string) (websocket : ws)
| Text (client_id : string) (websocket : ws) (data : option json)
| Close (client_id : string).

Definition step (e : env) (clock : Q) (ev : event) (s : state) : outcome state unit :=
  match ev with
  | Connect client_id websocket =>
      Outcome (Ok tt) (with_manager (Ultimate.connect websocket client_id (manager s)) s) []
  | Text client_id websocket data => on_text e clock client_id websocket data s
  | Close client_id =>
      Outcome (Ok tt) (with_manager (Ultimate.disconnect client_id (manager s)) s) []
  end.

(** A run: each event with the environment and the clock it meets. *)
Fixpoint run (evs : list (env * Q * event)) (s : state) : state * list sent :=
  match evs with
  | [] => (s, [])
  | (e, clock, ev) :: rest =>
      match step e clock ev s with
      | Outcome _ s1 o1 =>
          match run rest s1 with
          | (s2, o2) => (s2, (o1 ++ o2)%list)
          end
      end
  end.

End UltimateStreaming.

(** ** Predicates used in the statements *)

(** [m] takes state [s] (resp. every state) to an [R]-related one, whether
    it returns or raises. *)
Definition keeps_at {S A : Type} (R : S -> S -> Prop) (m : M S A) (s : S) : Prop :=
  R s (st (m s)).

Definition keeps {S A : Type} (R : S -> S -> Prop) (m : M S A) : Prop :=
  forall s, keeps_at R m s.

(** Transfer [tid] of main.py has status completed. *)
Definition completed_in (s : Main.state) (tid : string) : Prop :=
  exists t, Main.transfers s !! tid = Some t /\ Main.status t = "completed".

(** [m] is a transfer_complete message naming transfer [tid]. *)
Definition completes (m : json) (tid : string) : Prop :=
  get m "type" = Ok (JStr "transfer_complete")
  /\ get m "transfer_id" = Ok (JStr tid).

(** Every transfer completed in [s'] was completed in [s] or is [allowed]. *)
Definition only_completes (allowed : string -> Prop) (s s' : Main.state) : Prop :=
  forall tid, completed_in s' tid -> completed_in s tid \/ allowed tid.

(** The exception [((chunk_index + 1) / total_chunks) * 100] ends in when
    [total_chunks] is 0 or [None]. *)
Definition chunk_progress_error (chunk_index : json) (total_absent : bool) : exn :=
  match as_num chunk_index with
  | None => TypeError
  | Some _ => if total_absent then TypeError else ZeroDivisionError
  end.

(** An outcome with [l] logged before it. *)
Definition prepend {S A} (l : list sent) (o : outcome S A) : outcome S A :=
  Outcome (res o) (st o) (l ++ out o).

(** ** Fixtures for the concrete runs *)

Definition all_alive : ws -> bool := fun _ => true.

Definition describe_demo (ex : exn) : string :=
  match ex with
  | KeyError k => "'" ++ k ++ "'"
  | _ => "error"
  end.

(** An environment in which every socket is live and the next generated
    transfer id is [next_id]. *)
Definition demo_env (next_id : string) : env :=
  Env all_alive next_id "2025-10-23T03:40:00" "1761190800.0"
      (fun _ => "?") describe_demo.

Definition x_pdf : json :=
  obj [("name", JStr "x.pdf"); ("size", JInt 1000); ("total_chunks", JInt 1)].

Definition start_to_bob : json :=
  obj [("type", JStr "file_transfer_start");
       ("receiver_id", JStr "bob");
       ("file_info", x_pdf)].

(** alice (socket 1) and bob (socket 2) are connected and alice has started
    transfer ["T1"] to bob. *)
Definition main_alice_to_bob : list (env * Main.event) :=
  [(demo_env "T1", Main.Connect "alice" 1%nat);
   (demo_env "T1", Main.Connect "bob" 2%nat);
   (demo_env "T1", Main.Text "alice" 1%nat (Some start_to_bob))].

Definition main_transfer_pending : Main.state :=
  fst (Main.run main_alice_to_bob Main.initial).

Definition ping_123 : json :=
  obj [("type", JStr "ping"); ("timestamp", JInt 123)].

(** A chunk of T1 whose declared [total_chunks] is 0. *)
Definition chunk_total_zero : json :=
  obj [("type", JStr "file_chunk");
       ("transfer_id", JStr "T1");
       ("chunk_data", JStr "AAAA");
       ("chunk_index", JInt 0);
       ("total_chunks", JInt 0)].

Definition chunk_0_of_1 : json :=
  obj [("type", JStr "file_chunk");
       ("transfer_id", JStr "T1");
       ("chunk_data", JStr "AAAA");
       ("chunk_index", JInt 0);
       ("total_chunks", JInt 1)].

Definition ack_chunk_0 : json :=
  obj [("type", JStr "chunk_ack");
       ("transfer_id", JStr "T1");
       ("chunk_index", JInt 0)].

Definition complete_T1 : json :=
  obj [("type", JStr "transfer_complete"); ("transfer_id", JStr "T1")].

(** The transfer of the one chunk of x.pdf, acknowledged and completed. *)
Definition main_chunk_ack_complete : list (env * Main.event) :=
  [(demo_env "T2", Main.Text "alice" 1%nat (Some chunk_0_of_1));
   (demo_env "T2", Main.Text "bob" 2%nat (Some ack_chunk_0));
   (demo_env "T2", Main.Text "alice" 1%nat (Some complete_T1))].


Definition working_alice_alone : Working.state :=
  Working.connect 1%nat "alice" Working.initial.

Definition error_reply (text : string) : json :=
  obj [("type", JStr "error"); ("message", JStr text)].



Definition transfer_completed (transfer_id : json) : json :=
  obj [("type", JStr "transfer_completed");
       ("transfer_id", transfer_id);
       ("status", JStr "completed")].

(** What a send to [target] puts on the wire: the message, if the target is
    a registered client whose socket is live. *)
Definition notified (e : env) (conns : gmap string ws) (target : json)
    (msg : json) : list sent :=
  match lookup_key conns target with
  | Ok (Some w) => if alive e w then [Sent w msg] else []
  | _ => []
  end.

(** alice has sent the one chunk of T1 to bob and bob has acknowledged it. *)
Definition main_chunk_acked : Main.state :=
  fst (Main.run [(demo_env "T2", Main.Text "alice" 1%nat (Some chunk_0_of_1));
                 (demo_env "T2", Main.Text "bob" 2%nat (Some ack_chunk_0))]
                main_transfer_pending).

Definition main_completed_once : Main.state :=
  st (Main.step (demo_env "T2") (Main.Text "alice" 1%nat (Some complete_T1))
                main_chunk_acked).

(** advanced_server.py: alice (socket 1) and bob (socket 2) are connected
    and alice has asked to start a WebRTC transfer of x.pdf to bob. *)
Definition advanced_connected : Advanced.state :=
  Advanced.connect 2%nat "bob" (obj [])
    (Advanced.connect 1%nat "alice" (obj []) Advanced.initial).

Definition advanced_transfer_pending : Advanced.state :=
  st (Advanced.handle_file_transfer_start (demo_env "T1") "alice" start_to_bob 1%nat
                                          advanced_connected).

Definition p2p_id : string := "transfer_alice_bob_1761190800.0".

Definition webrtc_id : string := "webrtc_alice_bob_1761190800.0".

Definition p2p_pending : P2PTransferManager.transfer :=
  P2PTransferManager.Transfer p2p_id webrtc_id "alice" (JStr "bob") x_pdf "pending"
    (JFloat 0) (JInt 0) (JInt 0) (JInt 1) "2025-10-23T03:40:00" (JInt 0) (JInt 0) None.

Definition complete_p2p : json :=
  obj [("type", JStr "transfer_complete"); ("transfer_id", JStr p2p_id)].

(** A progress report for the pending transfer of advanced_server.py. *)
Definition progress_report (value : Z) : json :=
  obj [("type", JStr "transfer_progress");
       ("transfer_id", JStr p2p_id);
       ("progress", JInt value)].

Definition webrtc_answer_msg (connection_id answer : json) (receiver : string) : json :=
  obj [("type", JStr "webrtc_answer");
       ("connection_id", connection_id);
       ("answer", answer);
       ("receiver_id", JStr receiver)].

Definition webrtc_offer_msg (connection_id offer : json) (sender : string) : json :=
  obj [("type", JStr "webrtc_offer");
       ("connection_id", connection_id);
       ("offer", offer);
       ("sender_id", JStr sender)].

Definition webrtc_ice_msg (connection_id candidate : json) (from : string) : json :=
  obj [("type", JStr "webrtc_ice_candidate");
       ("connection_id", connection_id);
       ("candidate", candidate);
       ("from_client", JStr from)].

(** The [webrtc_*_processed] acknowledgement sent back to the requester. *)
Definition processed (kind : string) (connection_id : json) (success : bool) : json :=
  obj [("type", JStr kind); ("connection_id", connection_id); ("success", JBool success)].

Definition sdp (text : string) : json :=
  obj [("type", JStr "answer"); ("sdp", JStr text)].

(** bob answers on the connection created for alice's transfer. *)
Definition answer_from_bob : json :=
  obj [("type", JStr "webrtc_answer");
       ("connection_id", JStr webrtc_id);
       ("answer", sdp "v=0 bob")].

Definition offer_from_alice : json :=
  obj [("type", JStr "webrtc_offer");
       ("connection_id", JStr webrtc_id);
       ("offer", sdp "v=0 alice")].

(** ultimate_main.py: alice (socket 1) and bob (socket 2) are connected. *)
Definition ultimate_connected : Ultimate.state :=
  Ultimate.connect 2%nat "bob" (Ultimate.connect 1%nat "alice" Ultimate.initial).

Definition ultimate_answer_to_alice : json :=
  obj [("type", JStr "webrtc_answer");
       ("target_client", JStr "alice");
       ("answer", sdp "v=0 bob")].

(** The other party of a connection, as [handle_webrtc_ice_candidate]
    picks it. *)
Definition ice_target (conn : WebRTCManager.connection) (client_id : string) : json :=
  if String.eqb client_id (WebRTCManager.sender_id conn)
  then WebRTCManager.receiver_id conn
  else JStr (WebRTCManager.sender_id conn).

(** [send_to_client target msg ;;; send_text w ack] from state [s1], when the
    connection dict is [conns]: the forward, then the acknowledgement; an
    unhashable target raises before either. *)
Definition forward_then_ack (e : env) (conns : gmap string ws) (target msg : json)
    (w : ws) (ack : json) (s1 : Advanced.state) : outcome Advanced.state unit :=
  match lookup_key conns target with
  | Ok _ => prepend (notified e conns target msg) (send_text (alive e) w ack s1)
  | Raise x => Outcome (Raise x) s1 []
  end.

(** Handle the messages of a list one after the other, as one connection
    loop does with the messages it receives in that order. *)
Fixpoint handle_each {S} (h : json -> M S unit) (msgs : list json) : M S unit :=
  match msgs with
  | [] => ret tt
  | m :: rest => bind (h m) (fun _ => handle_each h rest)
  end.

Definition ice_message (connection_id : string) (candidate : json) : json :=
  obj [("type", JStr "webrtc_ice_candidate");
       ("connection_id", JStr connection_id);
       ("candidate", candidate)].

(** What one candidate from [from] puts on the wire in advanced_server.py:
    the forward to the peer's socket, then the acknowledgement. *)
Definition ice_traffic (connection_id : string) (from : string) (peer requester : ws)
    (candidate : json) : list sent :=
  [Sent peer (webrtc_ice_msg (JStr connection_id) candidate from);
   Sent requester (processed "webrtc_ice_candidate_processed" (JStr connection_id) true)].

Definition ice_n (n : Z) : json :=
  obj [("candidate", JStr "candidate:udp"); ("sdpMLineIndex", JInt n)].

Definition five_candidates : list json := [ice_n 0; ice_n 1; ice_n 2; ice_n 3; ice_n 4].

(** ultimate_main.py: a candidate for bob, who is not connected. *)
Definition ultimate_alice_alone : Ultimate.state :=
  Ultimate.connect 1%nat "alice" Ultimate.initial.

Definition ultimate_ice_to_bob : json :=
  obj [("type", JStr "webrtc_ice_candidate");
       ("target_client", JStr "bob");
       ("candidate", ice_n 0)].

(** bob connects after alice's candidate for him was handled. *)
Definition ultimate_bob_joined : Ultimate.state :=
  Ultimate.connect 2%nat "bob"
    (st (Ultimate.handle_webrtc_ice_candidate (demo_env "T1") "alice"
           ultimate_ice_to_bob 1%nat ultimate_alice_alone)).

Definition progress_update (transfer_id progress chunk_index : json) : json :=
  obj [("type", JStr "progress_update");
       ("transfer_id", transfer_id);
       ("progress", progress);
       ("chunk_index", chunk_index)].

Definition file_chunk_msg (transfer_id chunk_data chunk_index total_chunks : json)
    : json :=
  obj [("type", JStr "file_chunk");
       ("transfer_id", transfer_id);
       ("chunk_data", chunk_data);
       ("chunk_index", chunk_index);
       ("total_chunks", total_chunks)].

(** mallory (socket 3) joins while alice's transfer T1 to bob is pending,
    and sends a chunk for T1 that claims to come from alice. *)
Definition main_mallory_joined : Main.state :=
  fst (Main.run [(demo_env "T2", Main.Connect "mallory" 3%nat)] main_transfer_pending).

Definition spoofed_chunk : json :=
  obj [("type", JStr "file_chunk");
       ("sender_id", JStr "alice");
       ("transfer_id", JStr "T1");
       ("chunk_data", JStr "EVIL");
       ("chunk_index", JInt 0);
       ("total_chunks", JInt 1)].

(** mallory also sends an offer on the connection of alice's transfer. *)
Definition advanced_mallory_joined : Advanced.state :=
  Advanced.connect 3%nat "mallory" (obj []) advanced_transfer_pending.

(** ** Predicates used in the further properties *)

(** [m], run from [s], relates the state it starts in, the state it ends in
    and what it sends by [Q], whether it returns or raises. *)
Definition holds_at {S A : Type} (Q : S -> S -> list sent -> Prop)
    (m : M S A) (s : S) : Prop :=
  Q s (st (m s)) (out (m s)).

(** The registry is left as it was and every message goes to the
    requester's socket [w] or to a socket registered in it. *)
Definition main_sends_known (w : ws) (s s' : Main.state) (log : list sent) : Prop :=
  Main.active_connections s' = Main.active_connections s
  /\ Forall (fun x => to_ws x = w
                      \/ exists c, Main.active_connections s !! c = Some (to_ws x)) log.

(** No transfer record is dropped. *)
Definition main_records_kept (s s' : Main.state) : Prop :=
  forall tid, is_Some (Main.transfers s !! tid) -> is_Some (Main.transfers s' !! tid).

(** Every transfer record is pending or completed. *)
Definition main_statuses_ok (s : Main.state) : Prop :=
  forall tid t, Main.transfers s !! tid = Some t ->
    Main.status t = "pending" \/ Main.status t = "completed".

(** A JSON value that is not an object. *)
Definition not_object (v : json) : Prop :=
  match v with JObj _ => False | _ => True end.

(** A chunk of T1 that is not the JSON the server expects: a list. *)
Definition not_a_dict : json := JArr [JStr "file_chunk"].

Definition chunk_T9 : json :=
  obj [("type", JStr "file_chunk");
       ("transfer_id", JStr "T9");
       ("chunk_data", JStr "AAAA");
       ("chunk_index", JInt 0);
       ("total_chunks", JInt 1)].

(** A chunk of T1 whose index is too large for a float. *)
Definition chunk_oversized : json :=
  obj [("type", JStr "file_chunk");
       ("transfer_id", JStr "T1");
       ("chunk_data", JStr "AAAA");
       ("chunk_index", JInt (10 ^ 400));
       ("total_chunks", JInt 1)].

Definition hello_msg : json := obj [("type", JStr "hello")].

(** An environment like [demo_env] in which socket 2 is dead. *)
Definition bob_dead_env (next_id : string) : env :=
  Env (fun w => negb (Nat.eqb w 2)) next_id "2025-10-23T03:40:00" "1761190800.0"
      (fun _ => "?") describe_demo.

(** The tuning of one transfer is within the limits [optimize_transfer]
    names: a chunk size from 16 KB to 1 MB and from 1 to 4 streams. *)
Definition stats_in_bounds (x : P2PTransferManager.stats) : Prop :=
  exists size streams,
    P2PTransferManager.optimal_chunk_size x = JInt size
    /\ P2PTransferManager.concurrent_streams x = JInt streams
    /\ 16 * 1024 <= size <= 1024 * 1024
    /\ 1 <= streams <= 4.

Definition p2p_tuning_ok (p : P2PTransferManager.state) : Prop :=
  forall k x, P2PTransferManager.transfer_stats p !! k = Some x -> stats_in_bounds x.

(** [s'] has the connections of [s], between the same parties and for the
    same file. *)
Definition same_parties (s s' : WebRTCManager.state) : Prop :=
  forall k,
    match WebRTCManager.active_connections s !! k,
          WebRTCManager.active_connections s' !! k with
    | Some conn, Some conn' =>
        WebRTCManager.sender_id conn' = WebRTCManager.sender_id conn
        /\ WebRTCManager.receiver_id conn' = WebRTCManager.receiver_id conn
        /\ WebRTCManager.file_info conn' = WebRTCManager.file_info conn
        /\ WebRTCManager.created_at conn' = WebRTCManager.created_at conn
    | None, None => True
    | _, _ => False
    end.

(** The id [initiate_connection] gives a connection. *)
Definition connection_id_of (e : env) (sender : string) (receiver : json) : string :=
  "webrtc_" ++ sender ++ "_" ++ py_str e receiver ++ "_" ++ timestamp e.

Definition latency_report (ms : Z) : json := obj [("latency", JInt ms)].

(** webrtc_manager.py: the transfer manager after alice has started a
    transfer of x.pdf to bob. *)
Definition p2p_started : P2PTransferManager.state :=
  st (P2PTransferManager.start_transfer (demo_env "T1") "alice" (JStr "bob") x_pdf
                                        P2PTransferManager.initial).

(** The id [start_transfer] gives a transfer. *)
Definition transfer_id_of (e : env) (sender : string) (receiver : json) : string :=
  "transfer_" ++ sender ++ "_" ++ py_str e receiver ++ "_" ++ timestamp e.

(** The messages of a start over the WebSocket fallback (advanced_server.py). *)
Definition incoming_fallback (transfer_id : string) (file_info : json)
    (sender : string) : json :=
  obj [("type", JStr "incoming_transfer");
       ("transfer_id", JStr transfer_id);
       ("file_info", file_info);
       ("sender_id", JStr sender);
       ("use_webrtc", JBool false)].

Definition started_fallback (transfer_id : string) : json :=
  obj [("type", JStr "transfer_started");
       ("transfer_id", JStr transfer_id);
       ("status", JStr "pending");
       ("use_webrtc", JBool false)].

(** alice asks for a transfer to bob over the WebSocket fallback. *)
Definition start_fallback_to_bob : json :=
  obj [("type", JStr "file_transfer_start");
       ("receiver_id", JStr "bob");
       ("file_info", x_pdf);
       ("use_webrtc", JBool false)].

(** The three kinds of signaling message. *)
Inductive signal : Type := Offer | Answer | Candidate.

(** The field that carries the payload of a signaling message. *)
Definition signal_key (kind : signal) : string :=
  match kind with
  | Offer => "offer"
  | Answer => "answer"
  | Candidate => "candidate"
  end.

Definition signal_type (kind : signal) : string :=
  match kind with
  | Offer => "webrtc_offer"
  | Answer => "webrtc_answer"
  | Candidate => "webrtc_ice_candidate"
  end.

(** The handler advanced_server.py has for each kind. *)
Definition advanced_signal_handler (e : env) (kind : signal)
    : string -> json -> ws -> M Advanced.state unit :=
  match kind with
  | Offer => Advanced.handle_webrtc_offer e
  | Answer => Advanced.handle_webrtc_answer e
  | Candidate => Advanced.handle_webrtc_ice_candidate e
  end.

(** The handler ultimate_main.py has for each kind. *)
Definition ultimate_signal_handler (e : env) (kind : signal)
    : string -> json -> ws -> M Ultimate.state unit :=
  match kind with
  | Offer => Ultimate.handle_webrtc_offer e
  | Answer => Ultimate.handle_webrtc_answer e
  | Candidate => Ultimate.handle_webrtc_ice_candidate e
  end.

(** What ultimate_main.py forwards: the payload and the id of the session
    it came from. *)
Definition relayed (kind : signal) (payload : json) (from : string) : json :=
  obj [("type", JStr (signal_type kind));
       (signal_key kind, payload);
       ("from_client", JStr from)].

(** An offer without its connection id. *)
Definition offer_without_id : json :=
  obj [("type", JStr "webrtc_offer"); ("offer", sdp "v=0 alice")].

(** An acknowledgement as [handle_chunk_ack] forwards it. *)
Definition chunk_ack_msg (transfer_id chunk_index received_progress : json) : json :=
  obj [("type", JStr "chunk_ack");
       ("transfer_id", transfer_id);
       ("chunk_index", chunk_index);
       ("received_progress", received_progress)].

(** bob acknowledges chunk 0 of the pending P2P transfer and reports no
    progress of his own. *)
Definition ack_p2p_chunk_0 : json :=
  obj [("type", JStr "chunk_ack");
       ("transfer_id", JStr p2p_id);
       ("chunk_index", JInt 0)].

(** A completion notice for a transfer nobody started. *)
Definition complete_T9 : json :=
  obj [("type", JStr "transfer_complete"); ("transfer_id", JStr "T9")].

(** Candidates handled one after the other on connection [k]: each item is
    the environment of its run, the candidate and the client it came from. *)
Fixpoint ice_all (k : string) (items : list (env * json * string))
    : M WebRTCManager.state unit :=
  match items with
  | [] => ret tt
  | (e, cand, c) :: rest =>
      bind (WebRTCManager.handle_ice_candidate e (JStr k) cand c)
           (fun _ => ice_all k rest)
  end.

(** [client_id in [connection["sender_id"], connection["receiver_id"]]] *)
Definition is_party (conn : WebRTCManager.connection) (c : string) : bool :=
  String.eqb (WebRTCManager.sender_id conn) c
  || eq_str (WebRTCManager.receiver_id conn) c.

Definition ice_entry_of (item : env * json * string) : WebRTCManager.ice_entry :=
  WebRTCManager.IceEntry (snd (fst item)) (snd item) (now (fst (fst item))).

(** The connection of alice and bob as [initiate_connection] creates it. *)
Definition alice_bob_connection : WebRTCManager.connection :=
  WebRTCManager.Connection "alice" (JStr "bob") x_pdf "initiating"
                           "2025-10-23T03:40:00" [] JNull JNull.

(** Candidates of alice, of mallory and of bob, in this order. *)
Definition mixed_candidates : list (env * json * string) :=
  [(demo_env "T1", JStr "a1", "alice");
   (demo_env "T1", JStr "m1", "mallory");
   (demo_env "T1", JStr "b1", "bob");
   (demo_env "T1", JNull, "alice")].

(** alice sends bob an offer that claims to come from mallory. *)
Definition ultimate_offer_to_bob : json :=
  obj [("type", JStr "webrtc_offer");
       ("offer", sdp "v=0 alice");
       ("target_client", JStr "bob");
       ("from_client", JStr "mallory")].

(** An offer and an answer for carol, who is not connected. *)
Definition ultimate_offer_to_carol : json :=
  obj [("type", JStr "webrtc_offer");
       ("offer", sdp "v=0 alice");
       ("target_client", JStr "carol")].

(** No stream configuration of the streaming engine is anything but a dict,
    and none has a key ["receiver_id"] or ["sender_id"]. *)
Definition streams_anonymous (s : UltimateStreaming.state) : Prop :=
  forall k v, UltimateStreaming.active_streams s !! k = Some v ->
    exists fields,
      v = JObj fields
      /\ assoc "receiver_id" fields = None
      /\ assoc "sender_id" fields = None.

(** The messages that carry a transfer from one client to the other. *)
Definition carries_transfer (msg : json) : bool :=
  match get msg "type" with
  | Ok v => eq_str v "file_chunk" || eq_str v "chunk_ack"
            || eq_str v "transfer_completed"
  | Raise _ => false
  end.

Definition no_transfer_data (log : list sent) : Prop :=
  Forall (fun x => carries_transfer (payload x) = false) log.

(** Started with anonymous streams, a computation ends with anonymous
    streams and sends no message that carries a transfer. *)
Definition stream_relation (s s' : UltimateStreaming.state) (log : list sent) : Prop :=
  streams_anonymous s -> streams_anonymous s' /\ no_transfer_data log.

(** The optimizer has no performance sample. *)
Definition no_samples (o : StreamingOptimizer.optimizer) : Prop :=
  StreamingOptimizer.transfer_speeds o = []
  /\ StreamingOptimizer.latencies o = []
  /\ StreamingOptimizer.success_rates o = [].

(** ultimate_main.py: alice starts a transfer to bob, sends its one chunk,
    bob acknowledges it and alice reports completion. *)
Definition ultimate_session : list (env * Q * UltimateStreaming.event) :=
  [(demo_env "T1", 1761190800%Q, UltimateStreaming.Connect "alice" 1%nat);
   (demo_env "T1", 1761190801%Q, UltimateStreaming.Connect "bob" 2%nat);
   (demo_env "T1", 1761190802%Q,
    UltimateStreaming.Text "alice" 1%nat (Some start_to_bob));
   (demo_env "T1", 1761190803%Q,
    UltimateStreaming.Text "alice" 1%nat (Some chunk_0_of_1));
   (demo_env "T1", 1761190804%Q,
    UltimateStreaming.Text "bob" 2%nat (Some ack_chunk_0));
   (demo_env "T1", 1761190805%Q,
    UltimateStreaming.Text "alice" 1%nat (Some complete_T1))].

(** Nothing is sent. *)
Definition silent {S : Type} (s s' : S) (log : list sent) : Prop := log = [].

(** The connection manager is left as it was and no message carries a
    transfer. *)
Definition manager_relation (u u' : Ultimate.state) (log : list sent) : Prop :=
  u' = u /\ no_transfer_data log.

(** ultimate_main.py after [startup_event]: nobody is connected, no stream
    exists and the engine has analysed the network. *)
Definition ultimate_started : UltimateStreaming.state :=
  st (UltimateStreaming.initialize UltimateStreaming.initial).

(** Started without samples, a computation ends without samples and with
    the same network conditions, and the adaptive chunk size is what it
    was or what [_calculate_optimal_chunk_size] gives for them. *)
Definition sampling_relation (s s' : UltimateStreaming.state) (log : list sent)
    : Prop :=
  no_samples (UltimateStreaming.optimizer s) ->
  no_samples (UltimateStreaming.optimizer s')
  /\ StreamingOptimizer.conditions (UltimateStreaming.optimizer s')
     = StreamingOptimizer.conditions (UltimateStreaming.optimizer s)
  /\ (StreamingOptimizer.adaptive_chunk_size (UltimateStreaming.optimizer s')
      = StreamingOptimizer.adaptive_chunk_size (UltimateStreaming.optimizer s)
      \/ StreamingOptimizer.adaptive_chunk_size (UltimateStreaming.optimizer s')
         = NInt (StreamingOptimizer._calculate_optimal_chunk_size
                   (StreamingOptimizer.conditions (UltimateStreaming.optimizer s)))).

(** The optimizer is left as it was. *)
Definition optimizer_kept (o o' : StreamingOptimizer.optimizer) (log : list sent)
    : Prop :=
  o' = o.

(** The adaptive chunk size is within the limits [_adaptive_optimization]
    names: 16 KB and 1 MB. *)
Definition chunk_size_in_bounds (o : StreamingOptimizer.optimizer) : Prop :=
  (inject_Z (16 * 1024) <= num_to_Q (StreamingOptimizer.adaptive_chunk_size o)
   /\ num_to_Q (StreamingOptimizer.adaptive_chunk_size o) <= inject_Z (1024 * 1024))%Q.

Definition bounds_kept (o o' : StreamingOptimizer.optimizer) : Prop :=
  chunk_size_in_bounds o -> chunk_size_in_bounds o'.

(** The four qualities, from worst to best. *)
Definition quality_rank (quality : string) : Z :=
  if String.eqb quality "excellent" then 3
  else if String.eqb quality "good" then 2
  else if String.eqb quality "fair" then 1
  else 0.

(** An optimizer with samples of a fast and reliable link. *)
Definition fast_optimizer : StreamingOptimizer.optimizer :=
  StreamingOptimizer.Optimizer
    (StreamingOptimizer.NetworkConditions (NFloat 25) (NFloat 100) (NFloat (1 # 100))
                                          (NFloat 5) "good")
    [JInt 60000000; JInt 70000000] [] [JFloat 1] (NInt (1000 * 1024)).

(** alice sends the one chunk of the pending P2P transfer. *)
Definition p2p_chunk_0 : json :=
  obj [("type", JStr "file_chunk");
       ("transfer_id", JStr p2p_id);
       ("chunk_data", JStr "AAAA");
       ("chunk_index", JInt 0);
       ("total_chunks", JInt 1)].

(** The two messages with which ultimate_main.py announces a transfer. *)
Definition ultimate_incoming (transfer_id : string) (file_info : json)
    (sender : string) (method optimization : json) : json :=
  obj [("type", JStr "incoming_transfer");
       ("transfer_id", JStr transfer_id);
       ("file_info", file_info);
       ("sender_id", JStr sender);
       ("method", method);
       ("optimization", optimization)].

Definition ultimate_transfer_started (transfer_id : string)
    (method optimization : json) : json :=
  obj [("type", JStr "transfer_started");
       ("transfer_id", JStr transfer_id);
       ("method", method);
       ("optimization", optimization);
       ("status", JStr "pending")].

(** [caps.get("supports_webrtc")] is truthy. *)
Definition supports_webrtc (caps : list (string * json)) : bool :=
  match assoc "supports_webrtc" caps with
  | Some v => truthy v
  | None => false
  end.

(** A client declares that it supports WebRTC. *)
Definition declare_webrtc : json :=
  obj [("type", JStr "device_capabilities");
       ("capabilities", obj [("supports_webrtc", JBool true)])].

(** ultimate_main.py: alice and bob connect, both declare WebRTC support. *)
Definition ultimate_both_webrtc : UltimateStreaming.state :=
  fst (UltimateStreaming.run
         [(demo_env "T1", 1761190800%Q, UltimateStreaming.Connect "alice" 1%nat);
          (demo_env "T1", 1761190801%Q, UltimateStreaming.Connect "bob" 2%nat);
          (demo_env "T1", 1761190802%Q,
           UltimateStreaming.Text "alice" 1%nat (Some declare_webrtc));
          (demo_env "T1", 1761190803%Q,
           UltimateStreaming.Text "bob" 2%nat (Some declare_webrtc))]
         ultimate_started).

(** ** Basic facts about the Python operations *)

Lemma get_is_obj m k v : get m k = Ok v -> exists fields, m = JObj fields.
Proof. destruct m; simpl; try discriminate; eauto. Qed.

Lemma eq_str_true v s : eq_str v s = true <-> v = JStr s.
Proof.
  destruct v; simpl; split; try discriminate.
  - intros H. apply String.eqb_eq in H. now subst.
  - intros [= ->]. apply String.eqb_refl.
Qed.

Lemma lookup_key_str {V} (m : gmap string V) k : lookup_key m (JStr k) = Ok (m !! k).
Proof. reflexivity. Qed.

(** ** Running binds *)

Lemma prepend_nil {S A} (o : outcome S A) : prepend [] o = o.
Proof. now destruct o. Qed.

Lemma bind_run {S A B} (m : M S A) (k : A -> M S B) s a s1 o1 :
  m s = Outcome (Ok a) s1 o1 -> bind m k s = prepend o1 (k a s1).
Proof. intros H. unfold bind, prepend. rewrite H. now destruct (k a s1). Qed.

Lemma bind_raise {S A B} (m : M S A) (k : A -> M S B) s x s1 o1 :
  m s = Outcome (Raise x) s1 o1 -> bind m k s = Outcome (Raise x) s1 o1.
Proof. intros H. unfold bind. now rewrite H. Qed.

Lemma bind_lift_ok {S A B} (a : A) (k : A -> M S B) s :
  bind (lift (Ok a)) k s = k a s.
Proof. rewrite (bind_run _ _ s a s []) by reflexivity. apply prepend_nil. Qed.

Lemma bind_lift_raise {S A B} x (k : A -> M S B) s :
  bind (lift (Raise x)) k s = Outcome (Raise x) s [].
Proof. reflexivity. Qed.

Lemma bind_gets {S A B} (f : S -> A) (k : A -> M S B) s :
  bind (gets f) k s = k (f s) s.
Proof. rewrite (bind_run _ _ s (f s) s []) by reflexivity. apply prepend_nil. Qed.

Lemma bind_ret {S A B} (a : A) (k : A -> M S B) s :
  bind (ret a) k s = k a s.
Proof. rewrite (bind_run _ _ s a s []) by reflexivity. apply prepend_nil. Qed.

Lemma bind_modify {S B} (f : S -> S) (k : unit -> M S B) s :
  bind (modify f) k s = k tt (f s).
Proof. rewrite (bind_run _ _ s tt (f s) []) by reflexivity. apply prepend_nil. Qed.

Lemma bind_assoc {S A B C} (m : M S A) (k : A -> M S B) (k' : B -> M S C) s :
  bind (bind m k) k' s = bind m (fun a => bind (k a) k') s.
Proof.
  unfold bind. destruct (m s) as [[a|x] s1 o1]; [| reflexivity].
  destruct (k a s1) as [[b|x] s2 o2]; [| reflexivity].
  destruct (k' b s2) as [r s3 o3]. now rewrite app_assoc.
Qed.

Lemma send_text_alive {S} al w msg (s : S) :
  al w = true -> send_text al w msg s = Outcome (Ok tt) s [Sent w msg].
Proof. intros H. unfold send_text. now rewrite H. Qed.

(** Evaluate the pure prefix of a handler applied to a state. *)
Ltac exec1 :=
  first
    [ rewrite bind_assoc
    | rewrite bind_lift_ok
    | rewrite bind_lift_raise
    | rewrite bind_gets
    | rewrite bind_ret
    | rewrite bind_modify
    | rewrite lookup_key_str
    | progress cbv beta iota ].

Ltac exec := repeat exec1.

(** The same, using [tac] (rewriting with what is known of the input and
    of the state) whenever it makes progress. *)
Tactic Notation "exec" "with" tactic3(tac) := repeat first [exec1 | progress tac].

(** ** Disconnection (main.py, ultimate_main.py) *)

Lemma main_disconnect_idempotent c s :
  Main.disconnect c (Main.disconnect c s) = Main.disconnect c s.
Proof. unfold Main.disconnect; simpl. now rewrite delete_delete_eq. Qed.

Lemma ultimate_disconnect_idempotent c s :
  Ultimate.disconnect c (Ultimate.disconnect c s) = Ultimate.disconnect c s.
Proof. unfold Ultimate.disconnect; simpl. now rewrite !delete_delete_eq. Qed.

(** C1, as stated, fails on main.py: alice is the sender of the pending
    transfer T1; when her connection closes the transfer is still pending
    (neither cancelled nor failed) and bob, who stays registered, is sent
    nothing. *)
Lemma disconnect_leaves_transfer_pending :
  (exists t, Main.transfers main_transfer_pending !! "T1" = Some t
             /\ Main.sender_id t = "alice" /\ Main.receiver_id t = JStr "bob"
             /\ Main.status t = "pending")
  /\ (exists t, Main.transfers
                  (st (Main.step (demo_env "T2") (Main.Close "alice") main_transfer_pending))
                  !! "T1" = Some t
                /\ Main.status t = "pending")
  /\ out (Main.step (demo_env "T2") (Main.Close "alice") main_transfer_pending) = []
  /\ Main.active_connections
       (st (Main.step (demo_env "T2") (Main.Close "alice") main_transfer_pending))
       !! "bob" = Some 2%nat.
Proof.
  repeat split; try (eexists; split; [vm_compute; reflexivity|]); vm_compute; auto.
Qed.

(** C1, amended: a disconnect only deregisters the endpoint. In main.py and
    in ultimate_main.py it removes the client's entries from the connection
    manager's dicts, leaves every transfer (stream) record as it was, sends
    nothing to anybody, keeps every other client registered, and a second
    disconnect of the same client changes nothing. For ultimate_main.py
    this is stated of [ConnectionManager.disconnect] and of the connection
    loop that calls it: the client is gone from [active_connections],
    [device_capabilities] and [webrtc_connections], every other client's
    entry in the three dicts is as before, the streams and the optimizer
    are untouched and the log is empty. *)
Theorem disconnect_only_deregisters (e : env) (clock : Q) (c : string)
    (s : Main.state) (u : Ultimate.state) (v : UltimateStreaming.state) :
  (Main.transfers (st (Main.step e (Main.Close c) s)) = Main.transfers s
   /\ out (Main.step e (Main.Close c) s) = []
   /\ Main.active_connections (st (Main.step e (Main.Close c) s)) !! c = None
   /\ (forall c', c' <> c ->
         Main.active_connections (st (Main.step e (Main.Close c) s)) !! c'
         = Main.active_connections s !! c')
   /\ Main.step e (Main.Close c) (st (Main.step e (Main.Close c) s))
      = Main.step e (Main.Close c) s)
  /\ (Ultimate.active_streams (Ultimate.disconnect c u) = Ultimate.active_streams u
      /\ Ultimate.active_connections (Ultimate.disconnect c u) !! c = None
      /\ (forall c', c' <> c ->
            Ultimate.active_connections (Ultimate.disconnect c u) !! c'
            = Ultimate.active_connections u !! c')
      /\ Ultimate.disconnect c (Ultimate.disconnect c u) = Ultimate.disconnect c u)
  /\ (Ultimate.device_capabilities (Ultimate.disconnect c u) !! c = None
      /\ Ultimate.webrtc_connections (Ultimate.disconnect c u) !! c = None
      /\ (forall c', c' <> c ->
            Ultimate.device_capabilities (Ultimate.disconnect c u) !! c'
            = Ultimate.device_capabilities u !! c'
            /\ Ultimate.webrtc_connections (Ultimate.disconnect c u) !! c'
               = Ultimate.webrtc_connections u !! c'))
  /\ (res (UltimateStreaming.step e clock (UltimateStreaming.Close c) v) = Ok tt
      /\ out (UltimateStreaming.step e clock (UltimateStreaming.Close c) v) = []
      /\ UltimateStreaming.manager
           (st (UltimateStreaming.step e clock (UltimateStreaming.Close c) v))
         = Ultimate.disconnect c (UltimateStreaming.manager v)
      /\ UltimateStreaming.active_streams
           (st (UltimateStreaming.step e clock (UltimateStreaming.Close c) v))
         = UltimateStreaming.active_streams v
      /\ UltimateStreaming.optimizer
           (st (UltimateStreaming.step e clock (UltimateStreaming.Close c) v))
         = UltimateStreaming.optimizer v
      /\ UltimateStreaming.step e clock (UltimateStreaming.Close c)
           (st (UltimateStreaming.step e clock (UltimateStreaming.Close c) v))
         = UltimateStreaming.step e clock (UltimateStreaming.Close c) v).
Proof.
  split; [| split; [| split]].
  - simpl. repeat split.
    + apply lookup_delete_eq.
    + intros c' Hne. now apply lookup_delete_ne.
    + now rewrite main_disconnect_idempotent.
  - repeat split.
    + apply lookup_delete_eq.
    + intros c' Hne. now apply lookup_delete_ne.
    + apply ultimate_disconnect_idempotent.
  - split; [apply lookup_delete_eq |]. split; [apply lookup_delete_eq |].
    intros c' Hne. split; now apply lookup_delete_ne.
  - cbn [UltimateStreaming.step res st out UltimateStreaming.with_manager
         UltimateStreaming.manager UltimateStreaming.optimizer].
    repeat split.
    now rewrite ultimate_disconnect_idempotent.
Qed.

(** ** Ping (main.py, working_server.py) *)

(** C9, as stated, fails on main.py: the pong sent for a ping with
    timestamp 123 has the two fields type and timestamp and no server time. *)
Lemma pong_has_no_server_time :
  snd (Main.run [(demo_env "T1", Main.Connect "alice" 1%nat);
                 (demo_env "T1", Main.Text "alice" 1%nat (Some ping_123))]
                Main.initial)
  = [Sent 1%nat (obj [("type", JStr "pong"); ("timestamp", JInt 123)])]
  /\ assoc "server_time" [("type", JStr "pong"); ("timestamp", JInt 123)] = None.
Proof. split; vm_compute; reflexivity. Qed.

(** C9, amended: for a ping arriving on a live socket, main.py and
    working_server.py reply on that socket with exactly one pong whose
    fields are the type and the ping's timestamp value (no server time),
    and the registry and the transfers are unchanged. *)
Theorem ping_replies_pong_with_timestamp (e : env) (c : string) (w : ws)
    (m ts : json) (s : Main.state) (s' : Working.state) :
  get m "type" = Ok (JStr "ping") ->
  get m "timestamp" = Ok ts ->
  alive e w = true ->
  Main.step e (Main.Text c w (Some m)) s
    = Outcome (Ok tt) s [Sent w (obj [("type", JStr "pong"); ("timestamp", ts)])]
  /\ Working.handle_message e c m w s'
    = Outcome (Ok tt) s' [Sent w (obj [("type", JStr "pong"); ("timestamp", ts)])].
Proof.
  intros Ht Hts Hal. split.
  - simpl. unfold Main.on_text, try_except, Main.handle_websocket_message, bind, lift.
    simpl. rewrite Ht. simpl. rewrite Hts. simpl. unfold send_text. now rewrite Hal.
  - unfold Working.handle_message, bind, lift.
    rewrite Ht. simpl. rewrite Hts. simpl. unfold send_text. now rewrite Hal.
Qed.

Lemma ping_replies_pong_with_timestamp_witness :
  Main.step (demo_env "T1") (Main.Text "alice" 1%nat (Some ping_123)) main_transfer_pending
    = Outcome (Ok tt) main_transfer_pending
        [Sent 1%nat (obj [("type", JStr "pong"); ("timestamp", JInt 123)])]
  /\ Working.handle_message (demo_env "T1") "alice" ping_123 1%nat Working.initial
    = Outcome (Ok tt) Working.initial
        [Sent 1%nat (obj [("type", JStr "pong"); ("timestamp", JInt 123)])].
Proof.
  apply (ping_replies_pong_with_timestamp (demo_env "T1") "alice" 1%nat ping_123 (JInt 123));
    reflexivity.
Defined.

(** ** A chunk whose total_chunks is 0 or absent (main.py) *)

Lemma progress_raises ci total :
  total = JInt 0 \/ total = JNull ->
  match py_add_int ci 1 with
  | Ok next => py_truediv next total
  | Raise x => Raise x
  end = Raise (chunk_progress_error ci (is_none total)).
Proof.
  intros [-> | ->]; unfold chunk_progress_error, py_add_int, py_truediv;
    destruct (as_num ci) as [[z|q]|]; reflexivity.
Qed.

(** C10: a file_chunk that carries a transfer id, chunk data and a chunk
    index but whose total_chunks is 0 or missing makes [handle_file_chunk]
    raise (ZeroDivisionError, or TypeError for a missing total or a
    non-numeric index) before anything is sent or changed; the exception
    passes through the dispatcher, the connection loop catches it, and the
    client is deregistered without any error reply. *)
Theorem file_chunk_without_total_drops_client (e : env) (c : string) (w : ws)
    (s : Main.state) (fields : list (string * json)) (tid cd ci : json) :
  assoc "type" fields = Some (JStr "file_chunk") ->
  assoc "transfer_id" fields = Some tid -> truthy tid = true ->
  assoc "chunk_data" fields = Some cd -> truthy cd = true ->
  assoc "chunk_index" fields = Some ci -> is_none ci = false ->
  assoc "total_chunks" fields = Some (JInt 0) \/ assoc "total_chunks" fields = None ->
  Main.handle_file_chunk e c (JObj fields) w s
    = Outcome (Raise (chunk_progress_error ci
                        (match assoc "total_chunks" fields with None => true | _ => false end)))
              s []
  /\ Main.handle_websocket_message e c (JObj fields) w s
     = Main.handle_file_chunk e c (JObj fields) w s
  /\ Main.step e (Main.Text c w (Some (JObj fields))) s
     = Outcome (Ok tt) (Main.disconnect c s) []
  /\ Main.active_connections
       (st (Main.step e (Main.Text c w (Some (JObj fields))) s)) !! c = None.
Proof.
  intros Hty Htid Ttid Hcd Tcd Hci Nci Htot.
  assert (Hchunk : Main.handle_file_chunk e c (JObj fields) w s
    = Outcome (Raise (chunk_progress_error ci
                        (match assoc "total_chunks" fields with None => true | _ => false end)))
              s []).
  { unfold Main.handle_file_chunk, bind, lift, get, get_default.
    rewrite Htid, Hcd, Hci. simpl. rewrite Ttid, Tcd, Nci. simpl.
    pose proof (progress_raises ci
      (match assoc "total_chunks" fields with Some v => v | None => JNull end)) as P.
    destruct Htot as [H0 | H0]; rewrite H0 in *; simpl in *;
      (destruct (py_add_int ci 1) as [next|x]; simpl;
       [ rewrite P by auto; reflexivity | now injection (P ltac:(auto)) as -> ]). }
  assert (Hdisp : Main.handle_websocket_message e c (JObj fields) w s
     = Main.handle_file_chunk e c (JObj fields) w s).
  { rewrite Hchunk. unfold Main.handle_websocket_message, bind, lift, get, get_default.
    rewrite Hty. simpl. now rewrite Hchunk. }
  repeat split; auto.
  - simpl. unfold Main.on_text, try_except, bind, lift. simpl.
    rewrite Hdisp, Hchunk. reflexivity.
  - simpl. unfold Main.on_text, try_except, bind, lift. simpl.
    rewrite Hdisp, Hchunk. simpl. apply lookup_delete_eq.
Qed.

Lemma file_chunk_without_total_drops_client_witness :
  Main.handle_file_chunk (demo_env "T2") "alice" chunk_total_zero 1%nat main_transfer_pending
    = Outcome (Raise ZeroDivisionError) main_transfer_pending []
  /\ Main.step (demo_env "T2") (Main.Text "alice" 1%nat (Some chunk_total_zero))
               main_transfer_pending
     = Outcome (Ok tt) (Main.disconnect "alice" main_transfer_pending) [].
Proof.
  pose proof (file_chunk_without_total_drops_client (demo_env "T2") "alice" 1%nat
    main_transfer_pending
    [("type", JStr "file_chunk"); ("transfer_id", JStr "T1");
     ("chunk_data", JStr "AAAA"); ("chunk_index", JInt 0); ("total_chunks", JInt 0)]
    (JStr "T1") (JStr "AAAA") (JInt 0)
    eq_refl eq_refl eq_refl eq_refl eq_refl eq_refl eq_refl (or_introl eq_refl))
    as (H1 & _ & H3 & _).
  split; [exact H1 | exact H3].
Defined.

(** ** State relations kept by a computation *)

Section Keeps.
Context {S : Type} (R : S -> S -> Prop).
Hypothesis R_refl : forall s, R s s.
Hypothesis R_trans : forall s1 s2 s3, R s1 s2 -> R s2 s3 -> R s1 s3.

Lemma at_ret {A} (a : A) s : keeps_at R (ret a) s.
Proof. apply R_refl. Qed.

Lemma at_lift {A} (r : result A) s : keeps_at R (lift r) s.
Proof. apply R_refl. Qed.

Lemma at_gets {A} (f : S -> A) s : keeps_at R (gets f) s.
Proof. apply R_refl. Qed.

Lemma at_send_text al w msg s : keeps_at R (send_text al w msg) s.
Proof. unfold keeps_at, send_text. destruct (al w); apply R_refl. Qed.

Lemma at_modify (f : S -> S) s : R s (f s) -> keeps_at R (modify f) s.
Proof. intros H. exact H. Qed.

(** The general rule for a bind: the continuation must keep [R] from any
    state. *)
Lemma at_bind {A B} (m : M S A) (k : A -> M S B) s :
  keeps_at R m s -> (forall a s', keeps_at R (k a) s') -> keeps_at R (bind m k) s.
Proof.
  unfold keeps_at, bind. intros Hm Hk.
  destruct (m s) as [[a|x] s1 o1]; simpl in *; [| exact Hm].
  specialize (Hk a s1). destruct (k a s1) as [r s2 o2]; simpl in *.
  eapply R_trans; eassumption.
Qed.

(** Binds of a pure step keep the state, and remember what was read. *)
Lemma at_bind_lift {A B} (r : result A) (k : A -> M S B) s :
  (forall a, r = Ok a -> keeps_at R (k a) s) -> keeps_at R (bind (lift r) k) s.
Proof.
  unfold keeps_at, bind, lift. intros Hk.
  destruct r as [a|x]; simpl; [| apply R_refl].
  specialize (Hk a eq_refl). now destruct (k a s).
Qed.

Lemma at_bind_gets {A B} (f : S -> A) (k : A -> M S B) s :
  keeps_at R (k (f s)) s -> keeps_at R (bind (gets f) k) s.
Proof.
  unfold keeps_at, bind, gets. simpl. intros Hk. now destruct (k (f s) s).
Qed.

Lemma at_bind_ret {A B} (a : A) (k : A -> M S B) s :
  keeps_at R (k a) s -> keeps_at R (bind (ret a) k) s.
Proof.
  unfold keeps_at, bind, ret. simpl. intros Hk. now destruct (k a s).
Qed.

Lemma at_try_except {A} (m : M S A) (h : exn -> M S A) s :
  keeps_at R m s -> (forall x s', keeps_at R (h x) s') -> keeps_at R (try_except m h) s.
Proof.
  unfold keeps_at, try_except. intros Hm Hh.
  destruct (m s) as [[a|x] s1 o1]; simpl in *; [exact Hm |].
  specialize (Hh x s1). destruct (h x s1) as [r s2 o2]; simpl in *.
  eapply R_trans; eassumption.
Qed.

End Keeps.

(** Decompose a [keeps_at] goal along the structure of the computation. *)
Ltac keeps_step :=
  lazymatch goal with
  | |- keeps _ _ => intros ?
  | |- keeps_at _ (bind (lift _) _) _ => apply at_bind_lift; [assumption | intros ? ?]
  | |- keeps_at _ (bind (gets _) _) _ => apply at_bind_gets
  | |- keeps_at _ (bind (ret _) _) _ => apply at_bind_ret
  | |- keeps_at _ (bind _ _) _ => apply at_bind; [assumption | | intros ? ?]
  | |- keeps_at _ (try_except _ _) _ => apply at_try_except; [assumption | | intros ? ?]
  | |- keeps_at _ (lift _) _ => apply at_lift; assumption
  | |- keeps_at _ (gets _) _ => apply at_gets; assumption
  | |- keeps_at _ (ret _) _ => apply at_ret; assumption
  | |- keeps_at _ (send_text _ _ _) _ => apply at_send_text; assumption
  | |- keeps_at _ (if ?b then _ else _) _ => destruct b eqn:?
  | |- keeps_at _ (match ?x with _ => _ end) _ => destruct x eqn:?
  end.

(** ** Completion in main.py *)

Lemma only_completes_refl allowed s : only_completes allowed s s.
Proof. intros tid H. now left. Qed.

Lemma only_completes_trans allowed s1 s2 s3 :
  only_completes allowed s1 s2 -> only_completes allowed s2 s3 ->
  only_completes allowed s1 s3.
Proof.
  intros H12 H23 tid H. destruct (H23 tid H) as [H2|Ha]; [auto | now right].
Qed.

Lemma only_completes_same_transfers allowed s s' :
  Main.transfers s' = Main.transfers s -> only_completes allowed s s'.
Proof. intros E tid (t & Ht & Hs). left. exists t. now rewrite <- E. Qed.

(** Replacing a record by one that is not completed, or by one with the
    status it had, completes nothing. *)
Lemma only_completes_insert allowed s k t' :
  (Main.status t' = "completed" ->
   allowed k \/ exists t, Main.transfers s !! k = Some t /\ Main.status t = "completed") ->
  only_completes allowed s (Main.with_transfers (insert k t') s).
Proof.
  intros H tid (t & Ht & Hs). simpl in Ht.
  destruct (decide (k = tid)) as [->|Hne].
  - rewrite lookup_insert_eq in Ht. injection Ht as <-.
    destruct (H Hs) as [Ha | Hc]; [now right | now left].
  - rewrite lookup_insert_ne in Ht by assumption. left. now exists t.
Qed.

Section MainCompletion.
Variable e : env.
Variable allowed : string -> Prop.

Let R := only_completes allowed.
Let R_refl : forall s, R s s := only_completes_refl allowed.
Let R_trans : forall s1 s2 s3, R s1 s2 -> R s2 s3 -> R s1 s3 :=
  only_completes_trans allowed.

Lemma main_send_to_client_keeps cid msg : keeps R (Main.send_to_client e cid msg).
Proof. unfold Main.send_to_client. repeat keeps_step. Qed.

Lemma main_create_transfer_keeps tid fi sid rid :
  keeps R (Main.create_transfer e tid fi sid rid).
Proof.
  unfold Main.create_transfer. repeat keeps_step.
  apply at_modify, only_completes_insert. discriminate.
Qed.

Lemma main_update_progress_keeps tid p : keeps R (Main.update_progress tid p).
Proof.
  unfold Main.update_progress. repeat keeps_step.
  apply at_modify, only_completes_insert. simpl. intros Hs. right.
  subst. simpl in *. injection H as H. eauto.
Qed.

Lemma main_complete_transfer_keeps tid :
  (forall k, tid = JStr k -> allowed k) ->
  keeps R (Main.complete_transfer tid).
Proof.
  intros Hal. unfold Main.complete_transfer. repeat keeps_step.
  apply at_modify, only_completes_insert. intros _. left. now apply Hal.
Qed.

Lemma main_file_transfer_start_keeps c m w :
  keeps R (Main.handle_file_transfer_start e c m w).
Proof.
  unfold Main.handle_file_transfer_start.
  repeat first [ apply main_create_transfer_keeps
               | apply main_send_to_client_keeps
               | keeps_step ].
Qed.

Lemma main_file_chunk_keeps c m w : keeps R (Main.handle_file_chunk e c m w).
Proof.
  unfold Main.handle_file_chunk.
  repeat first [ apply main_update_progress_keeps
               | apply main_send_to_client_keeps
               | keeps_step ].
Qed.

Lemma main_chunk_ack_keeps c m w : keeps R (Main.handle_chunk_ack e c m w).
Proof.
  unfold Main.handle_chunk_ack.
  repeat first [ apply main_send_to_client_keeps | keeps_step ].
Qed.

Lemma main_transfer_complete_keeps c m w :
  (forall k, get m "transfer_id" = Ok (JStr k) -> allowed k) ->
  keeps R (Main.handle_transfer_complete e c m w).
Proof.
  intros Hal. unfold Main.handle_transfer_complete.
  repeat first [ apply main_send_to_client_keeps
               | apply main_complete_transfer_keeps; intros k ->; now apply Hal
               | keeps_step ].
Qed.

End MainCompletion.

Lemma main_dispatch_keeps e c m w :
  keeps (only_completes (completes m)) (Main.handle_websocket_message e c m w).
Proof.
  pose proof (only_completes_refl (completes m)) as R_refl.
  pose proof (only_completes_trans (completes m)) as R_trans.
  unfold Main.handle_websocket_message.
  repeat first [ apply main_file_transfer_start_keeps
               | apply main_file_chunk_keeps
               | apply main_chunk_ack_keeps
               | apply main_transfer_complete_keeps
               | keeps_step ].
  intros k Hk. split; [| assumption].
  match goal with
  | H : get m "type" = Ok ?ty, E : eq_str ?ty "transfer_complete" = true |- _ =>
      apply eq_str_true in E; now rewrite <- E
  end.
Qed.

Lemma main_on_text_keeps e c w m :
  keeps (only_completes (completes m)) (Main.on_text e c w (Some m)).
Proof.
  pose proof (only_completes_refl (completes m)) as R_refl.
  pose proof (only_completes_trans (completes m)) as R_trans.
  unfold Main.on_text. intros s. apply at_try_except; [assumption | |].
  - apply at_bind_lift; [assumption |]. intros a [= <-]. apply main_dispatch_keeps.
  - intros x s'. now apply at_modify, only_completes_same_transfers.
Qed.

Lemma main_step_keeps e ev s :
  only_completes
    (fun tid => exists c w m, ev = Main.Text c w (Some m) /\ completes m tid)
    s (st (Main.step e ev s)).
Proof.
  destruct ev as [c w | c w [m|] | c]; simpl;
    try (now apply only_completes_same_transfers).
  intros tid H.
  destruct (main_on_text_keeps e c w m s tid H) as [Hs | Hc];
    [now left | right; eauto].
Qed.

(** A chunk_ack leaves the whole state of main.py as it was, however the
    send of the forwarded ack ends. *)
Lemma main_chunk_ack_state e c m w s : st (Main.handle_chunk_ack e c m w s) = s.
Proof.
  assert (K : keeps eq (Main.handle_chunk_ack e c m w)).
  { assert (R_refl : forall s : Main.state, s = s) by reflexivity.
    assert (R_trans : forall s1 s2 s3 : Main.state, s1 = s2 -> s2 = s3 -> s1 = s3)
      by congruence.
    unfold Main.handle_chunk_ack, Main.send_to_client. repeat keeps_step. }
  symmetry. apply K.
Qed.

Lemma run_cons e ev rest s :
  Main.run ((e, ev) :: rest) s
  = (fst (Main.run rest (st (Main.step e ev s))),
     (out (Main.step e ev s) ++ snd (Main.run rest (st (Main.step e ev s))))%list).
Proof.
  simpl. destruct (Main.step e ev s) as [r s1 o1]; simpl.
  now destruct (Main.run rest s1).
Qed.

(** C5: in main.py a chunk_ack message never changes any transfer record
    (so no status becomes completed through it, whatever was acknowledged),
    and over any run of the server a transfer that is completed at the end
    was completed at the start or is named by a transfer_complete message
    of the run. *)
Theorem completed_only_by_transfer_complete (e : env) (c : string) (w : ws)
    (ack : json) (evs : list (env * Main.event)) (s : Main.state) (tid : string) :
  (get ack "type" = Ok (JStr "chunk_ack") ->
   Main.transfers (st (Main.step e (Main.Text c w (Some ack)) s)) = Main.transfers s)
  /\ (completed_in (fst (Main.run evs s)) tid ->
      completed_in s tid
      \/ exists e' c' w' m, In (e', Main.Text c' w' (Some m)) evs /\ completes m tid).
Proof.
  split.
  - intros Hty. simpl.
    unfold Main.on_text, try_except, Main.handle_websocket_message.
    unfold bind at 1 2. unfold lift at 1 2. simpl. rewrite Hty. simpl.
    pose proof (main_chunk_ack_state e c ack w s) as Hst.
    destruct (Main.handle_chunk_ack e c ack w s) as [[[]|x] s1 o1]; simpl in *;
      now subst.
  - revert s. induction evs as [| [e' ev] rest IH]; intros s H.
    + now left.
    + rewrite run_cons in H. simpl in H.
      destruct (IH _ H) as [Hmid | (e2 & c2 & w2 & m2 & Hin & Hc)].
      * destruct (main_step_keeps e' ev s tid Hmid) as [Hs | (c1 & w1 & m1 & -> & Hc)].
        -- now left.
        -- right. exists e', c1, w1, m1. split; [now left | assumption].
      * right. exists e2, c2, w2, m2. split; [now right | assumption].
Qed.

Lemma completed_only_by_transfer_complete_witness :
  Main.transfers
    (st (Main.step (demo_env "T2") (Main.Text "bob" 2%nat (Some ack_chunk_0))
                   main_transfer_pending))
  = Main.transfers main_transfer_pending
  /\ (completed_in main_transfer_pending "T1"
      \/ exists e' c' w' m,
           In (e', Main.Text c' w' (Some m)) main_chunk_ack_complete
           /\ completes m "T1").
Proof.
  destruct (completed_only_by_transfer_complete (demo_env "T2") "bob" 2%nat
              ack_chunk_0 main_chunk_ack_complete main_transfer_pending "T1")
    as [Hack Hrun].
  split.
  - apply Hack. reflexivity.
  - apply Hrun.
    exists (Main.Transfer "T1" x_pdf "alice" (JStr "bob") "completed" (JInt 100)
                          (JInt 0) (JInt 1) "2025-10-23T03:40:00").
    split; vm_compute; reflexivity.
Defined.

(** ** Starting a transfer (main.py, working_server.py) *)


Lemma truthy_str r : r <> "" -> truthy (JStr r) = true.
Proof.
  intros H. simpl. destruct (String.eqb r "") eqn:E; [| reflexivity].
  apply String.eqb_eq in E. contradiction.
Qed.



(** ** Completing a transfer (main.py, advanced_server.py) *)

(** C7, as stated, fails on main.py: when alice completes T1 (still pending,
    its one chunk sent and acknowledged) the only message sent goes to alice's
    socket and bob's socket receives nothing; and a second transfer_complete
    is not a no-op, since alice is notified again. *)
Lemma complete_notifies_sender_only :
  (exists t, Main.transfers main_chunk_acked !! "T1" = Some t
             /\ Main.status t = "pending" /\ Main.receiver_id t = JStr "bob")
  /\ Main.active_connections main_chunk_acked !! "bob" = Some 2%nat
  /\ out (Main.step (demo_env "T2") (Main.Text "alice" 1%nat (Some complete_T1))
                    main_chunk_acked)
     = [Sent 1%nat (transfer_completed (JStr "T1"))]
  /\ delivered 2%nat
       (out (Main.step (demo_env "T2") (Main.Text "alice" 1%nat (Some complete_T1))
                       main_chunk_acked)) = []
  /\ out (Main.step (demo_env "T2") (Main.Text "alice" 1%nat (Some complete_T1))
                    main_completed_once)
     = [Sent 1%nat (transfer_completed (JStr "T1"))].
Proof.
  repeat split; try (eexists; split; [vm_compute; reflexivity |]);
    vm_compute; auto.
Qed.

Lemma main_send_to_client_run e s target msg :
  out (Main.send_to_client e target msg s) = notified e (Main.active_connections s) target msg
  /\ st (Main.send_to_client e target msg s) = s.
Proof.
  unfold Main.send_to_client, notified. exec.
  destruct (lookup_key (Main.active_connections s) target) as [[w0|]|x]; exec; auto.
  unfold send_text. destruct (alive e w0); auto.
Qed.

(** What [handle_transfer_complete] of main.py does on a known transfer. *)
Lemma main_transfer_complete_known e c m w s k t :
  get m "transfer_id" = Ok (JStr k) ->
  Main.transfers s !! k = Some t ->
  st (Main.handle_transfer_complete e c m w s)
    = Main.with_transfers
        (insert k (Main.set_progress (JInt 100) (Main.set_status "completed" t))) s
  /\ out (Main.handle_transfer_complete e c m w s)
     = notified e (Main.active_connections s) (JStr (Main.sender_id t))
                (transfer_completed (JStr k)).
Proof.
  intros Hid Hk.
  unfold Main.handle_transfer_complete, Main.complete_transfer.
  exec with (rewrite ?Hid, ?Hk, ?lookup_insert_eq;
             cbn [Main.transfers Main.with_transfers]).
  destruct (main_send_to_client_run e
    (Main.with_transfers
       (insert k (Main.set_progress (JInt 100) (Main.set_status "completed" t))) s)
    (JStr (Main.sender_id t)) (transfer_completed (JStr k))) as [Ho Hs].
  split; [exact Hs | exact Ho].
Qed.

Lemma zoom_run {S T A} (proj : S -> T) (inj : T -> S -> S) (m : M T A) s r t o :
  m (proj s) = Outcome r t o -> zoom proj inj m s = Outcome r (inj t s) o.
Proof. intros H. unfold zoom. now rewrite H. Qed.

(** [send_to_client] of the servers that wrap the send in [try]: the state
    is untouched, a dead socket is reported as [False], and only an
    unhashable target raises. *)
Lemma advanced_send_to_client_run e s target msg :
  Advanced.send_to_client e target msg s
  = Outcome match lookup_key (Advanced.active_connections s) target with
            | Ok found => Ok match found with Some w => alive e w | None => false end
            | Raise x => Raise x
            end
            s (notified e (Advanced.active_connections s) target msg).
Proof.
  unfold Advanced.send_to_client, notified. exec.
  destruct (lookup_key (Advanced.active_connections s) target) as [[w0|]|x]; exec;
    try reflexivity.
  unfold try_except, bind, send_text, ret. destruct (alive e w0); reflexivity.
Qed.

Lemma advanced_send_to_client_str e s r msg :
  Advanced.send_to_client e (JStr r) msg s
  = Outcome (Ok match Advanced.active_connections s !! r with
                | Some w => alive e w
                | None => false
                end)
            s (notified e (Advanced.active_connections s) (JStr r) msg).
Proof.
  now rewrite advanced_send_to_client_run.
Qed.

Lemma p2p_complete_transfer_known e p k t :
  P2PTransferManager.active_transfers p !! k = Some t ->
  P2PTransferManager.complete_transfer e (JStr k) p
  = Outcome (Ok tt)
      (P2PTransferManager.with_transfers
         (insert k (P2PTransferManager.set_completed (now e) t)) p) [].
Proof.
  intros Hk. unfold P2PTransferManager.complete_transfer.
  exec with (rewrite ?Hk). reflexivity.
Qed.

(** What [handle_transfer_complete] of advanced_server.py does on a known
    transfer. *)
Lemma advanced_transfer_complete_known e c m w s k t :
  get m "transfer_id" = Ok (JStr k) ->
  Advanced.active_transfers s !! k = Some t ->
  st (Advanced.handle_transfer_complete e c m w s)
    = Advanced.with_p2p
        (P2PTransferManager.with_transfers
           (insert k (P2PTransferManager.set_completed (now e) t))
           (Advanced.p2p_transfer_manager s)) s
  /\ out (Advanced.handle_transfer_complete e c m w s)
     = (notified e (Advanced.active_connections s)
                 (JStr (P2PTransferManager.sender_id t)) (transfer_completed (JStr k))
        ++ notified e (Advanced.active_connections s)
                    (P2PTransferManager.receiver_id t) (transfer_completed (JStr k)))%list.
Proof.
  intros Hid Hk.
  unfold Advanced.handle_transfer_complete.
  exec with (rewrite ?Hid, ?Hk).
  unfold Advanced.p2p.
  rewrite (bind_run _ _ s tt _ []
             (zoom_run _ _ _ s _ _ _ (p2p_complete_transfer_known e _ k t Hk))).
  rewrite prepend_nil.
  exec with (unfold Advanced.active_transfers;
             cbn [Advanced.p2p_transfer_manager Advanced.with_p2p
                  P2PTransferManager.active_transfers P2PTransferManager.with_transfers];
             rewrite ?lookup_insert_eq).
  cbn [P2PTransferManager.sender_id P2PTransferManager.receiver_id
       P2PTransferManager.set_completed].
  set (s1 := Advanced.with_p2p _ s).
  rewrite (bind_run _ _ s1 _ _ _ (advanced_send_to_client_str e s1 _ _)).
  pose proof (advanced_send_to_client_run e s1 (P2PTransferManager.receiver_id t)
                (transfer_completed (JStr k))) as Hr.
  change (Advanced.active_connections s1) with (Advanced.active_connections s) in *.
  destruct (lookup_key (Advanced.active_connections s) (P2PTransferManager.receiver_id t))
    as [found|x] eqn:Hl.
  - rewrite (bind_run _ _ s1 _ _ _ Hr). unfold prepend, ret. cbn.
    now rewrite app_nil_r.
  - rewrite (bind_raise _ _ s1 _ _ _ Hr). unfold prepend. cbn. auto.
Qed.

(** C7, amended: a transfer_complete naming a known transfer sets its
    status to completed and its progress to 100 whatever the status was.
    main.py then notifies the sender alone, advanced_server.py the sender
    and then the receiver, each only if registered with a live socket. A
    repeated transfer_complete leaves the record completed (in main.py the
    whole state is unchanged, in advanced_server.py completed_at is
    stamped again) and sends the same notifications once more. *)
Theorem transfer_complete_marks_and_notifies (e e2 : env) (c : string) (w : ws)
    (m : json) (k : string) (t : Main.transfer) (s : Main.state)
    (m' : json) (k' : string) (t' : P2PTransferManager.transfer)
    (s' : Advanced.state) :
  get m "transfer_id" = Ok (JStr k) ->
  Main.transfers s !! k = Some t ->
  get m' "transfer_id" = Ok (JStr k') ->
  Advanced.active_transfers s' !! k' = Some t' ->
  (Main.transfers (st (Main.handle_transfer_complete e c m w s))
     = <[k := Main.set_progress (JInt 100) (Main.set_status "completed" t)]>
         (Main.transfers s)
   /\ Main.active_connections (st (Main.handle_transfer_complete e c m w s))
      = Main.active_connections s
   /\ out (Main.handle_transfer_complete e c m w s)
      = notified e (Main.active_connections s) (JStr (Main.sender_id t))
                 (transfer_completed (JStr k))
   /\ st (Main.handle_transfer_complete e2 c m w
            (st (Main.handle_transfer_complete e c m w s)))
      = st (Main.handle_transfer_complete e c m w s)
   /\ out (Main.handle_transfer_complete e2 c m w
             (st (Main.handle_transfer_complete e c m w s)))
      = notified e2 (Main.active_connections s) (JStr (Main.sender_id t))
                 (transfer_completed (JStr k)))
  /\ (Advanced.active_transfers (st (Advanced.handle_transfer_complete e c m' w s'))
        = <[k' := P2PTransferManager.set_completed (now e) t']>
            (Advanced.active_transfers s')
      /\ Advanced.active_connections (st (Advanced.handle_transfer_complete e c m' w s'))
         = Advanced.active_connections s'
      /\ out (Advanced.handle_transfer_complete e c m' w s')
         = (notified e (Advanced.active_connections s')
                     (JStr (P2PTransferManager.sender_id t'))
                     (transfer_completed (JStr k'))
            ++ notified e (Advanced.active_connections s')
                        (P2PTransferManager.receiver_id t')
                        (transfer_completed (JStr k')))%list
      /\ Advanced.active_transfers
           (st (Advanced.handle_transfer_complete e2 c m' w
                  (st (Advanced.handle_transfer_complete e c m' w s'))))
         = <[k' := P2PTransferManager.set_completed (now e2) t']>
             (Advanced.active_transfers s')
      /\ out (Advanced.handle_transfer_complete e2 c m' w
                (st (Advanced.handle_transfer_complete e c m' w s')))
         = (notified e2 (Advanced.active_connections s')
                     (JStr (P2PTransferManager.sender_id t'))
                     (transfer_completed (JStr k'))
            ++ notified e2 (Advanced.active_connections s')
                        (P2PTransferManager.receiver_id t')
                        (transfer_completed (JStr k')))%list).
Proof.
  intros Hid Hk Hid' Hk'. split.
  - destruct (main_transfer_complete_known e c m w s k t Hid Hk) as [Hst Hout].
    rewrite Hst, Hout.
    destruct (main_transfer_complete_known e2 c m w
                (Main.with_transfers
                   (insert k (Main.set_progress (JInt 100)
                                (Main.set_status "completed" t))) s)
                k (Main.set_progress (JInt 100) (Main.set_status "completed" t))
                Hid) as [Hst2 Hout2].
    { simpl. apply lookup_insert_eq. }
    rewrite Hst2, Hout2. repeat split.
    unfold Main.with_transfers. simpl. now rewrite insert_insert_eq.
  - destruct (advanced_transfer_complete_known e c m' w s' k' t' Hid' Hk') as [Hst Hout].
    rewrite Hst, Hout.
    destruct (advanced_transfer_complete_known e2 c m' w
                (Advanced.with_p2p
                   (P2PTransferManager.with_transfers
                      (insert k' (P2PTransferManager.set_completed (now e) t'))
                      (Advanced.p2p_transfer_manager s')) s')
                k' (P2PTransferManager.set_completed (now e) t') Hid') as [Hst2 Hout2].
    { unfold Advanced.active_transfers. simpl. apply lookup_insert_eq. }
    rewrite Hst2, Hout2. repeat split.
    unfold Advanced.active_transfers. simpl. now rewrite insert_insert_eq.
Qed.

Lemma transfer_complete_marks_and_notifies_witness :
  (out (Main.handle_transfer_complete (demo_env "T2") "alice" complete_T1 1%nat
                                      main_chunk_acked)
   = [Sent 1%nat (transfer_completed (JStr "T1"))]
   /\ st (Main.handle_transfer_complete (demo_env "T2") "alice" complete_T1 1%nat
            (st (Main.handle_transfer_complete (demo_env "T2") "alice" complete_T1 1%nat
                                               main_chunk_acked)))
      = st (Main.handle_transfer_complete (demo_env "T2") "alice" complete_T1 1%nat
                                          main_chunk_acked))
  /\ out (Advanced.handle_transfer_complete (demo_env "T2") "alice" complete_p2p 1%nat
                                            advanced_transfer_pending)
     = [Sent 1%nat (transfer_completed (JStr p2p_id));
        Sent 2%nat (transfer_completed (JStr p2p_id))].
Proof.
  destruct (transfer_complete_marks_and_notifies (demo_env "T2") (demo_env "T2")
              "alice" 1%nat complete_T1 "T1"
              (Main.Transfer "T1" x_pdf "alice" (JStr "bob") "pending" (JFloat 100)
                             (JInt 0) (JInt 1) "2025-10-23T03:40:00")
              main_chunk_acked complete_p2p p2p_id p2p_pending advanced_transfer_pending)
    as [(_ & _ & Hout & Hst & _) (_ & _ & Hout' & _)];
    try (vm_compute; reflexivity).
  split; [split |].
  - rewrite Hout. vm_compute. reflexivity.
  - exact Hst.
  - rewrite Hout'. vm_compute. reflexivity.
Defined.

(** ** Progress reports (webrtc_manager.py, advanced_server.py) *)

(** C6, as stated, fails: a reported progress of -5 is stored as -5 and a
    reported 150 as 150. *)
Lemma progress_stored_unclamped :
  P2PTransferManager.progress <$>
    (Advanced.active_transfers
       (st (Advanced.handle_transfer_progress "alice" (progress_report (-5)) 1%nat
                                              advanced_transfer_pending)) !! p2p_id)
  = Some (JInt (-5))
  /\ P2PTransferManager.progress <$>
       (Advanced.active_transfers
          (st (Advanced.handle_transfer_progress "alice" (progress_report 150) 1%nat
                                                 advanced_transfer_pending)) !! p2p_id)
     = Some (JInt 150).
Proof. split; vm_compute; reflexivity. Qed.

Lemma p2p_update_progress_known p k t v sent_ received :
  P2PTransferManager.active_transfers p !! k = Some t ->
  P2PTransferManager.update_transfer_progress (JStr k) v sent_ received p
  = Outcome (Ok tt)
      (P2PTransferManager.with_transfers
         (insert k
            (P2PTransferManager.opt_apply P2PTransferManager.set_chunks_received received
               (P2PTransferManager.opt_apply P2PTransferManager.set_chunks_sent sent_
                  (P2PTransferManager.set_progress v t)))) p) [].
Proof.
  intros Hk. unfold P2PTransferManager.update_transfer_progress.
  exec with (rewrite ?Hk). reflexivity.
Qed.

(** C6, amended: a progress report for a known transfer is never rejected
    and never clamped: the reported value, whatever it is, is stored as the
    transfer's progress, nothing else of the transfer record changes, no
    reply is sent and no exception is raised. *)
Theorem progress_stored_as_reported (c : string) (w : ws) (m : json) (k : string)
    (v : json) (t : P2PTransferManager.transfer) (s : Advanced.state) :
  get m "transfer_id" = Ok (JStr k) ->
  get m "progress" = Ok v ->
  Advanced.active_transfers s !! k = Some t ->
  res (Advanced.handle_transfer_progress c m w s) = Ok tt
  /\ out (Advanced.handle_transfer_progress c m w s) = []
  /\ Advanced.active_transfers (st (Advanced.handle_transfer_progress c m w s))
     = <[k := P2PTransferManager.set_progress v t]> (Advanced.active_transfers s)
  /\ P2PTransferManager.progress (P2PTransferManager.set_progress v t) = v
  /\ st (P2PTransferManager.update_transfer_progress (JStr k) v None None
           (Advanced.p2p_transfer_manager s))
     = P2PTransferManager.with_transfers
         (insert k (P2PTransferManager.set_progress v t))
         (Advanced.p2p_transfer_manager s).
Proof.
  intros Hid Hv Hk.
  assert (Hm : exists fields, m = JObj fields) by (eapply get_is_obj; eauto).
  destruct Hm as [fields ->].
  pose proof (p2p_update_progress_known (Advanced.p2p_transfer_manager s) k t v
                None None Hk) as Hup.
  assert (Hrun : Advanced.handle_transfer_progress c (JObj fields) w s
    = Outcome (Ok tt)
        (st (Advanced.handle_transfer_progress c (JObj fields) w s)) []
      /\ Advanced.active_transfers
           (st (Advanced.handle_transfer_progress c (JObj fields) w s))
         = <[k := P2PTransferManager.set_progress v t]> (Advanced.active_transfers s)).
  { unfold Advanced.handle_transfer_progress.
    exec with (rewrite ?Hid, ?Hv, ?Hk).
    unfold Advanced.p2p.
    rewrite (bind_run _ _ s tt _ [] (zoom_run _ _ _ s _ _ _ Hup)), prepend_nil.
    exec.
    destruct (Advanced.transfer_stats _ !! k) as [x|]; exec; split; reflexivity. }
  destruct Hrun as [Hrun Hts]. rewrite Hrun. cbn [res out st].
  repeat split; try assumption.
  now rewrite Hup.
Qed.

Lemma progress_stored_as_reported_witness :
  res (Advanced.handle_transfer_progress "alice" (progress_report 150) 1%nat
                                         advanced_transfer_pending) = Ok tt
  /\ out (Advanced.handle_transfer_progress "alice" (progress_report 150) 1%nat
                                            advanced_transfer_pending) = []
  /\ Advanced.active_transfers
       (st (Advanced.handle_transfer_progress "alice" (progress_report 150) 1%nat
                                              advanced_transfer_pending))
     = <[p2p_id := P2PTransferManager.set_progress (JInt 150) p2p_pending]>
         (Advanced.active_transfers advanced_transfer_pending).
Proof.
  destruct (progress_stored_as_reported "alice" 1%nat (progress_report 150) p2p_id
              (JInt 150) p2p_pending advanced_transfer_pending)
    as (Hres & Hout & Hts & _); try (vm_compute; reflexivity).
  repeat split; assumption.
Defined.

(** ** WebRTC signaling (webrtc_manager.py, advanced_server.py,
       ultimate_main.py) *)

(** C3, as stated, fails. In ultimate_main.py no offer was ever sent, yet
    bob's answer is forwarded to alice and nobody is sent an error. In
    advanced_server.py the connection has no offer on record ([None]), yet
    bob's answer is accepted, recorded and forwarded to alice. *)
Lemma answer_without_offer_is_forwarded :
  Ultimate.handle_webrtc_answer (demo_env "T1") "bob" ultimate_answer_to_alice 2%nat
                                ultimate_connected
  = Outcome (Ok tt) ultimate_connected
      [Sent 1%nat (obj [("type", JStr "webrtc_answer");
                        ("answer", sdp "v=0 bob");
                        ("from_client", JStr "bob")])]
  /\ WebRTCManager.offer <$> (Advanced.connections advanced_transfer_pending !! webrtc_id)
     = Some JNull
  /\ out (Advanced.handle_webrtc_answer (demo_env "T1") "bob" answer_from_bob 2%nat
                                        advanced_transfer_pending)
     = [Sent 1%nat (webrtc_answer_msg (JStr webrtc_id) (sdp "v=0 bob") "bob");
        Sent 2%nat (processed "webrtc_answer_processed" (JStr webrtc_id) true)]
  /\ WebRTCManager.answer <$>
       (Advanced.connections
          (st (Advanced.handle_webrtc_answer (demo_env "T1") "bob" answer_from_bob 2%nat
                                             advanced_transfer_pending)) !! webrtc_id)
     = Some (sdp "v=0 bob").
Proof. repeat split; vm_compute; reflexivity. Qed.

Lemma webrtc_get_connection_info_run s k :
  WebRTCManager.get_connection_info (JStr k) s
  = Outcome (Ok (WebRTCManager.active_connections s !! k)) s [].
Proof. unfold WebRTCManager.get_connection_info. exec. reflexivity. Qed.

(** The three signaling methods on a connection id that is a string. *)
Lemma webrtc_handle_offer_run s k off c :
  WebRTCManager.handle_offer (JStr k) off c s
  = match WebRTCManager.active_connections s !! k with
    | Some conn =>
        if String.eqb (WebRTCManager.sender_id conn) c
        then Outcome (Ok true)
               (WebRTCManager.State
                  (<[k := WebRTCManager.set_offer off conn]>
                     (WebRTCManager.active_connections s))) []
        else Outcome (Ok false) s []
    | None => Outcome (Ok false) s []
    end.
Proof.
  unfold WebRTCManager.handle_offer. exec.
  destruct (WebRTCManager.active_connections s !! k) as [conn|]; exec; [| reflexivity].
  destruct (String.eqb (WebRTCManager.sender_id conn) c); exec; reflexivity.
Qed.

Lemma webrtc_handle_answer_run s k ans c :
  WebRTCManager.handle_answer (JStr k) ans c s
  = match WebRTCManager.active_connections s !! k with
    | Some conn =>
        if eq_str (WebRTCManager.receiver_id conn) c
        then Outcome (Ok true)
               (WebRTCManager.State
                  (<[k := WebRTCManager.set_answer ans conn]>
                     (WebRTCManager.active_connections s))) []
        else Outcome (Ok false) s []
    | None => Outcome (Ok false) s []
    end.
Proof.
  unfold WebRTCManager.handle_answer. exec.
  destruct (WebRTCManager.active_connections s !! k) as [conn|]; exec; [| reflexivity].
  destruct (eq_str (WebRTCManager.receiver_id conn) c); exec; reflexivity.
Qed.

Lemma webrtc_handle_ice_candidate_run e s k cand c :
  WebRTCManager.handle_ice_candidate e (JStr k) cand c s
  = match WebRTCManager.active_connections s !! k with
    | Some conn =>
        if String.eqb (WebRTCManager.sender_id conn) c
           || eq_str (WebRTCManager.receiver_id conn) c
        then Outcome (Ok true)
               (WebRTCManager.State
                  (<[k := WebRTCManager.append_candidate
                            (WebRTCManager.IceEntry cand c (now e)) conn]>
                     (WebRTCManager.active_connections s))) []
        else Outcome (Ok false) s []
    | None => Outcome (Ok false) s []
    end.
Proof.
  unfold WebRTCManager.handle_ice_candidate. exec.
  destruct (WebRTCManager.active_connections s !! k) as [conn|]; exec; [| reflexivity].
  destruct (String.eqb (WebRTCManager.sender_id conn) c
            || eq_str (WebRTCManager.receiver_id conn) c); exec; reflexivity.
Qed.

Lemma advanced_answer_run e c w m k ans s :
  get m "connection_id" = Ok (JStr k) -> k <> "" ->
  get m "answer" = Ok ans -> truthy ans = true ->
  Advanced.handle_webrtc_answer e c m w s
  = match Advanced.connections s !! k with
    | Some conn =>
        if eq_str (WebRTCManager.receiver_id conn) c
        then prepend
               (notified e (Advanced.active_connections s)
                         (JStr (WebRTCManager.sender_id conn))
                         (webrtc_answer_msg (JStr k) ans c))
               (send_text (alive e) w
                  (processed "webrtc_answer_processed" (JStr k) true)
                  (Advanced.with_webrtc
                     (WebRTCManager.State
                        (<[k := WebRTCManager.set_answer ans conn]>
                           (Advanced.connections s))) s))
        else send_text (alive e) w
               (processed "webrtc_answer_processed" (JStr k) false) s
    | None => send_text (alive e) w
                (processed "webrtc_answer_processed" (JStr k) false) s
    end.
Proof.
  intros Hcid Hk Hans Tans.
  unfold Advanced.handle_webrtc_answer.
  exec with (rewrite ?Hcid, ?Hans, ?Tans, ?(truthy_str k Hk); cbn [negb orb]).
  unfold Advanced.webrtc.
  pose proof (webrtc_handle_answer_run (Advanced.webrtc_manager s) k ans c) as Hrun.
  unfold Advanced.connections.
  destruct (WebRTCManager.active_connections (Advanced.webrtc_manager s) !! k)
    as [conn|] eqn:Hl.
  - destruct (eq_str (WebRTCManager.receiver_id conn) c).
    + rewrite (bind_run _ _ s _ _ _ (zoom_run _ _ _ s _ _ _ Hrun)), prepend_nil.
      exec.
      set (s1 := Advanced.with_webrtc _ s).
      rewrite (bind_run _ _ s1 _ _ _
                 (zoom_run _ _ _ s1 _ _ _
                    (webrtc_get_connection_info_run (Advanced.webrtc_manager s1) k))),
        prepend_nil.
      change (WebRTCManager.active_connections (Advanced.webrtc_manager s1) !! k)
        with (<[k := WebRTCManager.set_answer ans conn]>
                (WebRTCManager.active_connections (Advanced.webrtc_manager s)) !! k).
      rewrite lookup_insert_eq. exec.
      change (Advanced.with_webrtc (Advanced.webrtc_manager s1) s1) with s1.
      cbn [WebRTCManager.sender_id WebRTCManager.set_answer].
      rewrite (bind_run _ _ s1 _ _ _ (advanced_send_to_client_str e s1 _ _)).
      exec. reflexivity.
    + rewrite (bind_run _ _ s _ _ _ (zoom_run _ _ _ s _ _ _ Hrun)), prepend_nil.
      exec. now destruct s as [a i [[cs] ts sts]].
  - rewrite (bind_run _ _ s _ _ _ (zoom_run _ _ _ s _ _ _ Hrun)), prepend_nil.
    exec. now destruct s as [a i [[cs] ts sts]].
Qed.

Lemma advanced_forward_then_ack e s1 target msg w ack :
  bind (bind (Advanced.send_to_client e target msg) (fun _ => ret tt))
       (fun _ => send_text (alive e) w ack) s1
  = forward_then_ack e (Advanced.active_connections s1) target msg w ack s1.
Proof.
  unfold forward_then_ack. rewrite bind_assoc.
  pose proof (advanced_send_to_client_run e s1 target msg) as Hr.
  destruct (lookup_key (Advanced.active_connections s1) target) as [found|x] eqn:Hl.
  - rewrite (bind_run _ _ s1 _ _ _ Hr). exec. reflexivity.
  - rewrite (bind_raise _ _ s1 _ _ _ Hr). unfold notified. now rewrite Hl.
Qed.

Lemma advanced_offer_run e c w m k off s :
  get m "connection_id" = Ok (JStr k) -> k <> "" ->
  get m "offer" = Ok off -> truthy off = true ->
  Advanced.handle_webrtc_offer e c m w s
  = match Advanced.connections s !! k with
    | Some conn =>
        if String.eqb (WebRTCManager.sender_id conn) c
        then forward_then_ack e (Advanced.active_connections s)
               (WebRTCManager.receiver_id conn) (webrtc_offer_msg (JStr k) off c)
               w (processed "webrtc_offer_processed" (JStr k) true)
               (Advanced.with_webrtc
                  (WebRTCManager.State
                     (<[k := WebRTCManager.set_offer off conn]>
                        (Advanced.connections s))) s)
        else send_text (alive e) w
               (processed "webrtc_offer_processed" (JStr k) false) s
    | None => send_text (alive e) w
                (processed "webrtc_offer_processed" (JStr k) false) s
    end.
Proof.
  intros Hcid Hk Hoff Toff.
  unfold Advanced.handle_webrtc_offer.
  exec with (rewrite ?Hcid, ?Hoff, ?Toff, ?(truthy_str k Hk); cbn [negb orb]).
  unfold Advanced.webrtc.
  pose proof (webrtc_handle_offer_run (Advanced.webrtc_manager s) k off c) as Hrun.
  unfold Advanced.connections.
  destruct (WebRTCManager.active_connections (Advanced.webrtc_manager s) !! k)
    as [conn|] eqn:Hl.
  - destruct (String.eqb (WebRTCManager.sender_id conn) c).
    + rewrite (bind_run _ _ s _ _ _ (zoom_run _ _ _ s _ _ _ Hrun)), prepend_nil.
      exec.
      set (s1 := Advanced.with_webrtc _ s).
      rewrite (bind_run _ _ s1 _ _ _
                 (zoom_run _ _ _ s1 _ _ _
                    (webrtc_get_connection_info_run (Advanced.webrtc_manager s1) k))),
        prepend_nil.
      change (WebRTCManager.active_connections (Advanced.webrtc_manager s1) !! k)
        with (<[k := WebRTCManager.set_offer off conn]>
                (WebRTCManager.active_connections (Advanced.webrtc_manager s)) !! k).
      rewrite lookup_insert_eq. exec.
      change (Advanced.with_webrtc (Advanced.webrtc_manager s1) s1) with s1.
      cbn [WebRTCManager.receiver_id WebRTCManager.set_offer].
      rewrite <- bind_assoc. rewrite advanced_forward_then_ack. reflexivity.
    + rewrite (bind_run _ _ s _ _ _ (zoom_run _ _ _ s _ _ _ Hrun)), prepend_nil.
      exec. now destruct s as [a i [[cs] ts sts]].
  - rewrite (bind_run _ _ s _ _ _ (zoom_run _ _ _ s _ _ _ Hrun)), prepend_nil.
    exec. now destruct s as [a i [[cs] ts sts]].
Qed.

Lemma advanced_ice_run e c w m k cand s :
  get m "connection_id" = Ok (JStr k) -> k <> "" ->
  get m "candidate" = Ok cand -> truthy cand = true ->
  Advanced.handle_webrtc_ice_candidate e c m w s
  = match Advanced.connections s !! k with
    | Some conn =>
        if String.eqb (WebRTCManager.sender_id conn) c
           || eq_str (WebRTCManager.receiver_id conn) c
        then forward_then_ack e (Advanced.active_connections s)
               (ice_target conn c) (webrtc_ice_msg (JStr k) cand c)
               w (processed "webrtc_ice_candidate_processed" (JStr k) true)
               (Advanced.with_webrtc
                  (WebRTCManager.State
                     (<[k := WebRTCManager.append_candidate
                               (WebRTCManager.IceEntry cand c (now e)) conn]>
                        (Advanced.connections s))) s)
        else send_text (alive e) w
               (processed "webrtc_ice_candidate_processed" (JStr k) false) s
    | None => send_text (alive e) w
                (processed "webrtc_ice_candidate_processed" (JStr k) false) s
    end.
Proof.
  intros Hcid Hk Hcand Tcand.
  unfold Advanced.handle_webrtc_ice_candidate.
  exec with (rewrite ?Hcid, ?Hcand, ?Tcand, ?(truthy_str k Hk); cbn [negb orb]).
  unfold Advanced.webrtc.
  pose proof (webrtc_handle_ice_candidate_run e (Advanced.webrtc_manager s) k cand c)
    as Hrun.
  unfold Advanced.connections.
  destruct (WebRTCManager.active_connections (Advanced.webrtc_manager s) !! k)
    as [conn|] eqn:Hl.
  - destruct (String.eqb (WebRTCManager.sender_id conn) c
              || eq_str (WebRTCManager.receiver_id conn) c).
    + rewrite (bind_run _ _ s _ _ _ (zoom_run _ _ _ s _ _ _ Hrun)), prepend_nil.
      exec.
      set (s1 := Advanced.with_webrtc _ s).
      rewrite (bind_run _ _ s1 _ _ _
                 (zoom_run _ _ _ s1 _ _ _
                    (webrtc_get_connection_info_run (Advanced.webrtc_manager s1) k))),
        prepend_nil.
      change (WebRTCManager.active_connections (Advanced.webrtc_manager s1) !! k)
        with (<[k := WebRTCManager.append_candidate
                       (WebRTCManager.IceEntry cand c (now e)) conn]>
                (WebRTCManager.active_connections (Advanced.webrtc_manager s)) !! k).
      rewrite lookup_insert_eq. exec.
      change (Advanced.with_webrtc (Advanced.webrtc_manager s1) s1) with s1.
      cbn [WebRTCManager.receiver_id WebRTCManager.sender_id
           WebRTCManager.append_candidate].
      rewrite <- bind_assoc. rewrite advanced_forward_then_ack. reflexivity.
    + rewrite (bind_run _ _ s _ _ _ (zoom_run _ _ _ s _ _ _ Hrun)), prepend_nil.
      exec. now destruct s as [a i [[cs] ts sts]].
  - rewrite (bind_run _ _ s _ _ _ (zoom_run _ _ _ s _ _ _ Hrun)), prepend_nil.
    exec. now destruct s as [a i [[cs] ts sts]].
Qed.

Lemma forward_then_ack_st e conns target msg w ack s1 :
  st (forward_then_ack e conns target msg w ack s1) = s1.
Proof.
  unfold forward_then_ack, prepend, send_text.
  destruct (lookup_key conns target); [| reflexivity].
  now destruct (alive e w).
Qed.

(** After an offer accepted from the connection's sender the connection is
    still there, with the same two parties, and the registry is as before. *)
Lemma advanced_offer_accepted_state e c1 w1 mo k off conn s :
  get mo "connection_id" = Ok (JStr k) -> k <> "" ->
  get mo "offer" = Ok off -> truthy off = true ->
  Advanced.connections s !! k = Some conn ->
  String.eqb (WebRTCManager.sender_id conn) c1 = true ->
  Advanced.connections (st (Advanced.handle_webrtc_offer e c1 mo w1 s)) !! k
    = Some (WebRTCManager.set_offer off conn)
  /\ Advanced.active_connections (st (Advanced.handle_webrtc_offer e c1 mo w1 s))
     = Advanced.active_connections s.
Proof.
  intros Hcid Hk Hoff Toff Hl Hs.
  rewrite (advanced_offer_run e c1 w1 mo k off s Hcid Hk Hoff Toff), Hl, Hs.
  rewrite forward_then_ack_st. split; [| reflexivity].
  unfold Advanced.connections. simpl. apply lookup_insert_eq.
Qed.

(** An answer on a known connection from its receiver, on a live socket. *)
Lemma advanced_answer_accepted e c w m k ans s conn :
  get m "connection_id" = Ok (JStr k) -> k <> "" ->
  get m "answer" = Ok ans -> truthy ans = true ->
  alive e w = true ->
  Advanced.connections s !! k = Some conn ->
  eq_str (WebRTCManager.receiver_id conn) c = true ->
  Advanced.handle_webrtc_answer e c m w s
  = Outcome (Ok tt)
      (Advanced.with_webrtc
         (WebRTCManager.State
            (<[k := WebRTCManager.set_answer ans conn]>
               (Advanced.connections s))) s)
      (notified e (Advanced.active_connections s)
                (JStr (WebRTCManager.sender_id conn))
                (webrtc_answer_msg (JStr k) ans c)
       ++ [Sent w (processed "webrtc_answer_processed" (JStr k) true)]).
Proof.
  intros Hcid Hk Hans Tans Hal Hl Hr.
  rewrite (advanced_answer_run e c w m k ans s Hcid Hk Hans Tans), Hl, Hr.
  now rewrite (send_text_alive _ _ _ _ Hal).
Qed.

(** C3, amended: advanced_server.py rejects an answer (it replies
    webrtc_answer_processed with success false, forwards nothing and records
    nothing) when the connection id is unknown or the answering session is
    not the connection's receiver. Whether an offer is on record is never
    examined: an answer on a known connection from its receiver is recorded
    and forwarded to the connection's sender, with or without a prior offer.
    In particular, after an offer accepted on a connection, an answer from
    that connection's receiver succeeds and is forwarded to the sender. *)
Theorem answer_checked_against_receiver_only (e : env) (c : string) (w : ws)
    (m : json) (k : string) (ans : json) (s : Advanced.state) :
  get m "connection_id" = Ok (JStr k) -> k <> "" ->
  get m "answer" = Ok ans -> truthy ans = true ->
  alive e w = true ->
  (Advanced.connections s !! k = None ->
   Advanced.handle_webrtc_answer e c m w s
   = Outcome (Ok tt) s
       [Sent w (processed "webrtc_answer_processed" (JStr k) false)])
  /\ (forall conn,
        Advanced.connections s !! k = Some conn ->
        (eq_str (WebRTCManager.receiver_id conn) c = false ->
         Advanced.handle_webrtc_answer e c m w s
         = Outcome (Ok tt) s
             [Sent w (processed "webrtc_answer_processed" (JStr k) false)])
        /\ (eq_str (WebRTCManager.receiver_id conn) c = true ->
            Advanced.handle_webrtc_answer e c m w s
            = Outcome (Ok tt)
                (Advanced.with_webrtc
                   (WebRTCManager.State
                      (<[k := WebRTCManager.set_answer ans conn]>
                         (Advanced.connections s))) s)
                (notified e (Advanced.active_connections s)
                          (JStr (WebRTCManager.sender_id conn))
                          (webrtc_answer_msg (JStr k) ans c)
                 ++ [Sent w (processed "webrtc_answer_processed" (JStr k) true)])))
  /\ (forall conn c1 w1 mo off,
        Advanced.connections s !! k = Some conn ->
        get mo "connection_id" = Ok (JStr k) ->
        get mo "offer" = Ok off -> truthy off = true ->
        String.eqb (WebRTCManager.sender_id conn) c1 = true ->
        eq_str (WebRTCManager.receiver_id conn) c = true ->
        res (Advanced.handle_webrtc_answer e c m w
               (st (Advanced.handle_webrtc_offer e c1 mo w1 s))) = Ok tt
        /\ out (Advanced.handle_webrtc_answer e c m w
                  (st (Advanced.handle_webrtc_offer e c1 mo w1 s)))
           = (notified e (Advanced.active_connections s)
                       (JStr (WebRTCManager.sender_id conn))
                       (webrtc_answer_msg (JStr k) ans c)
              ++ [Sent w (processed "webrtc_answer_processed" (JStr k) true)])%list).
Proof.
  intros Hcid Hk Hans Tans Hal.
  pose proof (fun s0 conn =>
                advanced_answer_accepted e c w m k ans s0 conn Hcid Hk Hans Tans Hal)
    as Hacc.
  split; [| split].
  - intros Hl.
    rewrite (advanced_answer_run e c w m k ans s Hcid Hk Hans Tans), Hl.
    now apply send_text_alive.
  - intros conn Hl. split; intros Hr.
    + rewrite (advanced_answer_run e c w m k ans s Hcid Hk Hans Tans), Hl, Hr.
      now apply send_text_alive.
    + now apply Hacc.
  - intros conn c1 w1 mo off Hl Hcid' Hoff Toff Hs Hr.
    destruct (advanced_offer_accepted_state e c1 w1 mo k off conn s
                Hcid' Hk Hoff Toff Hl Hs) as [Hl1 Hconns].
    rewrite (Hacc _ (WebRTCManager.set_offer off conn) Hl1 Hr).
    cbn [res out]. rewrite Hconns. split; reflexivity.
Qed.

Lemma answer_checked_against_receiver_only_witness :
  Advanced.handle_webrtc_answer (demo_env "T1") "alice" answer_from_bob 1%nat
                                advanced_transfer_pending
  = Outcome (Ok tt) advanced_transfer_pending
      [Sent 1%nat (processed "webrtc_answer_processed" (JStr webrtc_id) false)]
  /\ out (Advanced.handle_webrtc_answer (demo_env "T1") "bob" answer_from_bob 2%nat
            (st (Advanced.handle_webrtc_offer (demo_env "T1") "alice" offer_from_alice
                                              1%nat advanced_transfer_pending)))
     = [Sent 1%nat (webrtc_answer_msg (JStr webrtc_id) (sdp "v=0 bob") "bob");
        Sent 2%nat (processed "webrtc_answer_processed" (JStr webrtc_id) true)].
Proof.
  assert (Hne : webrtc_id <> "") by discriminate.
  assert (Hconn : Advanced.connections advanced_transfer_pending !! webrtc_id
                  = Some (WebRTCManager.Connection "alice" (JStr "bob") x_pdf
                            "initiating" "2025-10-23T03:40:00" [] JNull JNull))
    by (vm_compute; reflexivity).
  split.
  - destruct (answer_checked_against_receiver_only (demo_env "T1") "alice" 1%nat
                answer_from_bob webrtc_id (sdp "v=0 bob") advanced_transfer_pending
                eq_refl Hne eq_refl eq_refl eq_refl)
      as (_ & Hknown & _).
    exact (proj1 (Hknown _ Hconn) eq_refl).
  - destruct (answer_checked_against_receiver_only (demo_env "T1") "bob" 2%nat
                answer_from_bob webrtc_id (sdp "v=0 bob") advanced_transfer_pending
                eq_refl Hne eq_refl eq_refl eq_refl)
      as (_ & _ & Hafter).
    destruct (Hafter _ "alice" 1%nat offer_from_alice (sdp "v=0 alice")
                     Hconn eq_refl eq_refl eq_refl eq_refl eq_refl)
      as [_ Hout].
    rewrite Hout. vm_compute. reflexivity.
Defined.

(** ** ICE candidates (webrtc_manager.py, advanced_server.py,
       ultimate_main.py) *)

(** C4, as stated, fails. In advanced_server.py alice's candidate, sent
    before any answer, is forwarded to bob at once, and bob's later answer
    delivers no candidate to anybody. In ultimate_main.py a candidate for a
    peer that is not yet connected is dropped: nothing is sent or kept, and
    after the peer has connected and answered only the answer is sent. *)
Lemma ice_candidate_not_held_for_answer :
  WebRTCManager.answer <$> (Advanced.connections advanced_transfer_pending !! webrtc_id)
  = Some JNull
  /\ out (Advanced.handle_webrtc_ice_candidate (demo_env "T1") "alice"
            (ice_message webrtc_id (ice_n 0)) 1%nat advanced_transfer_pending)
     = ice_traffic webrtc_id "alice" 2%nat 1%nat (ice_n 0)
  /\ out (Advanced.handle_webrtc_answer (demo_env "T1") "bob" answer_from_bob 2%nat
            (st (Advanced.handle_webrtc_ice_candidate (demo_env "T1") "alice"
                   (ice_message webrtc_id (ice_n 0)) 1%nat advanced_transfer_pending)))
     = [Sent 1%nat (webrtc_answer_msg (JStr webrtc_id) (sdp "v=0 bob") "bob");
        Sent 2%nat (processed "webrtc_answer_processed" (JStr webrtc_id) true)]
  /\ Ultimate.handle_webrtc_ice_candidate (demo_env "T1") "alice" ultimate_ice_to_bob
                                          1%nat ultimate_alice_alone
     = Outcome (Ok tt) ultimate_alice_alone []
  /\ out (Ultimate.handle_webrtc_answer (demo_env "T1") "bob" ultimate_answer_to_alice
                                        2%nat ultimate_bob_joined)
     = [Sent 1%nat (obj [("type", JStr "webrtc_answer");
                         ("answer", sdp "v=0 bob");
                         ("from_client", JStr "bob")])].
Proof. repeat split; vm_compute; reflexivity. Qed.

(** One candidate from the connection's sender, whose peer is registered
    under a string id, all sockets being live. *)
Lemma advanced_ice_from_sender e c r w w' k cand conn s :
  k <> "" -> truthy cand = true ->
  Advanced.connections s !! k = Some conn ->
  WebRTCManager.sender_id conn = c ->
  WebRTCManager.receiver_id conn = JStr r ->
  Advanced.active_connections s !! r = Some w' ->
  alive e w = true -> alive e w' = true ->
  Advanced.handle_webrtc_ice_candidate e c (ice_message k cand) w s
  = Outcome (Ok tt)
      (Advanced.with_webrtc
         (WebRTCManager.State
            (<[k := WebRTCManager.append_candidate
                      (WebRTCManager.IceEntry cand c (now e)) conn]>
               (Advanced.connections s))) s)
      (ice_traffic k c w' w cand).
Proof.
  intros Hk Tc Hl Hs Hr Hw' Hal Hal'.
  rewrite (advanced_ice_run e c w (ice_message k cand) k cand s eq_refl Hk eq_refl Tc).
  rewrite Hl, Hs, String.eqb_refl. cbn [orb].
  unfold forward_then_ack, ice_target. rewrite Hs, String.eqb_refl, Hr.
  unfold notified. cbn [lookup_key]. rewrite Hw', Hal'.
  now rewrite (send_text_alive _ _ _ _ Hal).
Qed.

Lemma advanced_ice_each e c r w w' k cands : forall conn s,
  k <> "" -> Forall (fun cand => truthy cand = true) cands ->
  Advanced.connections s !! k = Some conn ->
  WebRTCManager.sender_id conn = c ->
  WebRTCManager.receiver_id conn = JStr r ->
  Advanced.active_connections s !! r = Some w' ->
  alive e w = true -> alive e w' = true ->
  exists conn',
    handle_each (fun m => Advanced.handle_webrtc_ice_candidate e c m w)
                (map (ice_message k) cands) s
    = Outcome (Ok tt)
        (Advanced.with_webrtc
           (WebRTCManager.State (<[k := conn']> (Advanced.connections s))) s)
        (flat_map (ice_traffic k c w' w) cands)
    /\ WebRTCManager.sender_id conn' = c
    /\ WebRTCManager.receiver_id conn' = JStr r
    /\ WebRTCManager.answer conn' = WebRTCManager.answer conn
    /\ WebRTCManager.ice_candidates conn'
       = (WebRTCManager.ice_candidates conn
          ++ map (fun cand => WebRTCManager.IceEntry cand c (now e)) cands)%list.
Proof.
  induction cands as [| cand rest IH]; intros conn s Hk Hall Hl Hs Hr Hw' Hal Hal'.
  - exists conn. cbn [map handle_each flat_map]. rewrite app_nil_r.
    repeat split; try assumption.
    unfold ret. f_equal. rewrite insert_id by assumption.
    now destruct s as [a i [[cs] ts sts]].
  - inversion Hall as [| ? ? Tc Hrest]; subst.
    cbn [map handle_each flat_map].
    rewrite (bind_run _ _ s _ _ _
               (advanced_ice_from_sender e _ r w w' k cand conn s
                  Hk Tc Hl eq_refl Hr Hw' Hal Hal')).
    set (conn1 := WebRTCManager.append_candidate _ conn).
    set (s1 := Advanced.with_webrtc _ s).
    destruct (IH conn1 s1 Hk Hrest) as (conn' & Hrun & Hs' & Hr' & Ha' & Hi');
      try assumption; try reflexivity.
    { unfold s1, Advanced.connections. simpl. apply lookup_insert_eq. }
    exists conn'. rewrite Hrun. unfold prepend. cbn [res st out].
    repeat split; try assumption.
    + f_equal. unfold s1, Advanced.with_webrtc, Advanced.connections.
      simpl. now rewrite insert_insert_eq.
    + rewrite Hi'. unfold conn1. simpl. now rewrite <- app_assoc.
Qed.

Lemma ultimate_ice_unregistered e c w mu cand tgt u :
  get mu "candidate" = Ok cand ->
  get mu "target_client" = Ok (JStr tgt) ->
  Ultimate.active_connections u !! tgt = None ->
  Ultimate.handle_webrtc_ice_candidate e c mu w u = Outcome (Ok tt) u [].
Proof.
  intros Hc Ht Hl.
  unfold Ultimate.handle_webrtc_ice_candidate, Ultimate.target_registered.
  exec with (rewrite ?Hc, ?Ht).
  destruct (truthy (JStr tgt)); exec with (rewrite ?Hl); reflexivity.
Qed.

(** C4, amended: nothing is queued. In advanced_server.py every candidate
    sent on a known connection by its sender is recorded and forwarded to
    the connection's receiver when the message is handled, answer or no
    answer: for any list of candidates (of length 0, 1, 5, ...) handled in
    order, with the receiver registered and the sockets live, the log is, in
    the order sent, each candidate to the receiver once, followed by its
    acknowledgement to the sender. An answer that arrives afterwards sends
    the answer to the sender and its acknowledgement, and no candidate. In
    ultimate_main.py a candidate whose target is not registered is dropped. *)
Theorem ice_candidates_forwarded_on_arrival (e : env) (c r : string) (w w' : ws)
    (k : string) (cands : list json) (conn : WebRTCManager.connection)
    (s : Advanced.state) (ma ans : json) :
  k <> "" ->
  Forall (fun cand => truthy cand = true) cands ->
  Advanced.connections s !! k = Some conn ->
  WebRTCManager.sender_id conn = c ->
  WebRTCManager.receiver_id conn = JStr r ->
  Advanced.active_connections s !! r = Some w' ->
  alive e w = true -> alive e w' = true ->
  get ma "connection_id" = Ok (JStr k) ->
  get ma "answer" = Ok ans -> truthy ans = true ->
  res (handle_each (fun m => Advanced.handle_webrtc_ice_candidate e c m w)
                   (map (ice_message k) cands) s) = Ok tt
  /\ out (handle_each (fun m => Advanced.handle_webrtc_ice_candidate e c m w)
                      (map (ice_message k) cands) s)
     = flat_map (ice_traffic k c w' w) cands
  /\ out (Advanced.handle_webrtc_answer e r ma w'
            (st (handle_each (fun m => Advanced.handle_webrtc_ice_candidate e c m w)
                             (map (ice_message k) cands) s)))
     = (notified e (Advanced.active_connections s) (JStr c)
                 (webrtc_answer_msg (JStr k) ans r)
        ++ [Sent w' (processed "webrtc_answer_processed" (JStr k) true)])%list
  /\ (forall (u : Ultimate.state) mu cand tgt,
        get mu "candidate" = Ok cand ->
        get mu "target_client" = Ok (JStr tgt) ->
        Ultimate.active_connections u !! tgt = None ->
        Ultimate.handle_webrtc_ice_candidate e c mu w u = Outcome (Ok tt) u []).
Proof.
  intros Hk Hall Hl Hs Hr Hw' Hal Hal' Hcid Hans Tans.
  destruct (advanced_ice_each e c r w w' k cands conn s Hk Hall Hl Hs Hr Hw' Hal Hal')
    as (conn' & Hrun & Hs' & Hr' & _ & _).
  rewrite Hrun. cbn [res st out].
  repeat split.
  - set (s1 := Advanced.with_webrtc _ s).
    assert (Hl1 : Advanced.connections s1 !! k = Some conn').
    { unfold s1, Advanced.connections. simpl. apply lookup_insert_eq. }
    assert (Hrcv : eq_str (WebRTCManager.receiver_id conn') r = true).
    { rewrite Hr'. simpl. apply String.eqb_refl. }
    rewrite (advanced_answer_accepted e r w' ma k ans s1 conn'
               Hcid Hk Hans Tans Hal' Hl1 Hrcv).
    cbn [out]. now rewrite Hs'.
  - intros u mu cand tgt. apply ultimate_ice_unregistered.
Qed.

Lemma ice_candidates_forwarded_on_arrival_witness :
  out (handle_each
         (fun m => Advanced.handle_webrtc_ice_candidate (demo_env "T1") "alice" m 1%nat)
         (map (ice_message webrtc_id) five_candidates) advanced_transfer_pending)
  = flat_map (ice_traffic webrtc_id "alice" 2%nat 1%nat) five_candidates
  /\ Ultimate.handle_webrtc_ice_candidate (demo_env "T1") "alice" ultimate_ice_to_bob
                                          1%nat ultimate_alice_alone
     = Outcome (Ok tt) ultimate_alice_alone [].
Proof.
  assert (Hne : webrtc_id <> "") by discriminate.
  assert (Hall : Forall (fun cand => truthy cand = true) five_candidates)
    by (repeat constructor).
  assert (Hconn : Advanced.connections advanced_transfer_pending !! webrtc_id
                  = Some (WebRTCManager.Connection "alice" (JStr "bob") x_pdf
                            "initiating" "2025-10-23T03:40:00" [] JNull JNull))
    by (vm_compute; reflexivity).
  assert (Hbob : Advanced.active_connections advanced_transfer_pending !! "bob"
                 = Some 2%nat) by (vm_compute; reflexivity).
  assert (Hgone : Ultimate.active_connections ultimate_alice_alone !! "bob" = None)
    by (vm_compute; reflexivity).
  destruct (ice_candidates_forwarded_on_arrival (demo_env "T1") "alice" "bob"
              1%nat 2%nat webrtc_id five_candidates _ advanced_transfer_pending
              answer_from_bob (sdp "v=0 bob")
              Hne Hall Hconn eq_refl eq_refl Hbob eq_refl eq_refl
              eq_refl eq_refl eq_refl)
    as (_ & Hout & _ & Hdrop).
  split; [exact Hout |].
  exact (Hdrop ultimate_alice_alone ultimate_ice_to_bob (ice_n 0) "bob"
               eq_refl eq_refl Hgone).
Defined.

(** ** Sender identity (webrtc_manager.py, main.py) *)

(** C8, as stated, fails on main.py: the chunk arrives on mallory's session
    and names alice as its sender; it is not rejected, the progress of
    alice's transfer T1 is overwritten and the chunk is forwarded to bob. *)
Lemma spoofed_chunk_is_forwarded :
  (exists t, Main.transfers main_mallory_joined !! "T1" = Some t
             /\ Main.sender_id t = "alice" /\ Main.progress t = JInt 0)
  /\ Main.step (demo_env "T2") (Main.Text "mallory" 3%nat (Some spoofed_chunk))
               main_mallory_joined
     = Outcome (Ok tt)
         (Main.with_transfers
            (insert "T1"
               (Main.Transfer "T1" x_pdf "alice" (JStr "bob") "pending" (JFloat 100)
                              (JInt 0) (JInt 1) "2025-10-23T03:40:00"))
            main_mallory_joined)
         [Sent 3%nat (progress_update (JStr "T1") (JFloat 100) (JInt 0));
          Sent 2%nat (file_chunk_msg (JStr "T1") (JStr "EVIL") (JInt 0) (JInt 1))].
Proof.
  split; [eexists; split; [vm_compute; reflexivity | split; reflexivity] |].
  vm_compute. reflexivity.
Qed.

(** A well-formed chunk for a known transfer whose receiver is registered,
    all sockets live: what [handle_file_chunk] of main.py does, for any
    session [c]. *)
Lemma main_file_chunk_known e c w m tid cd ci total next ratio p t r w' s :
  get m "transfer_id" = Ok (JStr tid) -> tid <> "" ->
  get m "chunk_data" = Ok cd -> truthy cd = true ->
  get m "chunk_index" = Ok ci -> is_none ci = false ->
  get m "total_chunks" = Ok total ->
  py_add_int ci 1 = Ok next -> py_truediv next total = Ok ratio ->
  py_mul_int ratio 100 = Ok p ->
  Main.transfers s !! tid = Some t ->
  Main.receiver_id t = JStr r ->
  Main.active_connections s !! r = Some w' ->
  alive e w = true -> alive e w' = true ->
  Main.handle_file_chunk e c m w s
  = Outcome (Ok tt)
      (Main.with_transfers (insert tid (Main.set_progress p t)) s)
      [Sent w (progress_update (JStr tid) p ci);
       Sent w' (file_chunk_msg (JStr tid) cd ci total)].
Proof.
  intros Htid Hne Hcd Tcd Hci Nci Htot Hnext Hratio Hp Ht Hr Hw' Hal Hal'.
  unfold Main.handle_file_chunk, Main.update_progress, Main.send_to_client.
  exec with (rewrite ?Htid, ?Hcd, ?Hci, ?Htot, ?Tcd, ?Nci, ?(truthy_str tid Hne),
               ?Hnext, ?Hratio, ?Hp, ?Ht; cbn [negb andb]).
  rewrite (bind_run _ _ _ _ _ _ (send_text_alive (alive e) w _ _ Hal)).
  exec with (cbn [Main.transfers Main.with_transfers Main.active_connections
                  Main.receiver_id Main.set_progress];
             rewrite ?lookup_insert_eq, ?Hr, ?Hw').
  rewrite (send_text_alive _ _ _ _ Hal'). reflexivity.
Qed.

(** What [handle_chunk_ack] of main.py does on a known transfer, for any
    session [c]: the state stays and the ack goes to the transfer's sender. *)
Lemma main_chunk_ack_known e c m w s k t ci rp :
  get m "transfer_id" = Ok (JStr k) ->
  get m "chunk_index" = Ok ci ->
  get_default m "received_progress" (JInt 0) = Ok rp ->
  Main.transfers s !! k = Some t ->
  st (Main.handle_chunk_ack e c m w s) = s
  /\ out (Main.handle_chunk_ack e c m w s)
     = notified e (Main.active_connections s) (JStr (Main.sender_id t))
                (chunk_ack_msg (JStr k) ci rp).
Proof.
  intros Hid Hci Hrp Hk.
  split; [apply main_chunk_ack_state |].
  unfold Main.handle_chunk_ack.
  exec with (rewrite ?Hid, ?Hci, ?Hrp, ?Hk).
  apply main_send_to_client_run.
Qed.

(** C8, amended: the session identity is checked in WebRTC signaling only.
    webrtc_manager.py rejects an offer on a known connection when it
    arrives on a session other than the connection's sender: nothing is
    recorded, and advanced_server.py forwards nothing and replies
    webrtc_offer_processed with success false. An answer or an ICE
    candidate from a session that is neither party of the connection is
    rejected in the same way, whatever its payload. The transfer handlers
    of main.py make no such check: a well-formed file_chunk for a known
    transfer whose progress can be computed (the division neither fails
    nor overflows) is applied to the transfer's progress and forwarded to
    its receiver whatever session [c] it arrives on (the transfer's sender
    or not) and whatever sender_id it carries; a transfer_complete from any
    session [c'] marks the transfer completed and notifies its sender; a
    chunk_ack from any session is forwarded to the transfer's sender. *)
Theorem identity_checked_in_signaling_only (e : env) (c : string) (w : ws)
    (mo : json) (k : string) (off : json) (conn : WebRTCManager.connection)
    (s : Advanced.state)
    (m : json) (tid : string) (cd ci total next ratio p : json)
    (t : Main.transfer) (r : string) (w' : ws) (ms : Main.state) :
  alive e w = true ->
  get mo "connection_id" = Ok (JStr k) -> k <> "" ->
  get mo "offer" = Ok off -> truthy off = true ->
  Advanced.connections s !! k = Some conn ->
  WebRTCManager.sender_id conn <> c ->
  get m "transfer_id" = Ok (JStr tid) -> tid <> "" ->
  get m "chunk_data" = Ok cd -> truthy cd = true ->
  get m "chunk_index" = Ok ci -> is_none ci = false ->
  get m "total_chunks" = Ok total ->
  py_add_int ci 1 = Ok next -> py_truediv next total = Ok ratio ->
  py_mul_int ratio 100 = Ok p ->
  Main.transfers ms !! tid = Some t ->
  Main.receiver_id t = JStr r ->
  Main.active_connections ms !! r = Some w' ->
  alive e w' = true ->
  WebRTCManager.handle_offer (JStr k) off c (Advanced.webrtc_manager s)
    = Outcome (Ok false) (Advanced.webrtc_manager s) []
  /\ Advanced.handle_webrtc_offer e c mo w s
     = Outcome (Ok tt) s [Sent w (processed "webrtc_offer_processed" (JStr k) false)]
  /\ Main.handle_file_chunk e c m w ms
     = Outcome (Ok tt)
         (Main.with_transfers (insert tid (Main.set_progress p t)) ms)
         [Sent w (progress_update (JStr tid) p ci);
          Sent w' (file_chunk_msg (JStr tid) cd ci total)]
  /\ (WebRTCManager.receiver_id conn <> JStr c ->
      forall payload : json,
        WebRTCManager.handle_answer (JStr k) payload c (Advanced.webrtc_manager s)
          = Outcome (Ok false) (Advanced.webrtc_manager s) []
        /\ WebRTCManager.handle_ice_candidate e (JStr k) payload c
             (Advanced.webrtc_manager s)
           = Outcome (Ok false) (Advanced.webrtc_manager s) [])
  /\ (forall (c' : string) (w0 : ws) (mc : json),
        get mc "transfer_id" = Ok (JStr tid) ->
        st (Main.handle_transfer_complete e c' mc w0 ms)
          = Main.with_transfers
              (insert tid
                 (Main.set_progress (JInt 100) (Main.set_status "completed" t))) ms
        /\ out (Main.handle_transfer_complete e c' mc w0 ms)
           = notified e (Main.active_connections ms) (JStr (Main.sender_id t))
                      (transfer_completed (JStr tid)))
  /\ (forall (c' : string) (w0 : ws) (ma cia rp : json),
        get ma "transfer_id" = Ok (JStr tid) ->
        get ma "chunk_index" = Ok cia ->
        get_default ma "received_progress" (JInt 0) = Ok rp ->
        st (Main.handle_chunk_ack e c' ma w0 ms) = ms
        /\ out (Main.handle_chunk_ack e c' ma w0 ms)
           = notified e (Main.active_connections ms) (JStr (Main.sender_id t))
                      (chunk_ack_msg (JStr tid) cia rp)).
Proof.
  intros Hal Hcid Hk Hoff Toff Hl Hs Htid Hne Hcd Tcd Hci Nci Htot Hnext Hratio Hp
         Ht Hr Hw' Hal'.
  assert (Hneq : String.eqb (WebRTCManager.sender_id conn) c = false)
    by now apply String.eqb_neq.
  split; [| split; [| split; [| split; [| split]]]].
  - rewrite webrtc_handle_offer_run.
    change (WebRTCManager.active_connections (Advanced.webrtc_manager s) !! k)
      with (Advanced.connections s !! k).
    now rewrite Hl, Hneq.
  - rewrite (advanced_offer_run e c w mo k off s Hcid Hk Hoff Toff), Hl, Hneq.
    now apply send_text_alive.
  - now apply (main_file_chunk_known e c w m tid cd ci total next ratio p t r w' ms).
  - intros Hrecv payload.
    assert (Hnr : eq_str (WebRTCManager.receiver_id conn) c = false).
    { destruct (eq_str (WebRTCManager.receiver_id conn) c) eqn:E; [| reflexivity].
      apply eq_str_true in E. contradiction. }
    rewrite webrtc_handle_answer_run, webrtc_handle_ice_candidate_run.
    change (WebRTCManager.active_connections (Advanced.webrtc_manager s) !! k)
      with (Advanced.connections s !! k).
    rewrite Hl, Hneq, Hnr. split; reflexivity.
  - intros c' w0 mc Hmc.
    exact (main_transfer_complete_known e c' mc w0 ms tid t Hmc Ht).
  - intros c' w0 ma cia rp Hma Hcia Hrp.
    exact (main_chunk_ack_known e c' ma w0 ms tid t cia rp Hma Hcia Hrp Ht).
Qed.

Lemma identity_checked_in_signaling_only_witness :
  Advanced.handle_webrtc_offer (demo_env "T2") "mallory" offer_from_alice 3%nat
                               advanced_mallory_joined
  = Outcome (Ok tt) advanced_mallory_joined
      [Sent 3%nat (processed "webrtc_offer_processed" (JStr webrtc_id) false)]
  /\ Main.handle_file_chunk (demo_env "T2") "mallory" spoofed_chunk 3%nat
                            main_mallory_joined
     = Outcome (Ok tt)
         (Main.with_transfers
            (insert "T1"
               (Main.set_progress (JFloat 100)
                  (Main.Transfer "T1" x_pdf "alice" (JStr "bob") "pending" (JInt 0)
                                 (JInt 0) (JInt 1) "2025-10-23T03:40:00")))
            main_mallory_joined)
         [Sent 3%nat (progress_update (JStr "T1") (JFloat 100) (JInt 0));
          Sent 2%nat (file_chunk_msg (JStr "T1") (JStr "EVIL") (JInt 0) (JInt 1))]
  /\ WebRTCManager.handle_answer (JStr webrtc_id) (sdp "v=0 mallory") "mallory"
       (Advanced.webrtc_manager advanced_mallory_joined)
     = Outcome (Ok false) (Advanced.webrtc_manager advanced_mallory_joined) []
  /\ out (Main.handle_transfer_complete (demo_env "T2") "mallory" complete_T1 3%nat
            main_mallory_joined)
     = [Sent 1%nat (transfer_completed (JStr "T1"))].
Proof.
  assert (Hk : webrtc_id <> "") by discriminate.
  assert (Ht1 : "T1" <> "") by discriminate.
  assert (Hconn : Advanced.connections advanced_mallory_joined !! webrtc_id
                  = Some (WebRTCManager.Connection "alice" (JStr "bob") x_pdf
                            "initiating" "2025-10-23T03:40:00" [] JNull JNull))
    by (vm_compute; reflexivity).
  assert (Hs : WebRTCManager.sender_id
                 (WebRTCManager.Connection "alice" (JStr "bob") x_pdf
                    "initiating" "2025-10-23T03:40:00" [] JNull JNull) <> "mallory")
    by discriminate.
  assert (Hrc : WebRTCManager.receiver_id
                  (WebRTCManager.Connection "alice" (JStr "bob") x_pdf
                     "initiating" "2025-10-23T03:40:00" [] JNull JNull)
                <> JStr "mallory")
    by discriminate.
  assert (Ht : Main.transfers main_mallory_joined !! "T1"
               = Some (Main.Transfer "T1" x_pdf "alice" (JStr "bob") "pending" (JInt 0)
                                     (JInt 0) (JInt 1) "2025-10-23T03:40:00"))
    by (vm_compute; reflexivity).
  assert (Hbob : Main.active_connections main_mallory_joined !! "bob" = Some 2%nat)
    by (vm_compute; reflexivity).
  destruct (identity_checked_in_signaling_only (demo_env "T2") "mallory" 3%nat
              offer_from_alice webrtc_id (sdp "v=0 alice") _ advanced_mallory_joined
              spoofed_chunk "T1" (JStr "EVIL") (JInt 0) (JInt 1) (JInt 1)
              (JFloat 1) (JFloat 100) _ "bob" 2%nat main_mallory_joined
              eq_refl eq_refl Hk eq_refl eq_refl Hconn Hs
              eq_refl Ht1 eq_refl eq_refl eq_refl eq_refl eq_refl
              eq_refl eq_refl eq_refl Ht eq_refl Hbob eq_refl)
    as (_ & Hoffer & Hchunk & Hparty & Hdone & _).
  split; [exact Hoffer |]. split; [exact Hchunk |].
  split; [exact (proj1 (Hparty Hrc (sdp "v=0 mallory"))) |].
  exact (proj2 (Hdone "mallory" 3%nat complete_T1 eq_refl)).
Defined.

(** * Further properties of the embedded code *)

(** ** Relations between start state, end state and output *)

Lemma lookup_key_some {V} (m : gmap string V) k v :
  lookup_key m k = Ok (Some v) -> exists s, k = JStr s /\ m !! s = Some v.
Proof. destruct k; simpl; intros [=]; eauto. Qed.

Section Holds.
Context {S : Type} (Q : S -> S -> list sent -> Prop).
Hypothesis Q_nil : forall s, Q s s [].
Hypothesis Q_app : forall s1 s2 s3 o1 o2,
  Q s1 s2 o1 -> Q s2 s3 o2 -> Q s1 s3 (o1 ++ o2).

Lemma h_ret {A} (a : A) s : holds_at Q (ret a) s.
Proof. apply Q_nil. Qed.

Lemma h_lift {A} (r : result A) s : holds_at Q (lift r) s.
Proof. apply Q_nil. Qed.

Lemma h_gets {A} (f : S -> A) s : holds_at Q (gets f) s.
Proof. apply Q_nil. Qed.

Lemma h_modify (f : S -> S) s : Q s (f s) [] -> holds_at Q (modify f) s.
Proof. intros H. exact H. Qed.

Lemma h_send_text al w msg s :
  Q s s [Sent w msg] -> holds_at Q (send_text al w msg) s.
Proof.
  intros H. unfold holds_at, send_text. destruct (al w); [exact H | apply Q_nil].
Qed.

Lemma h_bind {A B} (m : M S A) (k : A -> M S B) s :
  holds_at Q m s -> (forall a s', holds_at Q (k a) s') -> holds_at Q (bind m k) s.
Proof.
  unfold holds_at, bind. intros Hm Hk.
  destruct (m s) as [[a|x] s1 o1]; simpl in *; [| exact Hm].
  specialize (Hk a s1). destruct (k a s1) as [r s2 o2]; simpl in *.
  eapply Q_app; eassumption.
Qed.

Lemma h_bind_lift {A B} (r : result A) (k : A -> M S B) s :
  (forall a, r = Ok a -> holds_at Q (k a) s) -> holds_at Q (bind (lift r) k) s.
Proof.
  intros Hk. unfold holds_at in *. destruct r as [a|x].
  - rewrite bind_lift_ok. now apply Hk.
  - rewrite bind_lift_raise. apply Q_nil.
Qed.

Lemma h_bind_gets {A B} (f : S -> A) (k : A -> M S B) s :
  holds_at Q (k (f s)) s -> holds_at Q (bind (gets f) k) s.
Proof. unfold holds_at. intros Hk. now rewrite bind_gets. Qed.

Lemma h_bind_ret {A B} (a : A) (k : A -> M S B) s :
  holds_at Q (k a) s -> holds_at Q (bind (ret a) k) s.
Proof. unfold holds_at. intros Hk. now rewrite bind_ret. Qed.

Lemma h_try_except {A} (m : M S A) (h : exn -> M S A) s :
  holds_at Q m s -> (forall x s', holds_at Q (h x) s') ->
  holds_at Q (try_except m h) s.
Proof.
  unfold holds_at, try_except. intros Hm Hh.
  destruct (m s) as [[a|x] s1 o1]; simpl in *; [exact Hm |].
  specialize (Hh x s1). destruct (h x s1) as [r s2 o2]; simpl in *.
  eapply Q_app; eassumption.
Qed.

End Holds.

(** Decompose a [holds_at] goal along the structure of the computation;
    sends and state changes are left to the caller. *)
Ltac holds_step :=
  lazymatch goal with
  | |- holds_at _ (bind (lift _) _) _ => apply h_bind_lift; [assumption | intros ? ?]
  | |- holds_at _ (bind (gets _) _) _ => apply h_bind_gets
  | |- holds_at _ (bind (ret _) _) _ => apply h_bind_ret
  | |- holds_at _ (bind _ _) _ => apply h_bind; [assumption | | intros ? ?]
  | |- holds_at _ (try_except _ _) _ => apply h_try_except; [assumption | | intros ? ?]
  | |- holds_at _ (lift _) _ => apply h_lift; assumption
  | |- holds_at _ (gets _) _ => apply h_gets; assumption
  | |- holds_at _ (ret _) _ => apply h_ret; assumption
  | |- holds_at _ (if ?b then _ else _) _ => destruct b eqn:?
  | |- holds_at _ (match ?x with _ => _ end) _ => destruct x eqn:?
  end.

(** ** What every handler of main.py keeps *)

Section MainHandlers.
Variable e : env.
Variable w : ws.
Variable Q : Main.state -> Main.state -> list sent -> Prop.
Hypothesis Q_nil : forall s, Q s s [].
Hypothesis Q_app : forall s1 s2 s3 o1 o2,
  Q s1 s2 o1 -> Q s2 s3 o2 -> Q s1 s3 (o1 ++ o2).
(** the two kinds of send *)
Hypothesis Q_reply : forall s msg, Q s s [Sent w msg].
Hypothesis Q_forward : forall s c w' msg,
  Main.active_connections s !! c = Some w' -> Q s s [Sent w' msg].
(** the three kinds of update *)
Hypothesis Q_create : forall s tid t,
  Main.status t = "pending" -> Q s (Main.with_transfers (insert tid t) s) [].
Hypothesis Q_progress : forall s tid t p,
  Main.transfers s !! tid = Some t ->
  Q s (Main.with_transfers (insert tid (Main.set_progress p t)) s) [].
Hypothesis Q_complete : forall s tid t,
  Main.transfers s !! tid = Some t ->
  Q s (Main.with_transfers
         (insert tid (Main.set_progress (JInt 100) (Main.set_status "completed" t))) s) [].

Lemma main_send_to_client_holds cid msg s :
  holds_at Q (Main.send_to_client e cid msg) s.
Proof.
  unfold Main.send_to_client. repeat holds_step.
  match goal with H : lookup_key _ _ = Ok _ |- _ =>
    subst; apply lookup_key_some in H; destruct H as (k & -> & H) end.
  apply h_send_text; [assumption |]. eapply Q_forward; eassumption.
Qed.

Lemma main_create_transfer_holds tid fi sid rid s :
  holds_at Q (Main.create_transfer e tid fi sid rid) s.
Proof.
  unfold Main.create_transfer. repeat holds_step.
  apply h_modify. now apply Q_create.
Qed.

Lemma main_update_progress_holds tid p s :
  holds_at Q (Main.update_progress tid p) s.
Proof.
  unfold Main.update_progress. repeat holds_step.
  apply h_modify. apply Q_progress.
  subst. match goal with H : lookup_key _ (JStr _) = Ok _ |- _ =>
    simpl in H; now injection H end.
Qed.

Lemma main_complete_transfer_holds tid s :
  holds_at Q (Main.complete_transfer tid) s.
Proof.
  unfold Main.complete_transfer. repeat holds_step.
  apply h_modify. apply Q_complete.
  subst. match goal with H : lookup_key _ (JStr _) = Ok _ |- _ =>
    simpl in H; now injection H end.
Qed.

Lemma main_dispatch_holds c m s :
  holds_at Q (Main.handle_websocket_message e c m w) s.
Proof.
  unfold Main.handle_websocket_message, Main.handle_file_transfer_start,
    Main.handle_file_chunk, Main.handle_chunk_ack, Main.handle_transfer_complete.
  repeat first [ apply main_send_to_client_holds
               | apply main_create_transfer_holds
               | apply main_update_progress_holds
               | apply main_complete_transfer_holds
               | apply h_send_text; [assumption | apply Q_reply]
               | holds_step ].
Qed.

End MainHandlers.

Lemma main_sends_known_app w s1 s2 s3 o1 o2 :
  main_sends_known w s1 s2 o1 -> main_sends_known w s2 s3 o2 ->
  main_sends_known w s1 s3 (o1 ++ o2).
Proof.
  intros [E1 F1] [E2 F2]. split; [congruence |].
  apply Forall_app. split; [assumption |]. now rewrite <- E1.
Qed.

(** Whatever the message, a handler of main.py registers and deregisters
    nobody, and sends only to the socket the message came from or to a
    socket that is registered. *)
Lemma main_dispatch_sends_known e c m w s :
  main_sends_known w s (st (Main.handle_websocket_message e c m w s))
                       (out (Main.handle_websocket_message e c m w s)).
Proof.
  apply (main_dispatch_holds e w (main_sends_known w)).
  - intros s0. split; [reflexivity | constructor].
  - apply main_sends_known_app.
  - intros s0 msg. split; [reflexivity |]. repeat constructor.
  - intros s0 c0 w' msg H. split; [reflexivity |].
    constructor; [| constructor]. right. now exists c0.
  - intros s0 tid t _. split; [reflexivity | constructor].
  - intros s0 tid t p _. split; [reflexivity | constructor].
  - intros s0 tid t _. split; [reflexivity | constructor].
Qed.

(** X1: one message handled by the connection loop of main.py changes no
    registration other than, at most, removing the client it came from; and
    every message it sends goes to that client's own socket or to a socket
    registered at the time. *)
Theorem main_message_touches_only_its_sender (e : env) (c : string) (w : ws)
    (data : option json) (s : Main.state) :
  (forall c', c' <> c ->
     Main.active_connections (st (Main.step e (Main.Text c w data) s)) !! c'
     = Main.active_connections s !! c')
  /\ (Main.active_connections (st (Main.step e (Main.Text c w data) s)) !! c
      = Main.active_connections s !! c
      \/ Main.active_connections (st (Main.step e (Main.Text c w data) s)) !! c = None)
  /\ Forall (fun x => to_ws x = w
                      \/ exists c', Main.active_connections s !! c' = Some (to_ws x))
            (out (Main.step e (Main.Text c w data) s)).
Proof.
  simpl. unfold Main.on_text, try_except.
  destruct data as [m|].
  - rewrite bind_lift_ok.
    destruct (main_dispatch_sends_known e c m w s) as [Hreg Hout].
    destruct (Main.handle_websocket_message e c m w s) as [[[]|x] s1 o1];
      simpl in *.
    + rewrite Hreg. auto.
    + rewrite Hreg, app_nil_r. repeat split; [| | assumption].
      * intros c' Hne. now apply lookup_delete_ne.
      * right. apply lookup_delete_eq.
  - rewrite bind_lift_raise. simpl. repeat split; [| | constructor].
    + intros c' Hne. now apply lookup_delete_ne.
    + right. apply lookup_delete_eq.
Qed.

(** ** What every run of main.py keeps *)

Section MainRuns.
Variable R : Main.state -> Main.state -> Prop.
Hypothesis R_refl : forall s, R s s.
Hypothesis R_trans : forall s1 s2 s3, R s1 s2 -> R s2 s3 -> R s1 s3.
Hypothesis R_registry : forall s conns,
  R s (Main.State conns (Main.transfers s)).
Hypothesis R_create : forall s tid t,
  Main.status t = "pending" -> R s (Main.with_transfers (insert tid t) s).
Hypothesis R_progress : forall s tid t p,
  Main.transfers s !! tid = Some t ->
  R s (Main.with_transfers (insert tid (Main.set_progress p t)) s).
Hypothesis R_complete : forall s tid t,
  Main.transfers s !! tid = Some t ->
  R s (Main.with_transfers
         (insert tid (Main.set_progress (JInt 100) (Main.set_status "completed" t))) s).

Lemma main_step_related e ev s : R s (st (Main.step e ev s)).
Proof.
  destruct ev as [c w | c w data | c]; simpl; try apply R_registry.
  unfold Main.on_text, try_except.
  destruct data as [m|].
  - rewrite bind_lift_ok.
    pose proof (main_dispatch_holds e w (fun s s' _ => R s s')
                  R_refl (fun s1 s2 s3 _ _ => R_trans s1 s2 s3)
                  (fun s _ => R_refl s) (fun s _ _ _ _ => R_refl s)
                  R_create R_progress R_complete c m s) as H.
    unfold holds_at in H.
    destruct (Main.handle_websocket_message e c m w s) as [[[]|x] s1 o1];
      simpl in *; [assumption |].
    eapply R_trans; [exact H | apply R_registry].
  - rewrite bind_lift_raise. simpl. apply R_registry.
Qed.

Lemma main_run_related evs : forall s, R s (fst (Main.run evs s)).
Proof.
  induction evs as [| [e ev] rest IH]; intros s.
  - apply R_refl.
  - rewrite run_cons. simpl.
    eapply R_trans; [apply main_step_related | apply IH].
Qed.

End MainRuns.

(** X2: main.py never drops a transfer record: over any run of the server
    (connections, messages of any kind, disconnections) a transfer id that
    has a record keeps having one. *)
Theorem main_never_forgets_a_transfer (evs : list (env * Main.event))
    (s : Main.state) (tid : string) :
  is_Some (Main.transfers s !! tid) ->
  is_Some (Main.transfers (fst (Main.run evs s)) !! tid).
Proof.
  revert tid. change (main_records_kept s (fst (Main.run evs s))).
  apply main_run_related; unfold main_records_kept.
  - auto.
  - auto.
  - auto.
  - intros s0 k t _ tid H. simpl.
    destruct (decide (k = tid)) as [->|Hne];
      [rewrite lookup_insert_eq; eauto | now rewrite lookup_insert_ne].
  - intros s0 k t p _ tid H. simpl.
    destruct (decide (k = tid)) as [->|Hne];
      [rewrite lookup_insert_eq; eauto | now rewrite lookup_insert_ne].
  - intros s0 k t _ tid H. simpl.
    destruct (decide (k = tid)) as [->|Hne];
      [rewrite lookup_insert_eq; eauto | now rewrite lookup_insert_ne].
Qed.

Lemma main_never_forgets_a_transfer_witness :
  is_Some (Main.transfers
             (fst (Main.run ((demo_env "T2", Main.Close "alice")
                             :: (demo_env "T2", Main.Close "bob")
                             :: main_chunk_ack_complete)
                            main_transfer_pending)) !! "T1").
Proof.
  apply main_never_forgets_a_transfer. eexists. vm_compute. reflexivity.
Defined.

(** X3: the only statuses main.py ever gives a transfer are pending and
    completed: if every record is pending or completed before a run, every
    record is pending or completed after it. *)
Theorem main_status_pending_or_completed (evs : list (env * Main.event))
    (s : Main.state) :
  main_statuses_ok s -> main_statuses_ok (fst (Main.run evs s)).
Proof.
  apply (main_run_related (fun s s' => main_statuses_ok s -> main_statuses_ok s')).
  - auto.
  - auto.
  - intros s0 conns I. exact I.
  - intros s0 k t Hp I tid t'. simpl.
    destruct (decide (k = tid)) as [->|Hne].
    + rewrite lookup_insert_eq. intros [= <-]. now left.
    + rewrite lookup_insert_ne by assumption. apply I.
  - intros s0 k t p Ht I tid t'. simpl.
    destruct (decide (k = tid)) as [->|Hne].
    + rewrite lookup_insert_eq. intros [= <-]. simpl. now apply (I tid).
    + rewrite lookup_insert_ne by assumption. apply I.
  - intros s0 k t Ht I tid t'. simpl.
    destruct (decide (k = tid)) as [->|Hne].
    + rewrite lookup_insert_eq. intros [= <-]. now right.
    + rewrite lookup_insert_ne by assumption. apply I.
Qed.

Lemma main_status_pending_or_completed_witness :
  main_statuses_ok (fst (Main.run (main_alice_to_bob ++ main_chunk_ack_complete)
                                  Main.initial)).
Proof.
  apply main_status_pending_or_completed.
  intros tid t H. vm_compute in H. discriminate.
Defined.

(** ** Input that is not a message, and messages nobody handles (main.py) *)

(** X4: text that is not JSON, or JSON that is not an object, ends the
    connection loop of main.py: the client is deregistered, nothing is sent
    (no error reply) and no transfer changes. *)
Theorem main_undecodable_input_drops_client (e : env) (c : string) (w : ws)
    (data : option json) (s : Main.state) :
  data = None \/ (exists m, data = Some m /\ not_object m) ->
  Main.step e (Main.Text c w data) s = Outcome (Ok tt) (Main.disconnect c s) [].
Proof.
  intros [-> | (m & -> & Hm)]; simpl; unfold Main.on_text, try_except.
  - now rewrite bind_lift_raise.
  - rewrite bind_lift_ok. unfold Main.handle_websocket_message.
    destruct m; try contradiction; unfold get, get_default;
      now rewrite bind_lift_raise.
Qed.

Lemma main_undecodable_input_drops_client_witness :
  Main.step (demo_env "T2") (Main.Text "alice" 1%nat (Some not_a_dict))
            main_transfer_pending
  = Outcome (Ok tt) (Main.disconnect "alice" main_transfer_pending) [].
Proof.
  apply main_undecodable_input_drops_client.
  right. exists not_a_dict. split; [reflexivity | exact I].
Defined.

(** X5: a message object whose type is missing or is none of the five the
    dispatcher of main.py knows is ignored: no reply, no error, no change of
    state, and the connection stays open. *)
Theorem main_unknown_type_ignored (e : env) (c : string) (w : ws)
    (m ty : json) (s : Main.state) :
  get m "type" = Ok ty ->
  ty <> JStr "ping" -> ty <> JStr "file_transfer_start" ->
  ty <> JStr "file_chunk" -> ty <> JStr "chunk_ack" ->
  ty <> JStr "transfer_complete" ->
  Main.step e (Main.Text c w (Some m)) s = Outcome (Ok tt) s [].
Proof.
  intros Hty H1 H2 H3 H4 H5.
  assert (F : forall x, ty <> JStr x -> eq_str ty x = false).
  { intros x Hx. destruct (eq_str ty x) eqn:E; [| reflexivity].
    apply eq_str_true in E. contradiction. }
  simpl. unfold Main.on_text, try_except, Main.handle_websocket_message.
  exec with (rewrite ?Hty, ?(F _ H1), ?(F _ H2), ?(F _ H3), ?(F _ H4), ?(F _ H5)).
  reflexivity.
Qed.

Lemma main_unknown_type_ignored_witness :
  Main.step (demo_env "T2") (Main.Text "alice" 1%nat (Some hello_msg))
            main_transfer_pending
  = Outcome (Ok tt) main_transfer_pending [].
Proof.
  apply (main_unknown_type_ignored (demo_env "T2") "alice" 1%nat hello_msg
           (JStr "hello")); [reflexivity | discriminate ..].
Defined.

(** ** Chunks for unknown transfers and dead receivers (main.py,
       working_server.py) *)

(** Where the progress cannot be computed. The division of two ints
    overflows when the quotient does not fit a float. *)
Lemma py_truediv_int_overflow x y :
  y <> 0 -> float_limit * Z.abs y <= Z.abs x ->
  py_truediv (JInt x) (JInt y) = Raise OverflowError.
Proof.
  intros Hy Hx. unfold py_truediv. cbn [as_num].
  destruct (Z.eqb_spec y 0) as [-> | _]; [now destruct Hy |].
  destruct (Z.leb_spec (float_limit * Z.abs y) (Z.abs x)); [reflexivity | lia].
Qed.

Lemma py_truediv_int_ok x y ratio :
  py_truediv (JInt x) (JInt y) = Ok ratio ->
  y <> 0 /\ Z.abs x < float_limit * Z.abs y
  /\ ratio = JFloat (inject_Z x / inject_Z y).
Proof.
  unfold py_truediv. cbn [as_num].
  destruct (Z.eqb_spec y 0) as [-> | Hy]; [discriminate |].
  destruct (Z.leb_spec (float_limit * Z.abs y) (Z.abs x)); [discriminate |].
  intros [= <-]. auto.
Qed.

(** X27: a chunk whose index is an int so large that its share of the
    total does not fit a float makes [handle_file_chunk] of main.py raise
    [OverflowError] before anything is stored or sent, for a known transfer
    as for an unknown one, and the connection loop drops the client. *)
Theorem main_oversized_index_drops_client (e : env) (c : string) (w : ws)
    (m tid cd : json) (index total : Z) (s : Main.state) :
  get m "type" = Ok (JStr "file_chunk") ->
  get m "transfer_id" = Ok tid -> truthy tid = true ->
  get m "chunk_data" = Ok cd -> truthy cd = true ->
  get m "chunk_index" = Ok (JInt index) ->
  get m "total_chunks" = Ok (JInt total) ->
  total <> 0 -> float_limit * Z.abs total <= Z.abs (index + 1) ->
  Main.handle_file_chunk e c m w s = Outcome (Raise OverflowError) s []
  /\ Main.step e (Main.Text c w (Some m)) s
     = Outcome (Ok tt) (Main.disconnect c s) [].
Proof.
  intros Hty Htid Ttid Hcd Tcd Hci Htot Hne Hbig.
  assert (Hchunk : Main.handle_file_chunk e c m w s
                   = Outcome (Raise OverflowError) s []).
  { unfold Main.handle_file_chunk.
    exec with (rewrite ?Htid, ?Hcd, ?Hci, ?Htot, ?Ttid, ?Tcd; cbn [negb andb is_none]).
    cbn [py_add_int as_num].
    exec with (rewrite ?(py_truediv_int_overflow _ _ Hne Hbig)). reflexivity. }
  split; [exact Hchunk |].
  simpl. unfold Main.on_text, try_except, Main.handle_websocket_message.
  exec with (rewrite ?Hty; cbn [eq_str String.eqb Ascii.eqb Bool.eqb]).
  rewrite Hchunk. reflexivity.
Qed.

Lemma main_oversized_index_drops_client_witness :
  Main.handle_file_chunk (demo_env "T2") "alice" chunk_oversized 1%nat
                         main_transfer_pending
  = Outcome (Raise OverflowError) main_transfer_pending []
  /\ Main.step (demo_env "T2") (Main.Text "alice" 1%nat (Some chunk_oversized))
               main_transfer_pending
     = Outcome (Ok tt) (Main.disconnect "alice" main_transfer_pending) [].
Proof.
  assert (Hne : 1 <> 0) by discriminate.
  assert (Hbig : float_limit * Z.abs 1 <= Z.abs (10 ^ 400 + 1))
    by (vm_compute; discriminate).
  exact (main_oversized_index_drops_client (demo_env "T2") "alice" 1%nat
           chunk_oversized (JStr "T1") (JStr "AAAA") (10 ^ 400) 1
           main_transfer_pending
           eq_refl eq_refl eq_refl eq_refl eq_refl eq_refl eq_refl Hne Hbig).
Defined.

(** X6: main.py does not refuse a chunk for a transfer it does not know:
    when the progress can be computed (the index is a number and the
    division neither fails nor overflows), the sender is answered with the
    computed progress_update as for a known transfer, nothing is forwarded
    and nothing is stored. *)
Theorem main_chunk_for_unknown_transfer (e : env) (c : string) (w : ws)
    (m tid cd ci total next ratio p : json) (s : Main.state) :
  get m "transfer_id" = Ok tid -> truthy tid = true ->
  get m "chunk_data" = Ok cd -> truthy cd = true ->
  get m "chunk_index" = Ok ci -> is_none ci = false ->
  get m "total_chunks" = Ok total ->
  py_add_int ci 1 = Ok next -> py_truediv next total = Ok ratio ->
  py_mul_int ratio 100 = Ok p ->
  lookup_key (Main.transfers s) tid = Ok None ->
  alive e w = true ->
  Main.handle_file_chunk e c m w s
  = Outcome (Ok tt) s [Sent w (progress_update tid p ci)].
Proof.
  intros Htid Ttid Hcd Tcd Hci Nci Htot Hnext Hratio Hp Hl Hal.
  unfold Main.handle_file_chunk, Main.update_progress.
  exec with (rewrite ?Htid, ?Hcd, ?Hci, ?Htot, ?Tcd, ?Nci, ?Ttid,
               ?Hnext, ?Hratio, ?Hp, ?Hl; cbn [negb andb]).
  rewrite (bind_run _ _ _ _ _ _ (send_text_alive (alive e) w _ _ Hal)).
  exec with (rewrite ?Hl). reflexivity.
Qed.

Lemma main_chunk_for_unknown_transfer_witness :
  Main.handle_file_chunk (demo_env "T2") "alice" chunk_T9 1%nat main_transfer_pending
  = Outcome (Ok tt) main_transfer_pending
      [Sent 1%nat (progress_update (JStr "T9") (JFloat 100) (JInt 0))].
Proof.
  apply (main_chunk_for_unknown_transfer (demo_env "T2") "alice" 1%nat chunk_T9
           (JStr "T9") (JStr "AAAA") (JInt 0) (JInt 1) (JInt 1) (JFloat 1)
           (JFloat 100) main_transfer_pending);
    solve [reflexivity | vm_compute; reflexivity].
Defined.

(** X7: in main.py the forward to the receiver is not guarded: when the
    receiver of a known transfer is registered but its socket is dead, the
    handler of a chunk whose progress can be computed (the division neither
    fails nor overflows) raises after it has stored the progress and
    answered the sender, and the connection loop then deregisters the
    sender, whose own socket is live. *)
Theorem main_dead_receiver_drops_sender (e : env) (c : string) (w : ws)
    (m : json) (tid : string) (cd ci total next ratio p : json)
    (t : Main.transfer) (r : string) (w' : ws) (s : Main.state) :
  get m "type" = Ok (JStr "file_chunk") ->
  get m "transfer_id" = Ok (JStr tid) -> tid <> "" ->
  get m "chunk_data" = Ok cd -> truthy cd = true ->
  get m "chunk_index" = Ok ci -> is_none ci = false ->
  get m "total_chunks" = Ok total ->
  py_add_int ci 1 = Ok next -> py_truediv next total = Ok ratio ->
  py_mul_int ratio 100 = Ok p ->
  Main.transfers s !! tid = Some t ->
  Main.receiver_id t = JStr r ->
  Main.active_connections s !! r = Some w' ->
  alive e w = true -> alive e w' = false ->
  Main.step e (Main.Text c w (Some m)) s
  = Outcome (Ok tt)
      (Main.disconnect c
         (Main.with_transfers (insert tid (Main.set_progress p t)) s))
      [Sent w (progress_update (JStr tid) p ci)].
Proof.
  intros Hty Htid Hne Hcd Tcd Hci Nci Htot Hnext Hratio Hp Ht Hr Hw' Hal Hdead.
  assert (Hchunk : Main.handle_file_chunk e c m w s
    = Outcome (Raise SendError)
        (Main.with_transfers (insert tid (Main.set_progress p t)) s)
        [Sent w (progress_update (JStr tid) p ci)]).
  { unfold Main.handle_file_chunk, Main.update_progress, Main.send_to_client.
    exec with (rewrite ?Htid, ?Hcd, ?Hci, ?Htot, ?Tcd, ?Nci, ?(truthy_str tid Hne),
                 ?Hnext, ?Hratio, ?Hp, ?Ht; cbn [negb andb]).
    rewrite (bind_run _ _ _ _ _ _ (send_text_alive (alive e) w _ _ Hal)).
    exec with (cbn [Main.transfers Main.with_transfers Main.active_connections
                    Main.receiver_id Main.set_progress];
               rewrite ?lookup_insert_eq, ?Hr, ?Hw').
    unfold send_text. rewrite Hdead. reflexivity. }
  simpl. unfold Main.on_text, try_except, Main.handle_websocket_message.
  exec with (rewrite ?Hty; cbn [eq_str String.eqb Ascii.eqb Bool.eqb]).
  rewrite Hchunk. reflexivity.
Qed.

Lemma main_dead_receiver_drops_sender_witness :
  Main.step (bob_dead_env "T2") (Main.Text "alice" 1%nat (Some chunk_0_of_1))
            main_transfer_pending
  = Outcome (Ok tt)
      (Main.disconnect "alice"
         (Main.with_transfers
            (insert "T1"
               (Main.set_progress (JFloat 100)
                  (Main.Transfer "T1" x_pdf "alice" (JStr "bob") "pending" (JInt 0)
                                 (JInt 0) (JInt 1) "2025-10-23T03:40:00")))
            main_transfer_pending))
      [Sent 1%nat (progress_update (JStr "T1") (JFloat 100) (JInt 0))].
Proof.
  assert (Ht1 : "T1" <> "") by discriminate.
  assert (Ht : Main.transfers main_transfer_pending !! "T1"
               = Some (Main.Transfer "T1" x_pdf "alice" (JStr "bob") "pending" (JInt 0)
                                     (JInt 0) (JInt 1) "2025-10-23T03:40:00"))
    by (vm_compute; reflexivity).
  assert (Hbob : Main.active_connections main_transfer_pending !! "bob" = Some 2%nat)
    by (vm_compute; reflexivity).
  exact (main_dead_receiver_drops_sender (bob_dead_env "T2") "alice" 1%nat
           chunk_0_of_1 "T1" (JStr "AAAA") (JInt 0) (JInt 1) (JInt 1) (JFloat 1)
           (JFloat 100) _ "bob" 2%nat main_transfer_pending
           eq_refl eq_refl Ht1 eq_refl eq_refl eq_refl eq_refl eq_refl
           eq_refl eq_refl eq_refl Ht eq_refl Hbob eq_refl eq_refl).
Defined.

(** X8: working_server.py, on a chunk for a known transfer whose progress
    can be computed (the division neither fails nor overflows), overwrites
    the transfer's progress and sets chunks_received to the chunk's index
    plus one (whatever it was before, so a late low-index chunk lowers it),
    answers the sender, and forwards to the receiver inside a guarded send:
    if the receiver is unregistered or its socket is dead the chunk is lost
    silently and the handler still returns normally. *)
Theorem working_chunk_overwrites_counters (e : env) (c : string) (w : ws)
    (m : json) (tid : string) (cd ci total next ratio p : json)
    (t : Working.transfer) (r : string) (s : Working.state) :
  get m "transfer_id" = Ok (JStr tid) -> tid <> "" ->
  get m "chunk_data" = Ok cd -> truthy cd = true ->
  get m "chunk_index" = Ok ci -> is_none ci = false ->
  get m "total_chunks" = Ok total ->
  py_add_int ci 1 = Ok next -> py_truediv next total = Ok ratio ->
  py_mul_int ratio 100 = Ok p ->
  Working.transfers s !! tid = Some t ->
  Working.receiver_id t = JStr r ->
  alive e w = true ->
  Working.handle_file_chunk e c m w s
  = Outcome (Ok tt)
      (Working.with_transfers
         (insert tid (Working.set_progress_received p next t)) s)
      (Sent w (progress_update (JStr tid) p ci)
       :: notified e (Working.active_connections s) (JStr r)
                   (file_chunk_msg (JStr tid) cd ci total)).
Proof.
  intros Htid Hne Hcd Tcd Hci Nci Htot Hnext Hratio Hp Ht Hr Hal.
  unfold Working.handle_file_chunk, Working.send_to_client, notified.
  exec with (rewrite ?Htid, ?Hcd, ?Hci, ?Htot, ?Tcd, ?Nci, ?(truthy_str tid Hne),
               ?Hnext, ?Hratio, ?Hp, ?Ht; cbn [negb andb]).
  rewrite (bind_run _ _ _ _ _ _ (send_text_alive (alive e) w _ _ Hal)).
  exec with (cbn [Working.transfers Working.with_transfers Working.active_connections
                  Working.receiver_id Working.set_progress_received];
             rewrite ?lookup_insert_eq, ?Hr).
  cbn [lookup_key].
  destruct (Working.active_connections s !! r) as [w'|]; exec; [| reflexivity].
  unfold try_except, bind, send_text, ret, prepend.
  destruct (alive e w'); reflexivity.
Qed.

Lemma working_chunk_overwrites_counters_witness :
  Working.handle_file_chunk (demo_env "T2") "alice" chunk_0_of_1 1%nat
    (st (Working.handle_message (demo_env "T1") "alice" start_to_bob 1%nat
                                working_alice_alone))
  = Outcome (Ok tt)
      (Working.with_transfers
         (insert "T1"
            (Working.set_progress_received (JFloat 100) (JInt 1)
               (Working.Transfer "T1" x_pdf "alice" (JStr "bob") "pending" (JInt 0)
                                 (JInt 0) (JInt 1))))
         (st (Working.handle_message (demo_env "T1") "alice" start_to_bob 1%nat
                                     working_alice_alone)))
      [Sent 1%nat (progress_update (JStr "T1") (JFloat 100) (JInt 0))].
Proof.
  assert (Ht1 : "T1" <> "") by discriminate.
  assert (Ht : Working.transfers
                 (st (Working.handle_message (demo_env "T1") "alice" start_to_bob 1%nat
                                             working_alice_alone)) !! "T1"
               = Some (Working.Transfer "T1" x_pdf "alice" (JStr "bob") "pending"
                                        (JInt 0) (JInt 0) (JInt 1)))
    by (vm_compute; reflexivity).
  rewrite (working_chunk_overwrites_counters (demo_env "T2") "alice" 1%nat
             chunk_0_of_1 "T1" (JStr "AAAA") (JInt 0) (JInt 1) (JInt 1) (JFloat 1)
             (JFloat 100) _ "bob" _
             eq_refl Ht1 eq_refl eq_refl eq_refl eq_refl eq_refl
             eq_refl eq_refl eq_refl Ht eq_refl eq_refl).
  vm_compute. reflexivity.
Defined.

(** ** Connections of the WebRTC manager (webrtc_manager.py) *)

Lemma webrtc_cleanup_run s k :
  WebRTCManager.cleanup_connection (JStr k) s
  = Outcome (Ok tt)
      (WebRTCManager.State (delete k (WebRTCManager.active_connections s))) [].
Proof.
  unfold WebRTCManager.cleanup_connection. exec.
  destruct (WebRTCManager.active_connections s !! k) as [conn|] eqn:Hl; exec.
  - reflexivity.
  - rewrite delete_id by assumption. now destruct s.
Qed.

(** X9: a connection created by [initiate_connection] can be looked up
    under the id returned, in state initiating with no offer, no answer and
    no candidates; an offer from its sender is accepted on it at once; and
    after [cleanup_connection] the id is unknown again, so that offers,
    answers and candidates on it are refused without any change, while
    every other connection is as before the two calls. *)
Theorem webrtc_connection_lifecycle (e : env) (sender c : string)
    (receiver fi payload : json) (s : WebRTCManager.state) :
  res (WebRTCManager.initiate_connection e sender receiver fi s)
    = Ok (connection_id_of e sender receiver)
  /\ WebRTCManager.active_connections
       (st (WebRTCManager.initiate_connection e sender receiver fi s))
       !! connection_id_of e sender receiver
     = Some (WebRTCManager.Connection sender receiver fi "initiating" (now e)
                                      [] JNull JNull)
  /\ res (WebRTCManager.handle_offer (JStr (connection_id_of e sender receiver))
            payload sender
            (st (WebRTCManager.initiate_connection e sender receiver fi s)))
     = Ok true
  /\ WebRTCManager.active_connections
       (st (WebRTCManager.cleanup_connection
              (JStr (connection_id_of e sender receiver))
              (st (WebRTCManager.initiate_connection e sender receiver fi s))))
       !! connection_id_of e sender receiver = None
  /\ (forall k, k <> connection_id_of e sender receiver ->
        WebRTCManager.active_connections
          (st (WebRTCManager.cleanup_connection
                 (JStr (connection_id_of e sender receiver))
                 (st (WebRTCManager.initiate_connection e sender receiver fi s))))
          !! k
        = WebRTCManager.active_connections s !! k)
  /\ (forall s2,
        WebRTCManager.active_connections s2 !! connection_id_of e sender receiver = None ->
        WebRTCManager.handle_offer (JStr (connection_id_of e sender receiver))
                                   payload c s2 = Outcome (Ok false) s2 []
        /\ WebRTCManager.handle_answer (JStr (connection_id_of e sender receiver))
                                       payload c s2 = Outcome (Ok false) s2 []
        /\ WebRTCManager.handle_ice_candidate e
             (JStr (connection_id_of e sender receiver)) payload c s2
           = Outcome (Ok false) s2 []).
Proof.
  assert (Hinit : WebRTCManager.initiate_connection e sender receiver fi s
    = Outcome (Ok (connection_id_of e sender receiver))
        (WebRTCManager.State
           (<[connection_id_of e sender receiver :=
                WebRTCManager.Connection sender receiver fi "initiating" (now e)
                                         [] JNull JNull]>
              (WebRTCManager.active_connections s))) []).
  { unfold WebRTCManager.initiate_connection. exec. reflexivity. }
  rewrite Hinit. cbn [res st]. rewrite webrtc_cleanup_run. cbn [st].
  repeat split.
  - cbn. apply lookup_insert_eq.
  - rewrite webrtc_handle_offer_run. cbn [WebRTCManager.active_connections].
    rewrite lookup_insert_eq. cbn. now rewrite String.eqb_refl.
  - cbn. apply lookup_delete_eq.
  - intros k Hne. cbn.
    rewrite lookup_delete_ne, lookup_insert_ne by congruence. reflexivity.
  - rewrite webrtc_handle_offer_run. now rewrite H.
  - rewrite webrtc_handle_answer_run. now rewrite H.
  - rewrite webrtc_handle_ice_candidate_run. now rewrite H.
Qed.

Lemma same_parties_refl s : same_parties s s.
Proof.
  intros k. destruct (WebRTCManager.active_connections s !! k); auto.
Qed.

Lemma same_parties_update s k conn conn' :
  WebRTCManager.active_connections s !! k = Some conn ->
  WebRTCManager.sender_id conn' = WebRTCManager.sender_id conn ->
  WebRTCManager.receiver_id conn' = WebRTCManager.receiver_id conn ->
  WebRTCManager.file_info conn' = WebRTCManager.file_info conn ->
  WebRTCManager.created_at conn' = WebRTCManager.created_at conn ->
  same_parties s (WebRTCManager.State (<[k := conn']> (WebRTCManager.active_connections s))).
Proof.
  intros Hl H1 H2 H3 H4 k'. cbn.
  destruct (decide (k = k')) as [<-|Hne].
  - rewrite lookup_insert_eq, Hl. auto.
  - rewrite lookup_insert_ne by assumption.
    destruct (WebRTCManager.active_connections s !! k'); auto.
Qed.

(** The shape shared by the four methods that update a connection. *)
Lemma same_parties_method {A} (cid : json) (s : WebRTCManager.state)
    (body : WebRTCManager.connection -> string -> M WebRTCManager.state A)
    (other : M WebRTCManager.state A) :
  (forall conn k,
      WebRTCManager.active_connections s !! k = Some conn ->
      same_parties s (st (body conn k s))) ->
  st (other s) = s ->
  same_parties s
    (st (bind (gets WebRTCManager.active_connections) (fun conns =>
         bind (lift (lookup_key conns cid)) (fun found =>
           match found, cid with
           | Some conn, JStr k => body conn k
           | _, _ => other
           end)) s)).
Proof.
  intros Hbody Hother. rewrite bind_gets.
  destruct (lookup_key (WebRTCManager.active_connections s) cid) as [[conn|]|x] eqn:Hl.
  - apply lookup_key_some in Hl. destruct Hl as (k & -> & Hl).
    rewrite bind_lift_ok. now apply Hbody.
  - rewrite bind_lift_ok. cbv beta iota. rewrite Hother.
    apply same_parties_refl.
  - rewrite bind_lift_raise. apply same_parties_refl.
Qed.

(** X10: the signaling methods of the WebRTC manager never create or remove
    a connection and never change who its sender and receiver are, which
    file it is for, or when it was created: whatever the connection id, the
    payload and the calling session, [handle_offer], [handle_answer],
    [handle_ice_candidate] and [update_connection_status] leave every
    connection between the same parties. *)
Theorem webrtc_signaling_keeps_parties (e : env) (cid payload : json)
    (c status : string) (s : WebRTCManager.state) :
  same_parties s (st (WebRTCManager.handle_offer cid payload c s))
  /\ same_parties s (st (WebRTCManager.handle_answer cid payload c s))
  /\ same_parties s (st (WebRTCManager.handle_ice_candidate e cid payload c s))
  /\ same_parties s (st (WebRTCManager.update_connection_status cid status s)).
Proof.
  repeat split.
  - apply (same_parties_method cid s
      (fun conn k =>
         if negb (String.eqb (WebRTCManager.sender_id conn) c) then ret false
         else bind (modify (fun s0 => WebRTCManager.State
                      (<[k := WebRTCManager.set_offer payload conn]>
                         (WebRTCManager.active_connections s0))))
                   (fun _ => ret true))
      (ret false)); [| reflexivity].
    intros conn k Hl. destruct (negb _); [apply same_parties_refl |].
    rewrite bind_modify. cbn. now apply (same_parties_update s k conn).
  - apply (same_parties_method cid s
      (fun conn k =>
         if negb (eq_str (WebRTCManager.receiver_id conn) c) then ret false
         else bind (modify (fun s0 => WebRTCManager.State
                      (<[k := WebRTCManager.set_answer payload conn]>
                         (WebRTCManager.active_connections s0))))
                   (fun _ => ret true))
      (ret false)); [| reflexivity].
    intros conn k Hl. destruct (negb _); [apply same_parties_refl |].
    rewrite bind_modify. cbn. now apply (same_parties_update s k conn).
  - apply (same_parties_method cid s
      (fun conn k =>
         if negb (String.eqb (WebRTCManager.sender_id conn) c
                  || eq_str (WebRTCManager.receiver_id conn) c) then ret false
         else bind (modify (fun s0 => WebRTCManager.State
                      (<[k := WebRTCManager.append_candidate
                                (WebRTCManager.IceEntry payload c (now e)) conn]>
                         (WebRTCManager.active_connections s0))))
                   (fun _ => ret true))
      (ret false)); [| reflexivity].
    intros conn k Hl. destruct (negb _); [apply same_parties_refl |].
    rewrite bind_modify. cbn. now apply (same_parties_update s k conn).
  - apply (same_parties_method cid s
      (fun conn k =>
         modify (fun s0 => WebRTCManager.State
                   (<[k := WebRTCManager.set_status status conn]>
                      (WebRTCManager.active_connections s0))))
      (ret tt)); [| reflexivity].
    intros conn k Hl. cbn. now apply (same_parties_update s k conn).
Qed.

(** ** Transfer tuning (webrtc_manager.py) *)

Lemma tuning_ok_insert p k x :
  p2p_tuning_ok p -> stats_in_bounds x ->
  p2p_tuning_ok (P2PTransferManager.with_stats (insert k x) p).
Proof.
  intros I Hx k' x'. cbn.
  destruct (decide (k = k')) as [<-|Hne].
  - rewrite lookup_insert_eq. now intros [= <-].
  - rewrite lookup_insert_ne by assumption. apply I.
Qed.

Lemma tuning_in_bounds x size streams :
  16 * 1024 <= size <= 1024 * 1024 -> 1 <= streams <= 4 ->
  stats_in_bounds (P2PTransferManager.set_tuning (JInt size) (JInt streams) x).
Proof. intros Hs Hn. exists size, streams. cbn. auto. Qed.

Lemma p2p_start_transfer_run e sender receiver fi p :
  P2PTransferManager.start_transfer e sender receiver fi p
  = match get_default fi "total_chunks" (JInt 0) with
    | Ok total =>
        Outcome (Ok ("transfer_" ++ sender ++ "_" ++ py_str e receiver ++ "_"
                     ++ timestamp e))
          (P2PTransferManager.with_stats
             (insert ("transfer_" ++ sender ++ "_" ++ py_str e receiver ++ "_"
                      ++ timestamp e)
                (P2PTransferManager.Stats (JInt 0) (JInt 0) (JInt 0) (JStr "unknown")
                                          (JInt (64 * 1024)) (JInt 1)))
             (P2PTransferManager.with_transfers
                (insert ("transfer_" ++ sender ++ "_" ++ py_str e receiver ++ "_"
                         ++ timestamp e)
                   (P2PTransferManager.Transfer
                      ("transfer_" ++ sender ++ "_" ++ py_str e receiver ++ "_"
                       ++ timestamp e)
                      (connection_id_of e sender receiver) sender receiver fi
                      "pending" (JFloat 0) (JInt 0) (JInt 0) total (now e)
                      (JInt 0) (JInt 0) None))
                (P2PTransferManager.with_webrtc_manager
                   (WebRTCManager.State
                      (<[connection_id_of e sender receiver :=
                           WebRTCManager.Connection sender receiver fi "initiating"
                                                    (now e) [] JNull JNull]>
                         (WebRTCManager.active_connections
                            (P2PTransferManager.webrtc_manager p)))) p))) []
    | Raise x =>
        Outcome (Raise x)
          (P2PTransferManager.with_webrtc_manager
             (WebRTCManager.State
                (<[connection_id_of e sender receiver :=
                     WebRTCManager.Connection sender receiver fi "initiating"
                                              (now e) [] JNull JNull]>
                   (WebRTCManager.active_connections
                      (P2PTransferManager.webrtc_manager p)))) p) []
    end.
Proof.
  unfold P2PTransferManager.start_transfer.
  assert (Hinit : WebRTCManager.initiate_connection e sender receiver fi
                    (P2PTransferManager.webrtc_manager p)
    = Outcome (Ok (connection_id_of e sender receiver))
        (WebRTCManager.State
           (<[connection_id_of e sender receiver :=
                WebRTCManager.Connection sender receiver fi "initiating" (now e)
                                         [] JNull JNull]>
              (WebRTCManager.active_connections
                 (P2PTransferManager.webrtc_manager p)))) []).
  { unfold WebRTCManager.initiate_connection. exec. reflexivity. }
  rewrite (bind_run _ _ p _ _ [] (zoom_run _ _ _ p _ _ _ Hinit)), prepend_nil.
  destruct (get_default fi "total_chunks" (JInt 0)) as [total|x]; exec; reflexivity.
Qed.

(** X11: the tuning of every transfer stays within the limits the code
    names. If every transfer's chunk size is an integer from 16 KB to 1 MB
    and its stream count an integer from 1 to 4, that is still so after
    [optimize_transfer], whatever transfer id and network conditions it is
    given (a latency below 50, above 200, in between, missing or not a
    number), and after [start_transfer], which begins at 64 KB and one
    stream. *)
Theorem p2p_tuning_stays_in_bounds (e : env) (tid conditions : json)
    (sender : string) (receiver fi : json) (p : P2PTransferManager.state) :
  p2p_tuning_ok p ->
  p2p_tuning_ok (st (P2PTransferManager.optimize_transfer tid conditions p))
  /\ p2p_tuning_ok (st (P2PTransferManager.start_transfer e sender receiver fi p)).
Proof.
  intros I. split.
  - unfold P2PTransferManager.optimize_transfer. rewrite bind_gets.
    destruct (lookup_key (P2PTransferManager.transfer_stats p) tid)
      as [[x|]|err] eqn:Hl; exec; try assumption.
    apply lookup_key_some in Hl. destruct Hl as (k & -> & Hl).
    destruct (I k x Hl) as (size & streams & Hsize & Hstreams & Bs & Bn).
    destruct (get_default conditions "latency" (JInt 0)) as [lat|err]; exec;
      [| assumption].
    destruct (py_lt_int lat 50) as [[|]|err]; exec; [| | assumption].
    + rewrite Hsize, Hstreams. cbn [py_min_cap_double py_min_cap_succ as_num]. exec.
      apply tuning_ok_insert; [apply tuning_ok_insert; [assumption |] |];
        apply tuning_in_bounds; try assumption;
        repeat match goal with |- context [?a <? ?b] => destruct (Z.ltb_spec a b) end;
        lia.
    + destruct (py_gt_int lat 200) as [[|]|err]; exec; try assumption.
      rewrite Hsize, Hstreams. cbn [py_max_floor_half py_max_floor_pred as_num]. exec.
      apply tuning_ok_insert; [apply tuning_ok_insert; [assumption |] |];
        apply tuning_in_bounds; try assumption;
        repeat match goal with |- context [?a <? ?b] => destruct (Z.ltb_spec a b) end;
        Z.to_euclidean_division_equations; lia.
  - rewrite p2p_start_transfer_run.
    destruct (get_default fi "total_chunks" (JInt 0)) as [total|err]; cbn [st].
    + apply tuning_ok_insert.
      * intros k x. cbn. apply I.
      * exists (64 * 1024), 1. cbn. repeat split; lia.
    + intros k x. cbn. apply I.
Qed.

Lemma p2p_tuning_stays_in_bounds_witness :
  p2p_tuning_ok p2p_started
  /\ p2p_tuning_ok
       (st (P2PTransferManager.optimize_transfer (JStr p2p_id) (latency_report 20)
                                                 p2p_started)).
Proof.
  assert (I0 : p2p_tuning_ok P2PTransferManager.initial).
  { intros k x H. cbn in H. rewrite lookup_empty in H. discriminate. }
  assert (I1 : p2p_tuning_ok p2p_started).
  { exact (proj2 (p2p_tuning_stays_in_bounds (demo_env "T1") JNull JNull "alice"
                    (JStr "bob") x_pdf P2PTransferManager.initial I0)). }
  split; [exact I1 |].
  exact (proj1 (p2p_tuning_stays_in_bounds (demo_env "T1") (JStr p2p_id)
                  (latency_report 20) "alice" (JStr "bob") x_pdf p2p_started I1)).
Defined.

(** ** Starting a P2P transfer (webrtc_manager.py, advanced_server.py) *)

Lemma get_default_raise d k v x :
  get_default d k v = Raise x -> x = AttributeError /\ not_object d.
Proof. destruct d; cbn; intros [= <-] || discriminate; auto. Qed.

(** X12: [start_transfer] registers the WebRTC connection before it reads
    the file info. The connection it names is registered, in state
    initiating and with no offer, answer or candidate, whether the call
    returns or raises. When it returns, the transfer recorded under the
    returned id is pending, points to that connection, has the parties and
    the file info it was given, and has a tuning entry. When it raises, it
    is with [AttributeError] on a file info that is no dict, and then no
    transfer and no tuning entry was added: the connection stays behind
    without a transfer. *)
Theorem p2p_start_registers_connection_first (e : env) (sender : string)
    (receiver fi : json) (p : P2PTransferManager.state) :
  let o := P2PTransferManager.start_transfer e sender receiver fi p in
  let cid := connection_id_of e sender receiver in
  WebRTCManager.active_connections (P2PTransferManager.webrtc_manager (st o)) !! cid
    = Some (WebRTCManager.Connection sender receiver fi "initiating" (now e)
                                     [] JNull JNull)
  /\ out o = []
  /\ match res o with
     | Ok tid =>
         exists t x,
           P2PTransferManager.active_transfers (st o) !! tid = Some t
           /\ P2PTransferManager.transfer_stats (st o) !! tid = Some x
           /\ P2PTransferManager.transfer_id t = tid
           /\ P2PTransferManager.connection_id t = cid
           /\ P2PTransferManager.sender_id t = sender
           /\ P2PTransferManager.receiver_id t = receiver
           /\ P2PTransferManager.file_info t = fi
           /\ P2PTransferManager.status t = "pending"
           /\ get_default fi "total_chunks" (JInt 0)
              = Ok (P2PTransferManager.total_chunks t)
     | Raise ex =>
         ex = AttributeError /\ not_object fi
         /\ P2PTransferManager.active_transfers (st o)
            = P2PTransferManager.active_transfers p
         /\ P2PTransferManager.transfer_stats (st o)
            = P2PTransferManager.transfer_stats p
     end.
Proof.
  cbv zeta. rewrite p2p_start_transfer_run.
  destruct (get_default fi "total_chunks" (JInt 0)) as [total|ex] eqn:Hfi;
    cbn [st out res P2PTransferManager.with_stats P2PTransferManager.with_transfers
         P2PTransferManager.with_webrtc_manager P2PTransferManager.webrtc_manager
         P2PTransferManager.active_transfers P2PTransferManager.transfer_stats
         WebRTCManager.active_connections].
  - rewrite lookup_insert_eq. split; [reflexivity |]. split; [reflexivity |].
    eexists _, _. rewrite !lookup_insert_eq.
    repeat split; reflexivity.
  - rewrite lookup_insert_eq. apply get_default_raise in Hfi. tauto.
Qed.

Lemma try_except_raise {S A} (m : M S A) (h : exn -> M S A) s x s1 o1 :
  m s = Outcome (Raise x) s1 o1 -> try_except m h s = prepend o1 (h x s1).
Proof.
  intros H. unfold try_except, prepend. rewrite H. now destruct (h x s1).
Qed.

Lemma try_except_ok {S A} (m : M S A) (h : exn -> M S A) s a s1 o1 :
  m s = Outcome (Ok a) s1 o1 -> try_except m h s = Outcome (Ok a) s1 o1.
Proof. intros H. unfold try_except. now rewrite H. Qed.

(** X13: in advanced_server.py a file_transfer_start that asks for WebRTC
    (the default) is never confirmed. Whatever the receiver and the file
    info, as long as both are given, the requester gets exactly one message,
    the error reply "Failed to start transfer: ..." for the failed lookup
    of "connection_id" in the connection record (or for a file info that
    is no dict); nobody gets transfer_started or incoming_transfer. The
    WebRTC connection is registered all the same, and for a file info
    that is a dict the pending transfer as well. *)
Theorem advanced_webrtc_start_never_confirms (e : env) (c : string) (w : ws)
    (m r fi u : json) (s : Advanced.state) :
  get m "receiver_id" = Ok r -> truthy r = true ->
  get_default m "file_info" (obj []) = Ok fi -> truthy fi = true ->
  get_default m "use_webrtc" (JBool true) = Ok u -> truthy u = true ->
  alive e w = true ->
  let o := Advanced.handle_file_transfer_start e c m w s in
  res o = Ok tt
  /\ (exists ex,
        (ex = KeyError "connection_id" \/ ex = AttributeError /\ not_object fi)
        /\ out o = [Sent w (error_reply ("Failed to start transfer: "
                                         ++ describe e ex))])
  /\ Advanced.active_connections (st o) = Advanced.active_connections s
  /\ Advanced.connections (st o) !! connection_id_of e c r
     = Some (WebRTCManager.Connection c r fi "initiating" (now e) [] JNull JNull)
  /\ (~ not_object fi ->
      exists t,
        Advanced.active_transfers (st o) !! transfer_id_of e c r = Some t
        /\ P2PTransferManager.status t = "pending"
        /\ P2PTransferManager.connection_id t = connection_id_of e c r).
Proof.
  intros Hr Htr Hfi Htf Hu Htu Hw. cbv zeta.
  unfold Advanced.handle_file_transfer_start.
  exec with (rewrite ?Hr, ?Hfi, ?Hu, ?Htr, ?Htf, ?Htu; cbn [negb]).
  pose proof (p2p_start_transfer_run e c r fi (Advanced.p2p_transfer_manager s))
    as Hstart.
  destruct (get_default fi "total_chunks" (JInt 0)) as [total|ex] eqn:Htot.
  - erewrite try_except_raise.
    2: { unfold Advanced.p2p.
         rewrite (bind_run _ _ s _ _ [] (zoom_run _ _ _ s _ _ _ Hstart)), prepend_nil.
         exec with (unfold Advanced.active_transfers;
                    cbn [Advanced.p2p_transfer_manager Advanced.with_p2p
                         P2PTransferManager.active_transfers
                         P2PTransferManager.with_stats
                         P2PTransferManager.with_transfers];
                    rewrite ?lookup_insert_eq).
         cbn [P2PTransferManager.connection_id]. unfold Advanced.webrtc.
         erewrite bind_run;
           [| apply zoom_run; apply webrtc_get_connection_info_run].
         rewrite prepend_nil.
         unfold Advanced.webrtc_manager at 1.
         cbn [Advanced.p2p_transfer_manager Advanced.with_p2p
              P2PTransferManager.webrtc_manager P2PTransferManager.with_stats
              P2PTransferManager.with_transfers
              P2PTransferManager.with_webrtc_manager
              WebRTCManager.active_connections].
         rewrite lookup_insert_eq. exec. reflexivity. }
    rewrite send_text_alive by assumption.
    cbn [prepend res st out app]. split; [reflexivity |].
    split; [exists (KeyError "connection_id"); split; [now left | reflexivity] |].
    split; [reflexivity |].
    unfold Advanced.connections, Advanced.webrtc_manager, Advanced.active_transfers,
      Advanced.with_webrtc.
    cbn [Advanced.p2p_transfer_manager Advanced.with_p2p
         P2PTransferManager.webrtc_manager P2PTransferManager.with_stats
         P2PTransferManager.with_transfers P2PTransferManager.with_webrtc_manager
         P2PTransferManager.active_transfers WebRTCManager.active_connections].
    split; [apply lookup_insert_eq |].
    intros _. unfold transfer_id_of. rewrite lookup_insert_eq.
    eexists. repeat split; reflexivity.
  - erewrite try_except_raise.
    2: { unfold Advanced.p2p.
         apply bind_raise. apply zoom_run. exact Hstart. }
    rewrite send_text_alive by assumption.
    cbn [prepend res st out app]. split; [reflexivity |].
    apply get_default_raise in Htot. destruct Htot as [-> Hno].
    split; [exists AttributeError; split; [now right | reflexivity] |].
    split; [reflexivity |].
    unfold Advanced.connections, Advanced.webrtc_manager.
    cbn [Advanced.p2p_transfer_manager Advanced.with_p2p
         P2PTransferManager.webrtc_manager P2PTransferManager.with_webrtc_manager
         WebRTCManager.active_connections].
    split; [apply lookup_insert_eq |].
    intros Hne. now destruct Hne.
Qed.

Lemma advanced_webrtc_start_never_confirms_witness :
  out (Advanced.handle_file_transfer_start (demo_env "T1") "alice" start_to_bob 1%nat
                                           advanced_connected)
  = [Sent 1%nat (error_reply "Failed to start transfer: 'connection_id'")]
  /\ exists t,
       Advanced.active_transfers advanced_transfer_pending !! p2p_id = Some t
       /\ P2PTransferManager.status t = "pending"
       /\ P2PTransferManager.connection_id t = webrtc_id.
Proof.
  destruct (advanced_webrtc_start_never_confirms (demo_env "T1") "alice" 1%nat
              start_to_bob (JStr "bob") x_pdf (JBool true) advanced_connected
              eq_refl eq_refl eq_refl eq_refl eq_refl eq_refl eq_refl)
    as (_ & _ & _ & _ & Hrec).
  split; [vm_compute; reflexivity |].
  apply Hrec. intros H. exact H.
Defined.

(** X14: a file_transfer_start over the WebSocket fallback (use_webrtc
    false, 0, null, ...) records nothing: the state of advanced_server.py is
    the same afterwards, so the id the requester is given names no transfer
    the server knows. The receiver, if registered with a live socket, is
    told of the incoming transfer, then the requester gets transfer_started
    with a fresh id; only a receiver id that cannot be a dict key turns the
    confirmation into an error reply. *)
Theorem advanced_fallback_start_records_nothing (e : env) (c : string) (w : ws)
    (m r fi u : json) (s : Advanced.state) :
  get m "receiver_id" = Ok r -> truthy r = true ->
  get_default m "file_info" (obj []) = Ok fi -> truthy fi = true ->
  get_default m "use_webrtc" (JBool true) = Ok u -> truthy u = false ->
  alive e w = true ->
  Advanced.handle_file_transfer_start e c m w s
  = Outcome (Ok tt) s
      match lookup_key (Advanced.active_connections s) r with
      | Ok _ =>
          (notified e (Advanced.active_connections s) r
                    (incoming_fallback (uuid4 e) fi c)
           ++ [Sent w (started_fallback (uuid4 e))])%list
      | Raise ex =>
          [Sent w (error_reply ("Failed to start transfer: " ++ describe e ex))]
      end.
Proof.
  intros Hr Htr Hfi Htf Hu Htu Hw.
  unfold Advanced.handle_file_transfer_start.
  exec with (rewrite ?Hr, ?Hfi, ?Hu, ?Htr, ?Htf, ?Htu; cbn [negb]).
  pose proof (advanced_send_to_client_run e s r (incoming_fallback (uuid4 e) fi c))
    as Hsend.
  destruct (lookup_key (Advanced.active_connections s) r) as [found|ex] eqn:Hl.
  - erewrite try_except_ok; [reflexivity |].
    rewrite (bind_run _ _ s _ _ _ Hsend).
    rewrite send_text_alive by assumption. reflexivity.
  - erewrite try_except_raise; [| apply bind_raise; exact Hsend].
    rewrite send_text_alive by assumption. unfold notified. rewrite Hl. reflexivity.
Qed.

Lemma advanced_fallback_start_records_nothing_witness :
  Advanced.handle_file_transfer_start (demo_env "T1") "alice" start_fallback_to_bob
                                      1%nat advanced_connected
  = Outcome (Ok tt) advanced_connected
      [Sent 2%nat (incoming_fallback "T1" x_pdf "alice");
       Sent 1%nat (started_fallback "T1")].
Proof.
  exact (advanced_fallback_start_records_nothing (demo_env "T1") "alice" 1%nat
           start_fallback_to_bob (JStr "bob") x_pdf (JBool false) advanced_connected
           eq_refl eq_refl eq_refl eq_refl eq_refl eq_refl eq_refl).
Defined.

(** ** Signaling and transfer messages that name nothing
       (advanced_server.py) *)

(** X15: each of the three signaling handlers of advanced_server.py wants
    a connection id and a payload. If either is missing, null, empty, 0 or
    false, the requester gets the one error reply that names the pair, the
    WebRTC manager is not consulted and the state is unchanged. *)
Theorem advanced_signaling_requires_both_fields (e : env) (kind : signal)
    (c : string) (w : ws) (m cid payload : json) (s : Advanced.state) :
  get m "connection_id" = Ok cid ->
  get m (signal_key kind) = Ok payload ->
  truthy cid && truthy payload = false ->
  alive e w = true ->
  advanced_signal_handler e kind c m w s
  = Outcome (Ok tt) s
      [Sent w (error_reply ("Connection ID and " ++ signal_key kind ++ " required"))].
Proof.
  intros Hc Hp Hf Hw.
  assert (Hn : negb (truthy cid) || negb (truthy payload) = true).
  { destruct (truthy cid), (truthy payload); try discriminate; reflexivity. }
  destruct kind; cbn [advanced_signal_handler signal_key] in *;
    [unfold Advanced.handle_webrtc_offer
    |unfold Advanced.handle_webrtc_answer
    |unfold Advanced.handle_webrtc_ice_candidate];
    exec with (rewrite ?Hc, ?Hp, ?Hn); now rewrite send_text_alive.
Qed.

Lemma advanced_signaling_requires_both_fields_witness :
  Advanced.handle_webrtc_offer (demo_env "T1") "alice" offer_without_id 1%nat
                               advanced_transfer_pending
  = Outcome (Ok tt) advanced_transfer_pending
      [Sent 1%nat (error_reply "Connection ID and offer required")].
Proof.
  exact (advanced_signaling_requires_both_fields (demo_env "T1") Offer "alice" 1%nat
           offer_without_id JNull (sdp "v=0 alice") advanced_transfer_pending
           eq_refl eq_refl eq_refl eq_refl).
Defined.

(** X16: a chunk_ack, transfer_progress or transfer_complete that names no
    known transfer is dropped without a word: no error reply, no message
    to anybody, no change of state. The handler raises only if the id
    cannot be a dict key (a list or an object). *)
Theorem advanced_unknown_transfer_ignored (e : env) (c : string) (w : ws)
    (m tid : json) (s : Advanced.state) :
  get m "transfer_id" = Ok tid ->
  (forall t, lookup_key (Advanced.active_transfers s) tid <> Ok (Some t)) ->
  let dropped : outcome Advanced.state unit :=
    Outcome match lookup_key (Advanced.active_transfers s) tid with
            | Ok _ => Ok tt
            | Raise x => Raise x
            end s [] in
  Advanced.handle_chunk_ack e c m w s = dropped
  /\ Advanced.handle_transfer_progress c m w s = dropped
  /\ Advanced.handle_transfer_complete e c m w s = dropped.
Proof.
  intros Hid Hno. cbv zeta.
  destruct (get_is_obj _ _ _ Hid) as [fields ->].
  unfold Advanced.handle_chunk_ack, Advanced.handle_transfer_progress,
    Advanced.handle_transfer_complete.
  rewrite !Hid. unfold get, get_default. exec.
  destruct (lookup_key (Advanced.active_transfers s) tid) as [[t|]|x] eqn:Hl;
    exec; try (now destruct (Hno t)); repeat split; reflexivity.
Qed.

Lemma advanced_unknown_transfer_ignored_witness :
  Advanced.handle_transfer_complete (demo_env "T2") "alice" complete_T9 1%nat
                                    advanced_transfer_pending
  = Outcome (Ok tt) advanced_transfer_pending [].
Proof.
  assert (Hno : forall t,
             lookup_key (Advanced.active_transfers advanced_transfer_pending)
                        (JStr "T9") <> Ok (Some t))
    by (intros t; vm_compute; discriminate).
  exact (proj2 (proj2 (advanced_unknown_transfer_ignored (demo_env "T2") "alice" 1%nat
                         complete_T9 (JStr "T9") advanced_transfer_pending
                         eq_refl Hno))).
Defined.

(** ** Acknowledgements (advanced_server.py, webrtc_manager.py) *)

Lemma py_add_int_not_none v n x : py_add_int v n = Ok x -> is_none x = false.
Proof.
  unfold py_add_int. destruct (as_num v) as [[z|q]|]; intros [= <-]; reflexivity.
Qed.

(** X17: in advanced_server.py the receiver's acknowledgement writes to the
    same progress field as the sender's reports. For a known transfer the
    ack replaces the stored progress by its received_progress (0 when the
    ack carries none) and chunks_received by the chunk's index plus one,
    leaves the rest of the record as it is, and is passed on to the
    transfer's sender if registered with a live socket. An index that is
    no number raises before anything is stored or sent. *)
Theorem advanced_ack_overwrites_progress (e : env) (c : string) (w : ws)
    (m : json) (k : string) (ci rp : json) (t : P2PTransferManager.transfer)
    (s : Advanced.state) :
  get m "transfer_id" = Ok (JStr k) ->
  get m "chunk_index" = Ok ci ->
  get_default m "received_progress" (JInt 0) = Ok rp ->
  Advanced.active_transfers s !! k = Some t ->
  Advanced.handle_chunk_ack e c m w s
  = match py_add_int ci 1 with
    | Ok next =>
        Outcome (Ok tt)
          (Advanced.with_p2p
             (P2PTransferManager.with_transfers
                (insert k (P2PTransferManager.set_chunks_received next
                             (P2PTransferManager.set_progress rp t)))
                (Advanced.p2p_transfer_manager s)) s)
          (notified e (Advanced.active_connections s)
                    (JStr (P2PTransferManager.sender_id t))
                    (chunk_ack_msg (JStr k) ci rp))
    | Raise x => Outcome (Raise x) s []
    end.
Proof.
  intros Hid Hci Hrp Hk.
  unfold Advanced.handle_chunk_ack.
  exec with (rewrite ?Hid, ?Hci, ?Hrp, ?Hk).
  destruct (py_add_int ci 1) as [next|x] eqn:Hnext; exec; [| reflexivity].
  unfold Advanced.p2p.
  rewrite (bind_run _ _ s tt _ []
             (zoom_run _ _ _ s _ _ _
                (p2p_update_progress_known (Advanced.p2p_transfer_manager s) k t rp
                   None (Some next) Hk))).
  rewrite prepend_nil.
  cbn [P2PTransferManager.opt_apply]. rewrite (py_add_int_not_none _ _ _ Hnext).
  set (s1 := Advanced.with_p2p _ s).
  rewrite (bind_run _ _ s1 _ _ _ (advanced_send_to_client_str e s1 _ _)).
  unfold prepend, ret. cbn [res st out]. now rewrite app_nil_r.
Qed.

Lemma advanced_ack_overwrites_progress_witness :
  option_map P2PTransferManager.progress
    (Advanced.active_transfers
       (st (Advanced.handle_chunk_ack (demo_env "T2") "bob" ack_p2p_chunk_0 2%nat
              (st (Advanced.handle_transfer_progress "alice" (progress_report 150)
                     1%nat advanced_transfer_pending)))) !! p2p_id)
  = Some (JInt 0).
Proof.
  assert (Hk : Advanced.active_transfers
                 (st (Advanced.handle_transfer_progress "alice" (progress_report 150)
                        1%nat advanced_transfer_pending)) !! p2p_id
               = Some (P2PTransferManager.set_progress (JInt 150) p2p_pending))
    by (vm_compute; reflexivity).
  rewrite (advanced_ack_overwrites_progress (demo_env "T2") "bob" 2%nat
             ack_p2p_chunk_0 p2p_id (JInt 0) (JInt 0) _ _
             eq_refl eq_refl eq_refl Hk).
  vm_compute. reflexivity.
Defined.

(** ** The candidate log of a connection (webrtc_manager.py) *)

(** X18: the candidate log of a connection only grows, in arrival order.
    After any sequence of [handle_ice_candidate] calls on a known
    connection its log is the old log followed by one entry for each
    candidate that came from the connection's sender or receiver, in the
    order handled, stamped with the client and the time of the call;
    candidates from anybody else leave no trace, and no candidate is
    rejected for its content. Nothing else of the connection and no other
    connection changes. *)
Theorem webrtc_ice_log_in_arrival_order (k : string)
    (items : list (env * json * string)) :
  forall (conn : WebRTCManager.connection) (s : WebRTCManager.state),
  WebRTCManager.active_connections s !! k = Some conn ->
  res (ice_all k items s) = Ok tt
  /\ out (ice_all k items s) = []
  /\ (forall k', k' <> k ->
        WebRTCManager.active_connections (st (ice_all k items s)) !! k'
        = WebRTCManager.active_connections s !! k')
  /\ exists conn',
       WebRTCManager.active_connections (st (ice_all k items s)) !! k = Some conn'
       /\ WebRTCManager.ice_candidates conn'
          = (WebRTCManager.ice_candidates conn
             ++ map ice_entry_of
                  (List.filter (fun it => is_party conn (snd it)) items))%list
       /\ WebRTCManager.sender_id conn' = WebRTCManager.sender_id conn
       /\ WebRTCManager.receiver_id conn' = WebRTCManager.receiver_id conn
       /\ WebRTCManager.status conn' = WebRTCManager.status conn
       /\ WebRTCManager.offer conn' = WebRTCManager.offer conn
       /\ WebRTCManager.answer conn' = WebRTCManager.answer conn.
Proof.
  induction items as [| [[e cand] c] rest IH]; intros conn s Hl.
  - cbn [ice_all ret res out st List.filter map]. rewrite app_nil_r.
    repeat split. exists conn. repeat split; assumption.
  - cbn [ice_all List.filter snd].
    pose proof (webrtc_handle_ice_candidate_run e s k cand c) as Hrun.
    rewrite Hl in Hrun. fold (is_party conn c) in Hrun.
    destruct (is_party conn c) eqn:Hp.
    + rewrite (bind_run _ _ s _ _ _ Hrun), prepend_nil.
      set (conn1 := WebRTCManager.append_candidate _ conn) in *.
      set (s1 := WebRTCManager.State _) in *.
      assert (Hl1 : WebRTCManager.active_connections s1 !! k = Some conn1)
        by apply lookup_insert_eq.
      destruct (IH conn1 s1 Hl1) as (Hres & Hout & Hother & conn' & Hc' & Hlog & Hrest).
      split; [exact Hres |]. split; [exact Hout |]. split.
      * intros k' Hne. rewrite (Hother k' Hne). unfold s1.
        cbn [WebRTCManager.active_connections]. now apply lookup_insert_ne.
      * exists conn'. split; [exact Hc' |]. split; [| exact Hrest].
        rewrite Hlog. cbn [map]. unfold conn1.
        cbn [WebRTCManager.append_candidate WebRTCManager.ice_candidates].
        rewrite <- app_assoc. reflexivity.
    + rewrite (bind_run _ _ s _ _ _ Hrun), prepend_nil.
      exact (IH conn s Hl).
Qed.

Lemma webrtc_ice_log_in_arrival_order_witness :
  exists conn',
    WebRTCManager.active_connections
      (st (ice_all webrtc_id mixed_candidates
             (WebRTCManager.State {[ webrtc_id := alice_bob_connection ]})))
      !! webrtc_id = Some conn'
    /\ WebRTCManager.ice_candidates conn'
       = [WebRTCManager.IceEntry (JStr "a1") "alice" "2025-10-23T03:40:00";
          WebRTCManager.IceEntry (JStr "b1") "bob" "2025-10-23T03:40:00";
          WebRTCManager.IceEntry JNull "alice" "2025-10-23T03:40:00"].
Proof.
  destruct (webrtc_ice_log_in_arrival_order webrtc_id mixed_candidates
              alice_bob_connection
              (WebRTCManager.State {[ webrtc_id := alice_bob_connection ]})
              (lookup_singleton_eq _ _))
    as (_ & _ & _ & conn' & Hc' & Hlog & _).
  exists conn'. split; [exact Hc' | exact Hlog].
Defined.

(** ** The signaling relay of ultimate_main.py *)

(** X19: ultimate_main.py relays signaling without keeping anything. An
    offer, answer or candidate whose target is a registered client leaves
    the state as it was and puts at most one message on the wire: the
    payload as received, even when it is null, stamped with the id of the
    session it arrived on, whatever the message itself says about its
    origin. It goes to the target if its socket is live and is lost
    without notice if not; the requester gets no acknowledgement. *)
Theorem ultimate_relay_stamps_session_id (e : env) (kind : signal) (c : string)
    (w w' : ws) (m payload : json) (tgt : string) (u : Ultimate.state) :
  get m (signal_key kind) = Ok payload ->
  get m "target_client" = Ok (JStr tgt) -> tgt <> "" ->
  Ultimate.active_connections u !! tgt = Some w' ->
  ultimate_signal_handler e kind c m w u
  = Outcome (Ok tt) u (if alive e w' then [Sent w' (relayed kind payload c)] else []).
Proof.
  intros Hp Ht Hne Hl.
  destruct kind; cbn [ultimate_signal_handler signal_key] in *;
    [unfold Ultimate.handle_webrtc_offer
    |unfold Ultimate.handle_webrtc_answer
    |unfold Ultimate.handle_webrtc_ice_candidate];
    unfold Ultimate.target_registered, Ultimate.send_to_client;
    exec with (rewrite ?Hp, ?Ht, ?(truthy_str tgt Hne), ?Hl);
    unfold try_except, bind, send_text, ret, relayed;
    destruct (alive e w'); reflexivity.
Qed.

Lemma ultimate_relay_stamps_session_id_witness :
  Ultimate.handle_webrtc_offer (demo_env "T1") "alice" ultimate_offer_to_bob 1%nat
                               ultimate_connected
  = Outcome (Ok tt) ultimate_connected
      [Sent 2%nat (relayed Offer (sdp "v=0 alice") "alice")].
Proof.
  assert (Hne : "bob" <> "") by discriminate.
  assert (Hbob : Ultimate.active_connections ultimate_connected !! "bob" = Some 2%nat)
    by (vm_compute; reflexivity).
  exact (ultimate_relay_stamps_session_id (demo_env "T1") Offer "alice" 1%nat 2%nat
           ultimate_offer_to_bob (sdp "v=0 alice") "bob" ultimate_connected
           eq_refl eq_refl Hne Hbob).
Defined.

(** X20: when the target is missing, empty or not registered, the three
    kinds are not treated alike: an offer is refused with the error reply
    "Target client not found", an answer or a candidate is dropped and
    the requester is told nothing. The state is unchanged in every case. *)
Theorem ultimate_unknown_target_offer_refused_rest_dropped (e : env) (kind : signal)
    (c : string) (w : ws) (m payload tgt : json) (u : Ultimate.state) :
  get m (signal_key kind) = Ok payload ->
  get m "target_client" = Ok tgt ->
  truthy tgt = false \/ lookup_key (Ultimate.active_connections u) tgt = Ok None ->
  alive e w = true ->
  ultimate_signal_handler e kind c m w u
  = Outcome (Ok tt) u
      match kind with
      | Offer => [Sent w (error_reply "Target client not found")]
      | _ => []
      end.
Proof.
  intros Hp Ht Hno Hw.
  assert (Hreg : Ultimate.target_registered tgt u = Outcome (Ok false) u []).
  { unfold Ultimate.target_registered.
    destruct (truthy tgt); [| reflexivity].
    destruct Hno as [Hno | Hno]; [discriminate |].
    exec with (rewrite ?Hno). reflexivity. }
  destruct kind; cbn [ultimate_signal_handler signal_key] in *;
    [unfold Ultimate.handle_webrtc_offer
    |unfold Ultimate.handle_webrtc_answer
    |unfold Ultimate.handle_webrtc_ice_candidate];
    exec with (rewrite ?Hp, ?Ht);
    rewrite (bind_run _ _ u _ _ _ Hreg), prepend_nil; cbv beta iota;
    try reflexivity.
  now rewrite send_text_alive.
Qed.

Lemma ultimate_unknown_target_offer_refused_rest_dropped_witness :
  Ultimate.handle_webrtc_offer (demo_env "T1") "alice" ultimate_offer_to_carol 1%nat
                               ultimate_connected
  = Outcome (Ok tt) ultimate_connected
      [Sent 1%nat (error_reply "Target client not found")].
Proof.
  assert (Hcarol : lookup_key (Ultimate.active_connections ultimate_connected)
                              (JStr "carol") = Ok None)
    by (vm_compute; reflexivity).
  exact (ultimate_unknown_target_offer_refused_rest_dropped (demo_env "T1") Offer
           "alice" 1%nat ultimate_offer_to_carol (sdp "v=0 alice") (JStr "carol")
           ultimate_connected eq_refl eq_refl (or_intror Hcarol) eq_refl).
Defined.

(** ** The streaming handlers of ultimate_main.py *)

Lemma no_transfer_data_app l1 l2 :
  no_transfer_data l1 -> no_transfer_data l2 -> no_transfer_data (l1 ++ l2).
Proof. intros H1 H2. apply Forall_app. now split. Qed.

Lemma stream_relation_nil s : stream_relation s s [].
Proof. intros I. split; [exact I | constructor]. Qed.

Lemma stream_relation_app s1 s2 s3 o1 o2 :
  stream_relation s1 s2 o1 -> stream_relation s2 s3 o2 ->
  stream_relation s1 s3 (o1 ++ o2).
Proof.
  intros H1 H2 I. destruct (H1 I) as [I2 F1]. destruct (H2 I2) as [I3 F2].
  split; [exact I3 | now apply no_transfer_data_app].
Qed.

Lemma silent_nil {S : Type} (s : S) : silent s s [].
Proof. reflexivity. Qed.

Lemma silent_app {S : Type} (s1 s2 s3 : S) o1 o2 :
  silent s1 s2 o1 -> silent s2 s3 o2 -> silent s1 s3 (o1 ++ o2).
Proof. unfold silent. now intros -> ->. Qed.

(** The optimizer never sends. *)
Lemma optimizer_update_silent metrics o :
  out (StreamingOptimizer.update_performance_metrics metrics o) = [].
Proof.
  pose proof (@silent_nil StreamingOptimizer.optimizer) as Hnil.
  pose proof (@silent_app StreamingOptimizer.optimizer) as Happ.
  change (holds_at silent (StreamingOptimizer.update_performance_metrics metrics) o).
  unfold StreamingOptimizer.update_performance_metrics,
    StreamingOptimizer._adaptive_optimization.
  repeat first [ apply h_modify; reflexivity | holds_step ].
Qed.

Lemma optimizer_optimize_silent o :
  out (StreamingOptimizer.optimize_for_conditions o) = [].
Proof. reflexivity. Qed.

Lemma optimizer_report_silent o :
  out (StreamingOptimizer.get_optimization_report o) = [].
Proof.
  pose proof (@silent_nil StreamingOptimizer.optimizer) as Hnil.
  pose proof (@silent_app StreamingOptimizer.optimizer) as Happ.
  change (holds_at silent StreamingOptimizer.get_optimization_report o).
  unfold StreamingOptimizer.get_optimization_report.
  repeat first [ apply h_modify; reflexivity | holds_step ].
Qed.

(** A computation of the optimizer that sends nothing keeps the streams. *)
Lemma engine_stream_relation {A} (m : M StreamingOptimizer.optimizer A) s :
  out (m (UltimateStreaming.optimizer s)) = [] ->
  holds_at stream_relation (UltimateStreaming.engine m) s.
Proof.
  intros Hout. unfold holds_at, UltimateStreaming.engine, zoom.
  destruct (m (UltimateStreaming.optimizer s)) as [r o log]. cbn in *. subst log.
  intros I. split; [exact I | constructor].
Qed.

Lemma manager_relation_nil u : manager_relation u u [].
Proof. split; [reflexivity | constructor]. Qed.

Lemma manager_relation_app u1 u2 u3 o1 o2 :
  manager_relation u1 u2 o1 -> manager_relation u2 u3 o2 ->
  manager_relation u1 u3 (o1 ++ o2).
Proof.
  intros [-> F1] [-> F2]. split; [reflexivity | now apply no_transfer_data_app].
Qed.

(** What holds of a computation of the connection manager holds of it as
    part of the server. *)
Lemma manager_stream_relation {A} (m : M Ultimate.state A) s :
  holds_at manager_relation m (UltimateStreaming.manager s) ->
  holds_at stream_relation (UltimateStreaming.connection_manager m) s.
Proof.
  unfold holds_at, UltimateStreaming.connection_manager, zoom.
  destruct (m (UltimateStreaming.manager s)) as [r u log]. cbn.
  intros [-> Hout] I. split; [| exact Hout].
  now destruct s.
Qed.

Lemma ultimate_send_holds e target msg u :
  carries_transfer msg = false ->
  holds_at manager_relation (Ultimate.send_to_client e target msg) u.
Proof.
  intros Hmsg. unfold holds_at, Ultimate.send_to_client. exec.
  destruct (lookup_key (Ultimate.active_connections u) target) as [[w|]|x]; exec;
    try apply manager_relation_nil.
  unfold try_except, bind, send_text, ret. destruct (alive e w); cbn.
  - split; [reflexivity |]. repeat constructor. exact Hmsg.
  - apply manager_relation_nil.
Qed.

(** The three signaling handlers keep the whole state and send only
    signaling messages and error replies. *)
Lemma ultimate_signal_holds e kind c m w u :
  holds_at manager_relation (ultimate_signal_handler e kind c m w) u.
Proof.
  pose proof manager_relation_nil as Hnil.
  pose proof manager_relation_app as Happ.
  destruct kind; cbn [ultimate_signal_handler];
    [unfold Ultimate.handle_webrtc_offer
    |unfold Ultimate.handle_webrtc_answer
    |unfold Ultimate.handle_webrtc_ice_candidate];
    unfold Ultimate.target_registered;
    repeat first
      [ apply ultimate_send_holds; reflexivity
      | apply h_send_text;
        [assumption | split; [reflexivity | repeat constructor]]
      | holds_step ].
Qed.

Lemma assoc_dict_set_ne k k' v fields :
  k' <> k -> assoc k' (UltimateStreaming.dict_set k v fields) = assoc k' fields.
Proof.
  intros Hne. induction fields as [| [k0 v0] rest IH]; cbn.
  - destruct (String.eqb_spec k k'); congruence.
  - destruct (String.eqb_spec k0 k) as [-> | Hk0]; cbn.
    + destruct (String.eqb_spec k k'); congruence.
    + destruct (String.eqb_spec k0 k'); [reflexivity | exact IH].
Qed.

Lemma anonymous_insert s k fields :
  streams_anonymous s ->
  assoc "receiver_id" fields = None -> assoc "sender_id" fields = None ->
  streams_anonymous (UltimateStreaming.with_streams (insert k (JObj fields)) s).
Proof.
  intros I Hr Hs k' v. unfold UltimateStreaming.active_streams. cbn.
  destruct (decide (k = k')) as [<- | Hne].
  - rewrite lookup_insert_eq. intros [= <-]. eauto.
  - rewrite lookup_insert_ne by assumption. apply I.
Qed.

Lemma anonymous_delete s k :
  streams_anonymous s -> streams_anonymous (UltimateStreaming.with_streams (delete k) s).
Proof.
  intros I k' v. unfold UltimateStreaming.active_streams. cbn.
  destruct (decide (k = k')) as [<- | Hne].
  - now rewrite lookup_delete_eq.
  - rewrite lookup_delete_ne by assumption. apply I.
Qed.

(** Under [streams_anonymous] a stream has no party to forward to. *)
Lemma anonymous_no_party s tid stream key v :
  streams_anonymous s ->
  lookup_key (UltimateStreaming.active_streams s) tid = Ok (Some stream) ->
  key = "receiver_id" \/ key = "sender_id" ->
  get stream key = Ok v -> truthy v = false.
Proof.
  intros I Hl Hkey Hget. apply lookup_key_some in Hl. destruct Hl as (k & -> & Hl).
  destruct (I k stream Hl) as (fields & -> & Hr & Hs).
  unfold get, get_default in Hget.
  destruct Hkey as [-> | ->]; [rewrite Hr in Hget | rewrite Hs in Hget];
    injection Hget as <-; reflexivity.
Qed.

Section StreamHandlers.
Variable e : env.
Variable clock : Q.
Variable w : ws.

Let Hnil := stream_relation_nil.
Let Happ := stream_relation_app.

Lemma stream_reply_holds msg s :
  carries_transfer msg = false ->
  holds_at stream_relation (send_text (alive e) w msg) s.
Proof.
  intros Hmsg. apply h_send_text; [exact Hnil |].
  intros I. split; [exact I |]. repeat constructor. exact Hmsg.
Qed.

Lemma create_optimized_stream_holds k fi s :
  holds_at stream_relation (UltimateStreaming.create_optimized_stream clock k fi) s.
Proof.
  unfold UltimateStreaming.create_optimized_stream.
  repeat first
    [ apply engine_stream_relation; apply optimizer_optimize_silent
    | apply h_modify; intros I; split; [| constructor];
      now apply anonymous_insert
    | holds_step ].
Qed.

Lemma update_stream_performance_holds tid metrics s :
  holds_at stream_relation
    (UltimateStreaming.update_stream_performance clock tid metrics) s.
Proof.
  unfold UltimateStreaming.update_stream_performance.
  apply h_bind_gets. apply h_bind_lift; [exact Hnil |]. intros found Hfound.
  destruct found as [stream0|]; [| apply Hnil].
  destruct tid; try apply Hnil.
  apply h_bind; [exact Happ | |].
  { apply engine_stream_relation. apply optimizer_update_silent. }
  intros _ s1. apply h_bind_gets.
  destruct (UltimateStreaming.active_streams s1 !! s0) as [stream|] eqn:Hl;
    [| apply Hnil].
  unfold holds_at, stream_relation. intros I.
  destruct (I _ _ Hl) as (fields & -> & Hr & Hs).
  cbn [UltimateStreaming.set_item]. exec. cbn [st out]. split; [| constructor].
  apply anonymous_insert; [apply anonymous_insert |..];
    rewrite ?assoc_dict_set_ne by discriminate; assumption.
Qed.

End StreamHandlers.

(** A branch that forwards to the party a stream names is never taken. *)
Ltac no_party :=
  lazymatch goal with
  | Hl : lookup_key (UltimateStreaming.active_streams ?s) _ = Ok (Some ?stream),
    Hg : get ?stream ?key = Ok ?v,
    Ht : truthy ?v = true |- holds_at stream_relation _ ?s =>
      let I := fresh "I" in
      intros I; exfalso;
      assert (truthy v = false)
        by (eapply (anonymous_no_party s _ stream key v I Hl); [auto | exact Hg]);
      congruence
  end.

Section StreamDispatch.
Variable e : env.
Variable clock : Q.
Variable w : ws.

Let Hnil := stream_relation_nil.
Let Happ := stream_relation_app.

Lemma stream_start_holds c m s :
  holds_at stream_relation
    (UltimateStreaming.handle_ultimate_file_transfer_start e clock c m w) s.
Proof.
  unfold UltimateStreaming.handle_ultimate_file_transfer_start.
  repeat first
    [ apply create_optimized_stream_holds
    | apply manager_stream_relation; apply ultimate_send_holds; reflexivity
    | apply stream_reply_holds; reflexivity
    | holds_step ].
Qed.

Lemma stream_chunk_holds c m s :
  holds_at stream_relation
    (UltimateStreaming.handle_optimized_file_chunk e clock c m w) s.
Proof.
  unfold UltimateStreaming.handle_optimized_file_chunk.
  repeat first
    [ no_party
    | apply update_stream_performance_holds
    | apply stream_reply_holds; reflexivity
    | holds_step ].
Qed.

Lemma stream_ack_holds c m s :
  holds_at stream_relation (UltimateStreaming.handle_chunk_ack e clock c m w) s.
Proof.
  unfold UltimateStreaming.handle_chunk_ack.
  repeat first
    [ no_party
    | apply update_stream_performance_holds
    | holds_step ].
Qed.

Lemma stream_complete_holds c m s :
  holds_at stream_relation (UltimateStreaming.handle_transfer_complete e c m w) s.
Proof.
  unfold UltimateStreaming.handle_transfer_complete.
  apply h_bind_lift; [exact Hnil |]. intros tid Hid.
  apply h_bind_gets. apply h_bind_lift; [exact Hnil |]. intros found Hl.
  destruct found as [stream|]; [| apply Hnil].
  destruct tid as [| | | | k | |]; try apply Hnil.
  intros I.
  assert (Hs : get stream "sender_id" = Ok JNull).
  { cbn [lookup_key] in Hl. injection Hl as Hl.
    destruct (I k stream Hl) as (fields & -> & _ & Hs).
    unfold get, get_default. now rewrite Hs. }
  pose proof (optimizer_report_silent (UltimateStreaming.optimizer s)) as Hsilent.
  unfold UltimateStreaming.engine.
  destruct (StreamingOptimizer.get_optimization_report (UltimateStreaming.optimizer s))
    as [[report|x] o log] eqn:Hrep; cbn in Hsilent; subst log.
  - rewrite (bind_run _ _ s _ _ _ (zoom_run _ _ _ s _ _ _ Hrep)), prepend_nil.
    exec with (rewrite ?Hs; cbn [truthy]). cbn [st out]. split; [| constructor].
    apply anonymous_delete. intros k' v. apply I.
  - rewrite (bind_raise _ _ s _ _ _ (zoom_run _ _ _ s _ _ _ Hrep)).
    cbn [st out]. split; [| constructor]. intros k' v. apply I.
Qed.

End StreamDispatch.

Lemma anonymous_manager s u :
  Ultimate.active_streams u = UltimateStreaming.active_streams s ->
  streams_anonymous s -> streams_anonymous (UltimateStreaming.with_manager u s).
Proof.
  intros Hu I k v. unfold UltimateStreaming.active_streams. cbn. rewrite Hu. apply I.
Qed.

Lemma stream_dispatch_holds e clock c m w s :
  holds_at stream_relation (UltimateStreaming.handle_advanced_message e clock c m w) s.
Proof.
  pose proof stream_relation_nil as Hnil.
  pose proof stream_relation_app as Happ.
  unfold UltimateStreaming.handle_advanced_message,
    UltimateStreaming.handle_device_capabilities.
  repeat first
    [ apply stream_start_holds
    | apply stream_chunk_holds
    | apply stream_ack_holds
    | apply stream_complete_holds
    | apply (stream_reply_holds e w); reflexivity
    | apply manager_stream_relation;
      first [ exact (ultimate_signal_holds e Offer c m w _)
            | exact (ultimate_signal_holds e Answer c m w _)
            | exact (ultimate_signal_holds e Candidate c m w _) ]
    | apply h_modify; intros I; split; [exact I | constructor]
    | holds_step ].
Qed.

Lemma stream_step_holds e clock ev s :
  stream_relation s (st (UltimateStreaming.step e clock ev s))
                  (out (UltimateStreaming.step e clock ev s)).
Proof.
  pose proof stream_relation_nil as Hnil.
  pose proof stream_relation_app as Happ.
  destruct ev as [c w | c w data | c]; cbn [UltimateStreaming.step st out].
  - intros I. split; [| constructor]. now apply anonymous_manager.
  - change (holds_at stream_relation (UltimateStreaming.on_text e clock c w data) s).
    unfold UltimateStreaming.on_text.
    repeat first
      [ apply stream_dispatch_holds
      | apply h_modify; intros I; split; [| constructor]; now apply anonymous_manager
      | holds_step ].
  - intros I. split; [| constructor]. now apply anonymous_manager.
Qed.

(** X21: ultimate_main.py never passes a chunk, an acknowledgement or a
    completion notice from one client to the other. The stream
    configuration [create_optimized_stream] records holds the file
    info but neither party, the handlers look the party up in it, and
    nothing ever adds one: so over any sequence of connections, messages
    (of any content) and disconnections, starting with streams that name
    no party (as at startup), no stream ever names one and no message of
    type file_chunk, chunk_ack or transfer_completed is sent to anybody. *)
Theorem ultimate_relays_no_transfer_data (evs : list (env * Q * UltimateStreaming.event)) :
  forall s : UltimateStreaming.state,
  streams_anonymous s ->
  streams_anonymous (fst (UltimateStreaming.run evs s))
  /\ no_transfer_data (snd (UltimateStreaming.run evs s)).
Proof.
  induction evs as [| [[e clock] ev] rest IH]; intros s I.
  - split; [exact I | constructor].
  - cbn [UltimateStreaming.run].
    pose proof (stream_step_holds e clock ev s I) as [I1 F1].
    destruct (UltimateStreaming.step e clock ev s) as [r s1 o1]. cbn [st out] in *.
    destruct (IH s1 I1) as [I2 F2].
    destruct (UltimateStreaming.run rest s1) as [s2 o2]. cbn [fst snd] in *.
    split; [exact I2 | now apply no_transfer_data_app].
Qed.

Lemma ultimate_relays_no_transfer_data_witness :
  streams_anonymous (fst (UltimateStreaming.run ultimate_session ultimate_started))
  /\ no_transfer_data (snd (UltimateStreaming.run ultimate_session ultimate_started)).
Proof.
  assert (I0 : streams_anonymous ultimate_started).
  { intros k v H. exfalso. revert H. vm_compute. discriminate. }
  exact (ultimate_relays_no_transfer_data ultimate_session ultimate_started I0).
Defined.

(** ** The performance samples of the streaming optimizer
       (streaming_optimizer.py, ultimate_main.py) *)

Lemma sampling_relation_nil s : sampling_relation s s [].
Proof. intros I. auto. Qed.

Lemma sampling_relation_app s1 s2 s3 o1 o2 :
  sampling_relation s1 s2 o1 -> sampling_relation s2 s3 o2 ->
  sampling_relation s1 s3 (o1 ++ o2).
Proof.
  intros H1 H2 I. destruct (H1 I) as (I2 & C2 & S2).
  destruct (H2 I2) as (I3 & C3 & S3).
  split; [exact I3 |]. split; [congruence |].
  rewrite C2 in S3. destruct S3 as [S3 | S3]; [rewrite S3; exact S2 | now right].
Qed.

(** Whatever leaves the optimizer alone. *)
Lemma sampling_same_optimizer s s' log :
  UltimateStreaming.optimizer s' = UltimateStreaming.optimizer s ->
  sampling_relation s s' log.
Proof. intros E I. rewrite E. auto. Qed.

Lemma sampling_manager {A} (m : M Ultimate.state A) s :
  holds_at sampling_relation (UltimateStreaming.connection_manager m) s.
Proof.
  unfold holds_at, UltimateStreaming.connection_manager, zoom.
  destruct (m (UltimateStreaming.manager s)) as [r u log].
  now apply sampling_same_optimizer.
Qed.

Lemma sampling_optimize s :
  holds_at sampling_relation
    (UltimateStreaming.engine StreamingOptimizer.optimize_for_conditions) s.
Proof.
  intros I. cbn. split; [exact I |]. split; [reflexivity | now right].
Qed.

Lemma optimizer_report_kept o :
  st (StreamingOptimizer.get_optimization_report o) = o.
Proof.
  assert (Hnil : forall o0, optimizer_kept o0 o0 []) by reflexivity.
  assert (Happ : forall o1 o2 o3 l1 l2,
             optimizer_kept o1 o2 l1 -> optimizer_kept o2 o3 l2 ->
             optimizer_kept o1 o3 (l1 ++ l2)).
  { unfold optimizer_kept. congruence. }
  change (holds_at optimizer_kept StreamingOptimizer.get_optimization_report o).
  unfold StreamingOptimizer.get_optimization_report.
  repeat holds_step.
Qed.

Lemma sampling_report s :
  holds_at sampling_relation
    (UltimateStreaming.engine StreamingOptimizer.get_optimization_report) s.
Proof.
  unfold holds_at, UltimateStreaming.engine, zoom.
  pose proof (optimizer_report_kept (UltimateStreaming.optimizer s)) as Hst.
  destruct (StreamingOptimizer.get_optimization_report (UltimateStreaming.optimizer s))
    as [r o log]. cbn in *. now apply sampling_same_optimizer.
Qed.

(** Metrics without a transfer speed, a latency or a success rate add no
    sample, and without a transfer speed sample nothing is adapted. *)
Lemma optimizer_update_unsampled metrics o :
  assoc "transfer_speed" metrics = None ->
  assoc "latency" metrics = None ->
  assoc "success_rate" metrics = None ->
  no_samples o ->
  StreamingOptimizer.update_performance_metrics metrics o = Outcome (Ok tt) o [].
Proof.
  intros H1 H2 H3 (S1 & S2 & S3).
  unfold StreamingOptimizer.update_performance_metrics,
    StreamingOptimizer._adaptive_optimization. exec.
  unfold StreamingOptimizer.record_metrics, StreamingOptimizer.record_metric.
  rewrite H1, H2, H3, S1, S2, S3. cbn [StreamingOptimizer.transfer_speeds].
  unfold ret. f_equal. destruct o; cbn in *; congruence.
Qed.

Section Sampling.
Variable e : env.
Variable clock : Q.

Let Hnil := sampling_relation_nil.
Let Happ := sampling_relation_app.

Lemma sampling_update_stream tid metrics s :
  assoc "transfer_speed" metrics = None ->
  assoc "latency" metrics = None ->
  assoc "success_rate" metrics = None ->
  holds_at sampling_relation
    (UltimateStreaming.update_stream_performance clock tid metrics) s.
Proof.
  intros H1 H2 H3. unfold UltimateStreaming.update_stream_performance.
  apply h_bind_gets. apply h_bind_lift; [exact Hnil |]. intros found Hfound.
  destruct found as [stream0|]; [| apply Hnil].
  destruct tid; try apply Hnil.
  apply h_bind; [exact Happ | |].
  { intros I. unfold UltimateStreaming.engine, zoom.
    rewrite (optimizer_update_unsampled metrics _ H1 H2 H3 I). cbn.
    destruct s; cbn in *. auto. }
  intros _ s1.
  repeat first
    [ apply h_modify; now apply sampling_same_optimizer
    | holds_step ].
Qed.

Lemma sampling_dispatch c m w s :
  holds_at sampling_relation (UltimateStreaming.handle_advanced_message e clock c m w) s.
Proof.
  unfold UltimateStreaming.handle_advanced_message,
    UltimateStreaming.handle_device_capabilities,
    UltimateStreaming.handle_ultimate_file_transfer_start,
    UltimateStreaming.handle_optimized_file_chunk,
    UltimateStreaming.handle_chunk_ack,
    UltimateStreaming.handle_transfer_complete,
    UltimateStreaming.create_optimized_stream.
  repeat first
    [ apply sampling_manager
    | apply sampling_optimize
    | apply sampling_report
    | apply sampling_update_stream; reflexivity
    | apply h_send_text; [exact Hnil | now apply sampling_same_optimizer]
    | apply h_modify; now apply sampling_same_optimizer
    | holds_step ].
Qed.

Lemma sampling_step ev s :
  sampling_relation s (st (UltimateStreaming.step e clock ev s))
                    (out (UltimateStreaming.step e clock ev s)).
Proof.
  destruct ev as [c w0 | c w0 data | c]; cbn [UltimateStreaming.step st out];
    try now apply sampling_same_optimizer.
  change (holds_at sampling_relation (UltimateStreaming.on_text e clock c w0 data) s).
  unfold UltimateStreaming.on_text.
  repeat first
    [ apply sampling_dispatch
    | apply h_modify; now apply sampling_same_optimizer
    | holds_step ].
Qed.

End Sampling.

(** X22: the performance figures the handlers of ultimate_main.py report
    are never sampled, so the chunk size never adapts. Over any sequence of
    connections, messages and disconnections the optimizer's lists of
    transfer speeds, latencies and success rates stay empty (the metrics
    built for a chunk or an acknowledgement have none of these keys), its
    network conditions stay what they were, and its adaptive chunk size
    is the one it started with or the one the conditions determine. *)
Theorem ultimate_metrics_never_sampled (evs : list (env * Q * UltimateStreaming.event)) :
  forall s : UltimateStreaming.state,
  no_samples (UltimateStreaming.optimizer s) ->
  no_samples (UltimateStreaming.optimizer (fst (UltimateStreaming.run evs s)))
  /\ StreamingOptimizer.conditions
       (UltimateStreaming.optimizer (fst (UltimateStreaming.run evs s)))
     = StreamingOptimizer.conditions (UltimateStreaming.optimizer s)
  /\ (StreamingOptimizer.adaptive_chunk_size
        (UltimateStreaming.optimizer (fst (UltimateStreaming.run evs s)))
      = StreamingOptimizer.adaptive_chunk_size (UltimateStreaming.optimizer s)
      \/ StreamingOptimizer.adaptive_chunk_size
           (UltimateStreaming.optimizer (fst (UltimateStreaming.run evs s)))
         = NInt (StreamingOptimizer._calculate_optimal_chunk_size
                   (StreamingOptimizer.conditions (UltimateStreaming.optimizer s)))).
Proof.
  induction evs as [| [[e clock] ev] rest IH]; intros s I.
  - cbn. auto.
  - cbn [UltimateStreaming.run].
    pose proof (sampling_step e clock ev s) as H1.
    destruct (UltimateStreaming.step e clock ev s) as [r s1 o1]. cbn [st out] in *.
    pose proof (IH s1) as H2.
    destruct (UltimateStreaming.run rest s1) as [s2 o2]. cbn [fst snd] in *.
    exact (sampling_relation_app s s1 s2 o1 o2 H1 (fun I1 => H2 I1) I).
Qed.

Lemma ultimate_metrics_never_sampled_witness :
  StreamingOptimizer.adaptive_chunk_size
    (UltimateStreaming.optimizer
       (fst (UltimateStreaming.run ultimate_session ultimate_started)))
  = NInt (128 * 1024).
Proof.
  assert (I0 : no_samples (UltimateStreaming.optimizer ultimate_started))
    by (repeat split).
  destruct (ultimate_metrics_never_sampled ultimate_session ultimate_started I0)
    as (_ & _ & [H | H]); rewrite H; vm_compute; reflexivity.
Defined.

(** ** The adaptive chunk size (streaming_optimizer.py) *)

Lemma min_scaled_in_bounds n :
  (inject_Z (16 * 1024) <= num_to_Q n /\ num_to_Q n <= inject_Z (1024 * 1024))%Q ->
  (inject_Z (16 * 1024)
   <= num_to_Q (StreamingOptimizer.min_scaled n (12 # 10) (1024 * 1024))
   /\ num_to_Q (StreamingOptimizer.min_scaled n (12 # 10) (1024 * 1024))
      <= inject_Z (1024 * 1024))%Q.
Proof.
  intros [Hlo Hhi]. unfold StreamingOptimizer.min_scaled. cbv zeta.
  destruct (Qle_bool (num_to_Q n * (12 # 10)) (inject_Z (1024 * 1024))) eqn:Hc;
    cbn [negb num_to_Q].
  - apply Qle_bool_iff in Hc. split; [| exact Hc].
    change (inject_Z (16 * 1024)) with (16384 # 1)%Q in *. lra.
  - split; [| apply Qle_refl]. unfold inject_Z, Qle. cbn. lia.
Qed.

Lemma max_scaled_in_bounds n f :
  f = (8 # 10)%Q \/ f = (9 # 10)%Q ->
  (inject_Z (16 * 1024) <= num_to_Q n /\ num_to_Q n <= inject_Z (1024 * 1024))%Q ->
  (inject_Z (16 * 1024)
   <= num_to_Q (StreamingOptimizer.max_scaled n f (16 * 1024))
   /\ num_to_Q (StreamingOptimizer.max_scaled n f (16 * 1024))
      <= inject_Z (1024 * 1024))%Q.
Proof.
  intros Hf [Hlo Hhi]. unfold StreamingOptimizer.max_scaled. cbv zeta.
  destruct (Qle_bool (inject_Z (16 * 1024)) (num_to_Q n * f)) eqn:Hc;
    cbn [negb num_to_Q].
  - apply Qle_bool_iff in Hc. split; [exact Hc |].
    change (inject_Z (16 * 1024)) with (16384 # 1)%Q in *.
    change (inject_Z (1024 * 1024)) with (1048576 # 1)%Q in *.
    destruct Hf as [-> | ->]; lra.
  - split; [apply Qle_refl |]. unfold inject_Z, Qle. cbn. lia.
Qed.

Lemma optimal_chunk_size_in_bounds c :
  16 * 1024 <= StreamingOptimizer._calculate_optimal_chunk_size c <= 1024 * 1024.
Proof.
  unfold StreamingOptimizer._calculate_optimal_chunk_size. cbv zeta.
  repeat match goal with |- context [if ?b then _ else _] => destruct b end;
    split; apply Z.leb_le; reflexivity.
Qed.

(** X23: the adaptive chunk size of the streaming optimizer stays between
    16 KB and 1 MB (floats being the exact rationals of the model). If it
    is within these limits, it still is after
    [update_performance_metrics], whatever the metrics and the samples
    collected so far (a fast link scales it by 1.2 up to the cap, a slow or
    lossy one by 0.8 and 0.9 down to the floor, a sample that is no number
    raises and changes nothing), and after [optimize_for_conditions], which
    sets it to 32, 64, 128 or 256 KB. *)
Theorem optimizer_chunk_size_stays_in_bounds (metrics : list (string * json))
    (o : StreamingOptimizer.optimizer) :
  chunk_size_in_bounds o ->
  chunk_size_in_bounds (st (StreamingOptimizer.update_performance_metrics metrics o))
  /\ chunk_size_in_bounds (st (StreamingOptimizer.optimize_for_conditions o)).
Proof.
  intros I. split.
  - assert (Hrefl : forall o0, bounds_kept o0 o0) by (intros o0 H; exact H).
    assert (Htrans : forall o1 o2 o3,
               bounds_kept o1 o2 -> bounds_kept o2 o3 -> bounds_kept o1 o3)
      by (unfold bounds_kept; auto).
    revert I.
    change (keeps_at bounds_kept (StreamingOptimizer.update_performance_metrics metrics) o).
    unfold StreamingOptimizer.update_performance_metrics,
      StreamingOptimizer._adaptive_optimization.
    repeat first
      [ apply at_modify; intros Hbound; exact Hbound
      | apply at_modify; intros Hbound; unfold chunk_size_in_bounds;
        cbn [StreamingOptimizer.set_chunk_size StreamingOptimizer.adaptive_chunk_size];
        first [ apply min_scaled_in_bounds; exact Hbound
              | apply max_scaled_in_bounds; [auto | exact Hbound] ]
      | keeps_step ].
  - cbn. unfold chunk_size_in_bounds. cbn.
    pose proof (optimal_chunk_size_in_bounds (StreamingOptimizer.conditions o)) as [Hlo Hhi].
    unfold inject_Z, Qle. cbn. lia.
Qed.

Lemma optimizer_chunk_size_stays_in_bounds_witness :
  chunk_size_in_bounds
    (st (StreamingOptimizer.update_performance_metrics
           [("transfer_speed", JInt 80000000)] fast_optimizer)).
Proof.
  assert (I : chunk_size_in_bounds fast_optimizer).
  { unfold chunk_size_in_bounds, Qle. cbn. lia. }
  exact (proj1 (optimizer_chunk_size_stays_in_bounds
                  [("transfer_speed", JInt 80000000)] fast_optimizer I)).
Defined.

(** ** The connection quality (streaming_optimizer.py) *)

Lemma lt_lit_mono n n' q :
  (num_to_Q n' <= num_to_Q n)%Q ->
  StreamingOptimizer.lt_lit n q = true -> StreamingOptimizer.lt_lit n' q = true.
Proof.
  unfold StreamingOptimizer.lt_lit. intros Hle H.
  destruct (Qle_bool q (num_to_Q n')) eqn:Hc; [| reflexivity].
  apply Qle_bool_iff in Hc.
  assert (Hq : Qle_bool q (num_to_Q n) = true)
    by (apply Qle_bool_iff; eapply Qle_trans; eassumption).
  now rewrite Hq in H.
Qed.

Lemma gt_lit_mono n n' q :
  (num_to_Q n <= num_to_Q n')%Q ->
  StreamingOptimizer.gt_lit n q = true -> StreamingOptimizer.gt_lit n' q = true.
Proof.
  unfold StreamingOptimizer.gt_lit. intros Hle H.
  destruct (Qle_bool (num_to_Q n') q) eqn:Hc; [| reflexivity].
  apply Qle_bool_iff in Hc.
  assert (Hq : Qle_bool (num_to_Q n) q = true)
    by (apply Qle_bool_iff; eapply Qle_trans; eassumption).
  now rewrite Hq in H.
Qed.

(** A three-step score does not drop when each test that held still holds. *)
Lemma score_mono (t1 t2 t3 t1' t2' t3' : bool) (a b c : Z) :
  (t1 = true -> t1' = true) -> (t2 = true -> t2' = true) ->
  (t3 = true -> t3' = true) ->
  0 <= c <= b -> b <= a ->
  (if t1 then a else if t2 then b else if t3 then c else 0)
  <= (if t1' then a else if t2' then b else if t3' then c else 0).
Proof.
  intros H1 H2 H3 Hc Hb.
  destruct t1; [rewrite H1 by reflexivity; lia |].
  destruct t2; [rewrite H2 by reflexivity; destruct t1'; lia |].
  destruct t3; [rewrite H3 by reflexivity; destruct t1', t2'; lia |].
  destruct t1', t2', t3'; lia.
Qed.

(** X24: the connection quality is monotone in the four measurements. A
    link with no more latency, packet loss and jitter and no less
    bandwidth than another is never rated worse (poor, fair, good,
    excellent in this order). *)
Theorem connection_quality_monotone (l b p j l' b' p' j' : num) :
  (num_to_Q l' <= num_to_Q l)%Q ->
  (num_to_Q b <= num_to_Q b')%Q ->
  (num_to_Q p' <= num_to_Q p)%Q ->
  (num_to_Q j' <= num_to_Q j)%Q ->
  quality_rank (StreamingOptimizer._determine_connection_quality l b p j)
  <= quality_rank (StreamingOptimizer._determine_connection_quality l' b' p' j').
Proof.
  intros Hl Hb Hp Hj.
  pose proof (score_mono _ _ _ _ _ _ 30 20 10
                (lt_lit_mono l l' 20 Hl) (lt_lit_mono l l' 50 Hl)
                (lt_lit_mono l l' 100 Hl) ltac:(lia) ltac:(lia)) as H1.
  pose proof (score_mono _ _ _ _ _ _ 30 20 10
                (gt_lit_mono b b' 100 Hb) (gt_lit_mono b b' 50 Hb)
                (gt_lit_mono b b' 10 Hb) ltac:(lia) ltac:(lia)) as H2.
  pose proof (score_mono _ _ _ _ _ _ 20 10 5
                (lt_lit_mono p p' (1 # 100) Hp) (lt_lit_mono p p' (5 # 100) Hp)
                (lt_lit_mono p p' (1 # 10) Hp) ltac:(lia) ltac:(lia)) as H3.
  pose proof (score_mono _ _ _ _ _ _ 20 10 5
                (lt_lit_mono j j' 10 Hj) (lt_lit_mono j j' 20 Hj)
                (lt_lit_mono j j' 50 Hj) ltac:(lia) ltac:(lia)) as H4.
  unfold StreamingOptimizer._determine_connection_quality. cbv zeta.
  repeat match goal with
         | H : ?x <= ?y |- _ =>
             let a := fresh "score" in
             let a' := fresh "score'" in
             set (a := x) in *; set (a' := y) in *; clearbody a a';
             revert H
         end.
  intros.
  repeat match goal with
         | |- context [?n <=? ?m] => destruct (Z.leb_spec n m)
         end; cbn; lia.
Qed.

Lemma connection_quality_monotone_witness :
  quality_rank (StreamingOptimizer._determine_connection_quality
                  (NFloat 25) (NFloat 100) (NFloat (1 # 100)) (NFloat 5))
  <= quality_rank (StreamingOptimizer._determine_connection_quality
                     (NInt 10) (NInt 200) (NInt 0) (NInt 1)).
Proof.
  apply connection_quality_monotone; unfold Qle; cbn; lia.
Defined.

(** ** Chunks in advanced_server.py *)

(** X25: advanced_server.py stores no file data. A chunk for a known
    transfer whose progress can be computed (the division neither fails nor
    overflows) changes the state in one place only: the transfer's progress
    becomes the chunk's share of the total and its chunks_sent the index
    plus one; the chunk data goes nowhere but into the message for the
    receiver. The sender gets a progress_update first; the chunk then goes
    to the transfer's receiver if registered with a live socket, and is
    lost without notice and without an exception if not (only a receiver
    id that cannot be a dict key raises). *)
Theorem advanced_chunk_forward_only (e : env) (c : string) (w : ws)
    (m : json) (tid : string) (cd ci total next ratio p : json)
    (t : P2PTransferManager.transfer) (s : Advanced.state) :
  get m "transfer_id" = Ok (JStr tid) -> tid <> "" ->
  get m "chunk_data" = Ok cd -> truthy cd = true ->
  get m "chunk_index" = Ok ci -> is_none ci = false ->
  get m "total_chunks" = Ok total ->
  py_add_int ci 1 = Ok next -> py_truediv next total = Ok ratio ->
  py_mul_int ratio 100 = Ok p ->
  Advanced.active_transfers s !! tid = Some t ->
  alive e w = true ->
  Advanced.handle_file_chunk e c m w s
  = Outcome
      match lookup_key (Advanced.active_connections s)
                       (P2PTransferManager.receiver_id t) with
      | Ok _ => Ok tt
      | Raise x => Raise x
      end
      (Advanced.with_p2p
         (P2PTransferManager.with_transfers
            (insert tid (P2PTransferManager.set_chunks_sent next
                           (P2PTransferManager.set_progress p t)))
            (Advanced.p2p_transfer_manager s)) s)
      (Sent w (progress_update (JStr tid) p ci)
       :: notified e (Advanced.active_connections s)
                   (P2PTransferManager.receiver_id t)
                   (file_chunk_msg (JStr tid) cd ci total)).
Proof.
  intros Htid Hne Hcd Tcd Hci Nci Htot Hnext Hratio Hp Ht Hal.
  unfold Advanced.handle_file_chunk.
  exec with (rewrite ?Htid, ?Hcd, ?Hci, ?Htot, ?Tcd, ?Nci, ?(truthy_str tid Hne),
               ?Hnext, ?Hratio, ?Hp, ?Ht; cbn [negb andb]).
  unfold Advanced.p2p.
  rewrite (bind_run _ _ s tt _ []
             (zoom_run _ _ _ s _ _ _
                (p2p_update_progress_known (Advanced.p2p_transfer_manager s) tid t p
                   (Some next) None Ht))).
  rewrite prepend_nil.
  cbn [P2PTransferManager.opt_apply]. rewrite (py_add_int_not_none _ _ _ Hnext).
  set (s1 := Advanced.with_p2p _ s).
  rewrite (bind_run _ _ s1 _ _ _ (send_text_alive (alive e) w _ s1 Hal)).
  exec with (unfold Advanced.active_transfers;
             cbn [s1 Advanced.p2p_transfer_manager Advanced.with_p2p
                  P2PTransferManager.active_transfers
                  P2PTransferManager.with_transfers];
             rewrite ?lookup_insert_eq).
  cbn [P2PTransferManager.receiver_id P2PTransferManager.set_chunks_sent
       P2PTransferManager.set_progress].
  pose proof (advanced_send_to_client_run e s1 (P2PTransferManager.receiver_id t)
                (file_chunk_msg (JStr tid) cd ci total)) as Hsend.
  change (Advanced.active_connections s1) with (Advanced.active_connections s) in *.
  destruct (lookup_key (Advanced.active_connections s) (P2PTransferManager.receiver_id t))
    as [found|x] eqn:Hl.
  - rewrite (bind_run _ _ s1 _ _ _ Hsend). unfold prepend, ret. cbn.
    now rewrite app_nil_r.
  - rewrite (bind_raise _ _ s1 _ _ _ Hsend). unfold prepend. cbn. reflexivity.
Qed.

Lemma advanced_chunk_forward_only_witness :
  out (Advanced.handle_file_chunk (demo_env "T2") "alice" p2p_chunk_0 1%nat
                                  advanced_transfer_pending)
  = [Sent 1%nat (progress_update (JStr p2p_id) (JFloat 100) (JInt 0));
     Sent 2%nat (file_chunk_msg (JStr p2p_id) (JStr "AAAA") (JInt 0) (JInt 1))]
  /\ option_map P2PTransferManager.chunks_sent
       (Advanced.active_transfers
          (st (Advanced.handle_file_chunk (demo_env "T2") "alice" p2p_chunk_0 1%nat
                                          advanced_transfer_pending)) !! p2p_id)
     = Some (JInt 1).
Proof.
  assert (Hne : p2p_id <> "") by discriminate.
  assert (Ht : Advanced.active_transfers advanced_transfer_pending !! p2p_id
               = Some p2p_pending) by (vm_compute; reflexivity).
  rewrite (advanced_chunk_forward_only (demo_env "T2") "alice" 1%nat p2p_chunk_0
             p2p_id (JStr "AAAA") (JInt 0) (JInt 1) (JInt 1) (JFloat 1) (JFloat 100)
             p2p_pending advanced_transfer_pending
             eq_refl Hne eq_refl eq_refl eq_refl eq_refl eq_refl
             eq_refl eq_refl eq_refl Ht eq_refl).
  split; vm_compute; reflexivity.
Defined.

(** ** Choosing the transfer method (ultimate_main.py) *)

Lemma ultimate_send_to_client_str e u r msg :
  Ultimate.send_to_client e (JStr r) msg u
  = Outcome (Ok match Ultimate.active_connections u !! r with
                | Some w => alive e w
                | None => false
                end)
            u (notified e (Ultimate.active_connections u) (JStr r) msg).
Proof.
  unfold Ultimate.send_to_client, notified. exec. cbn [lookup_key].
  destruct (Ultimate.active_connections u !! r) as [w|]; exec; [| reflexivity].
  unfold try_except, bind, send_text, ret. destruct (alive e w); reflexivity.
Qed.

Lemma with_manager_same s :
  UltimateStreaming.with_manager (UltimateStreaming.manager s) s = s.
Proof. now destruct s. Qed.

Lemma create_optimized_stream_run clock k fi s :
  exists opt o,
    StreamingOptimizer.optimize_for_conditions (UltimateStreaming.optimizer s)
    = Outcome (Ok opt) o []
    /\ UltimateStreaming.create_optimized_stream clock k fi s
       = Outcome (Ok (obj [("stream_id", JStr k);
                           ("file_info", fi);
                           ("optimization", opt);
                           ("created_at", JFloat clock);
                           ("status", JStr "initialized")]))
           (UltimateStreaming.with_streams
              (insert k (obj [("stream_id", JStr k);
                              ("file_info", fi);
                              ("optimization", opt);
                              ("created_at", JFloat clock);
                              ("status", JStr "initialized")]))
              (UltimateStreaming.with_optimizer o s)) [].
Proof.
  eexists _, _. split; [reflexivity |].
  unfold UltimateStreaming.create_optimized_stream, UltimateStreaming.engine.
  erewrite bind_run; [| apply zoom_run; reflexivity].
  rewrite prepend_nil. exec. reflexivity.
Qed.

(** X26: with method auto (the default) ultimate_main.py chooses WebRTC
    exactly when both the sender and the receiver have declared, in a
    device_capabilities message, a truthy supports_webrtc; a party that has
    declared nothing counts as not supporting it, and the method is then
    websocket. Either way a stream is recorded under the fresh id, the
    receiver is told if registered with a live socket, and the requester
    gets transfer_started with the same method and optimization. *)
Theorem ultimate_auto_method_needs_both (e : env) (clock : Q) (c : string) (w : ws)
    (m fi : json) (r : string) (sender_caps receiver_caps : list (string * json))
    (s : UltimateStreaming.state) :
  get_default m "file_info" (obj []) = Ok fi ->
  get m "receiver_id" = Ok (JStr r) -> r <> "" ->
  get_default m "method" (JStr "auto") = Ok (JStr "auto") ->
  default (obj []) (UltimateStreaming.device_capabilities s !! c) = JObj sender_caps ->
  default (obj []) (UltimateStreaming.device_capabilities s !! r) = JObj receiver_caps ->
  alive e w = true ->
  let method :=
    JStr (if supports_webrtc sender_caps && supports_webrtc receiver_caps
          then "webrtc" else "websocket") in
  exists opt,
    res (UltimateStreaming.handle_ultimate_file_transfer_start e clock c m w s) = Ok tt
    /\ out (UltimateStreaming.handle_ultimate_file_transfer_start e clock c m w s)
       = (notified e (Ultimate.active_connections (UltimateStreaming.manager s))
                   (JStr r) (ultimate_incoming (uuid4 e) fi c method opt)
          ++ [Sent w (ultimate_transfer_started (uuid4 e) method opt)])%list
    /\ is_Some (UltimateStreaming.active_streams
                  (st (UltimateStreaming.handle_ultimate_file_transfer_start
                         e clock c m w s)) !! uuid4 e).
Proof.
  intros Hfi Hr Hne Hm Hsc Hrc Hw. cbv zeta.
  destruct (create_optimized_stream_run clock (uuid4 e) fi s)
    as (opt & o & _ & Hcreate).
  exists opt.
  assert (Hget : forall caps,
             get (JObj caps) "supports_webrtc"
             = Ok (default JNull (assoc "supports_webrtc" caps))).
  { intros caps. unfold get, get_default. now destruct (assoc _ caps). }
  assert (Htruthy : forall caps,
             truthy (default JNull (assoc "supports_webrtc" caps))
             = supports_webrtc caps).
  { intros caps. unfold supports_webrtc. now destruct (assoc _ caps). }
  unfold UltimateStreaming.handle_ultimate_file_transfer_start.
  exec with (rewrite ?Hfi, ?Hr, ?Hm, ?(truthy_str r Hne), ?Hsc, ?Hrc, ?Hget;
             cbn [negb default]).
  change (eq_str (JStr "auto") "auto") with true. cbv beta iota.
  exec with (rewrite ?Hsc, ?Hrc, ?Hget; cbn [default]).
  rewrite (Htruthy sender_caps).
  set (s1 := UltimateStreaming.with_streams _ _) in Hcreate.
  assert (Hsend : forall msg,
             UltimateStreaming.connection_manager
               (Ultimate.send_to_client e (JStr r) msg) s1
             = Outcome (Ok match Ultimate.active_connections
                                   (UltimateStreaming.manager s) !! r with
                           | Some w' => alive e w'
                           | None => false
                           end)
                 s1
                 (notified e (Ultimate.active_connections (UltimateStreaming.manager s))
                           (JStr r) msg)).
  { intros msg. unfold UltimateStreaming.connection_manager.
    rewrite (zoom_run _ _ _ s1 _ _ _ (ultimate_send_to_client_str e _ r msg)).
    now rewrite with_manager_same. }
  assert (Hs1 : is_Some (UltimateStreaming.active_streams s1 !! uuid4 e)).
  { unfold s1, UltimateStreaming.active_streams. cbn. rewrite lookup_insert_eq. eauto. }
  destruct (supports_webrtc sender_caps); cbn [andb]; exec with (rewrite ?Htruthy).
  - rewrite (bind_run _ _ s _ _ _ Hcreate), prepend_nil.
    exec. unfold get, get_default, obj.
    cbn [assoc String.eqb Ascii.eqb Bool.eqb].
    exec. rewrite (bind_run _ _ s1 _ _ _ (Hsend _)).
    rewrite send_text_alive by assumption.
    unfold prepend. cbn [res st out]. split; [reflexivity |].
    split; [reflexivity | exact Hs1].
  - rewrite (bind_run _ _ s _ _ _ Hcreate), prepend_nil.
    exec. unfold get, get_default, obj.
    cbn [assoc String.eqb Ascii.eqb Bool.eqb].
    exec. rewrite (bind_run _ _ s1 _ _ _ (Hsend _)).
    rewrite send_text_alive by assumption.
    unfold prepend. cbn [res st out]. split; [reflexivity |].
    split; [reflexivity | exact Hs1].
Qed.

Lemma ultimate_auto_method_needs_both_witness :
  exists opt,
    out (UltimateStreaming.handle_ultimate_file_transfer_start
           (demo_env "T1") 1761190804%Q "alice" start_to_bob 1%nat ultimate_both_webrtc)
    = [Sent 2%nat (ultimate_incoming "T1" x_pdf "alice" (JStr "webrtc") opt);
       Sent 1%nat (ultimate_transfer_started "T1" (JStr "webrtc") opt)].
Proof.
  assert (Hne : "bob" <> "") by discriminate.
  assert (Ha : default (obj [])
                 (UltimateStreaming.device_capabilities ultimate_both_webrtc !! "alice")
               = JObj [("supports_webrtc", JBool true)]) by (vm_compute; reflexivity).
  assert (Hb : default (obj [])
                 (UltimateStreaming.device_capabilities ultimate_both_webrtc !! "bob")
               = JObj [("supports_webrtc", JBool true)]) by (vm_compute; reflexivity).
  destruct (ultimate_auto_method_needs_both (demo_env "T1") 1761190804%Q "alice" 1%nat
              start_to_bob x_pdf "bob" _ _ ultimate_both_webrtc
              eq_refl eq_refl Hne eq_refl Ha Hb eq_refl)
    as (opt & _ & Hout & _).
  exists opt. rewrite Hout. vm_compute. reflexivity.
Defined.
